(** * agentkit-sia: the cost-bounded BigQuery connector and the
      generate / validate / repair loop of the BigQuery tool

    A shallow embedding of
      - [app/db/bigquery_database.py]  (class [BigQueryDatabase]),
      - [app/services/chat_agent/tools/library/bigquery_tool/bigquery_tool.py]
        (class [BigQueryTool]),
      - [app/services/chat_agent/helpers/llm.py]  ([get_llm]) and
      - [app/schemas/ga4_schema.py]  ([get_date_range_condition]),
    followed by the properties of the pipeline specification that are
    settled against it and by further properties of the code.

    Conventions of the embedding.
      - A Python [str] is a [string]; a character stands for a code point
        below 256, and [isspace] / [lower] are Python's on that range.
      - A Python [int] is a [Z].
      - Coroutines are run to completion: an [async def] is a computation in
        the monad [M], which threads the observable history (the calls made
        to the warehouse client, to the text generation capability and to the
        run manager) and the state of the worker pool, and which may raise.
      - The warehouse, the language model and the Python runtime's rendering
        of rows are external: they are oracles that may answer differently at
        every point of the history. The constructors of the libraries
        (credentials, client, chat models) and the parser of the tool's
        input are oracles too, which return or raise. *)

From Stdlib Require Import String Ascii ZArith List Bool Lia DecimalString.
Import ListNotations.

Local Open Scope string_scope.
Local Open Scope Z_scope.

(* ===================================================================== *)
(** * Python strings *)
(* ===================================================================== *)

Module PyStr.

Definition nl : ascii := "010"%char.

(** [str.isspace] on one character (code points below 256): the ASCII
    controls 9-13 and 28-31, the space, NEL (133) and NBSP (160). *)
Definition isspace (c : ascii) : bool :=
  let n := nat_of_ascii c in
  (((9 <=? n) && (n <=? 13)) || ((28 <=? n) && (n <=? 32))
   || (n =? 133) || (n =? 160))%nat.

(** [str.lower] on one character: A-Z and the Latin-1 capitals. *)
Definition lower_char (c : ascii) : ascii :=
  let n := nat_of_ascii c in
  if (((65 <=? n) && (n <=? 90))
      || ((192 <=? n) && (n <=? 222) && negb (n =? 215)))%nat
  then ascii_of_nat (n + 32) else c.

Fixpoint lower (s : string) : string :=
  match s with
  | EmptyString => EmptyString
  | String c s' => String (lower_char c) (lower s')
  end.

Fixpoint drop (n : nat) (s : string) : string :=
  match n, s with
  | O, _ => s
  | S _, EmptyString => EmptyString
  | S n', String _ s' => drop n' s'
  end.

Definition startswith (s p : string) : bool := String.prefix p s.

(** [search sub s i]: [s] is the part of the subject that starts at
    offset [i]; the answer is the offset of the first position from
    there on at which [sub] occurs. *)
Fixpoint search (sub s : string) (i : nat) : option nat :=
  if String.prefix sub s then Some i
  else match s with
       | EmptyString => None
       | String _ s' => search sub s' (S i)
       end.

(** Python's clamping of a slice or search index. *)
Definition clamp (len i : Z) : Z :=
  if i <? 0 then Z.max (i + len) 0 else i.

(** [s.find(sub, start)]: lowest index at or after [start] where [sub]
    occurs, [-1] when there is none (also when [start] is past the
    end). *)
Definition find (s sub : string) (start : Z) : Z :=
  let len := Z.of_nat (String.length s) in
  let st := clamp len start in
  if len <? st then -1
  else match search sub (drop (Z.to_nat st) s) (Z.to_nat st) with
       | Some k => Z.of_nat k
       | None => -1
       end.

(** [sub in s]. *)
Definition contains (s sub : string) : bool :=
  match search sub s 0 with Some _ => true | None => false end.

(** [s[a:b]]. *)
Definition slice (s : string) (a b : Z) : string :=
  let len := Z.of_nat (String.length s) in
  let a' := Z.min (clamp len a) len in
  let b' := Z.min (clamp len b) len in
  String.substring (Z.to_nat a') (Z.to_nat (b' - a')) s.

Fixpoint lstrip (s : string) : string :=
  match s with
  | EmptyString => EmptyString
  | String c s' => if isspace c then lstrip s' else s
  end.

Fixpoint rstrip (s : string) : string :=
  match s with
  | EmptyString => EmptyString
  | String c s' =>
      match rstrip s' with
      | EmptyString => if isspace c then EmptyString else String c EmptyString
      | r => String c r
      end
  end.

(** [s.strip()]. *)
Definition strip (s : string) : string := rstrip (lstrip s).

(** [s.split(sep)] for a one-character separator: never empty. *)
Fixpoint split (sep : ascii) (s : string) : list string :=
  match s with
  | EmptyString => [EmptyString]
  | String c s' =>
      if Ascii.eqb c sep then EmptyString :: split sep s'
      else match split sep s' with
           | l :: ls => String c l :: ls
           | [] => [String c EmptyString]
           end
  end.

(** [sep.join(parts)]. *)
Fixpoint join (sep : string) (parts : list string) : string :=
  match parts with
  | [] => EmptyString
  | [p] => p
  | p :: ps => p ++ sep ++ join sep ps
  end.

(** [s.replace(old, new)] for a non-empty [old]: the occurrences are
    replaced left to right without overlap.  [skip] counts the characters
    of a matched occurrence that are still to be passed over. *)
Fixpoint replace_from (old new s : string) (skip : nat) : string :=
  match s with
  | EmptyString => EmptyString
  | String c s' =>
      match skip with
      | S k => replace_from old new s' k
      | O =>
          if String.prefix old s
          then new ++ replace_from old new s' (String.length old - 1)
          else String c (replace_from old new s' O)
      end
  end.

Definition replace (s old new : string) : string := replace_from old new s O.

(** [str(n)] for an integer. *)
Definition of_int (n : Z) : string := NilZero.string_of_int (Z.to_int n).

End PyStr.

(** [l[:n]] on a list, with Python's reading of a negative [n]. *)
Definition py_take {A : Type} (n : Z) (l : list A) : list A :=
  let len := Z.of_nat (List.length l) in
  firstn (Z.to_nat (Z.min (PyStr.clamp len n) len)) l.

(* ===================================================================== *)
(** * Exceptions, history and the monad of coroutines *)
(* ===================================================================== *)

(** An exception is observed by the code through its class, [str(e)] and
    [repr(e)] only. Only subclasses of [Exception] are modelled. *)
Record Exn : Type := mkExn {
  exn_class : string;
  exn_str : string;
  exn_repr : string
}.

(** [QueryCostError(msg)], with the renderings Python gives an exception
    built from one plain message. *)
Definition QueryCostError (msg : string) : Exn :=
  mkExn "QueryCostError" msg ("QueryCostError('" ++ msg ++ "')").

(** What [ThreadPoolExecutor.submit] raises once the pool is shut down. *)
Definition pool_shutdown_error : Exn :=
  mkExn "RuntimeError" "cannot schedule new futures after shutdown"
        "RuntimeError('cannot schedule new futures after shutdown')".

(** A chat message: [SystemMessage(content=...)] or
    [HumanMessage(content=...)]. *)
Inductive Message : Type :=
| SystemMessage (content : string)
| HumanMessage (content : string).

(** The call sites of the tool that consult the text generation. *)
Inductive Step : Type := SelectFields | GenerateQuery | ValidateResult | ImproveQuery.

(** [StreamingDataTypeEnum], as far as the tool uses it. *)
Inductive StreamingDataType : Type := ACTION | APPENDIX.

(** One entry of the history: a call the code made to a collaborator. *)
Inductive Event : Type :=
| EvDryRun (query : string)
    (* client.query(query, job_config=QueryJobConfig(dry_run=True)) *)
| EvQuery (query : string) (params : list (string * string))
    (* client.query(query, ...).result(): the real warehouse call *)
| EvGetTable (table_ref : string)
    (* client.get_table(table_ref) *)
| EvStartJob (query : string)
    (* client.query(query) of paginated_query *)
| EvResultPage (query : string) (page_size : Z) (page_token : option string)
    (* query_job.result(page_size=..., page_token=...) *)
| EvGenerate (step : Step) (messages : list Message) (discard_fast_llm : option bool)
    (* self._agenerate_response(messages, ...) *)
| EvOnText (text : string) (data_type : StreamingDataType)
    (* run_manager.on_text(text, data_type=..., ...) *)
| EvOnToolError (e : Exn).
    (* run_manager.on_tool_error(e, ...) *)

Definition History := list Event.

(** The outcome of a call: a value, a raised exception, or the model's
    loop budget running out (which no handler catches). *)
Inductive Res (A : Type) : Type :=
| Ok (a : A)
| Raise (e : Exn)
| OutOfFuel.
Arguments Ok {A} a.
Arguments Raise {A} e.
Arguments OutOfFuel {A}.

(** The mutable state a coroutine runs in. *)
Record State : Type := mkState {
  history : History;
  pool_is_shutdown : bool      (* self._pool, after shutdown() or not *)
}.

Definition M (A : Type) : Type := State -> Res A * State.

Definition ret {A} (a : A) : M A := fun st => (Ok a, st).

Definition raise {A} (e : Exn) : M A := fun st => (Raise e, st).

Definition bind {A B} (m : M A) (k : A -> M B) : M B :=
  fun st =>
    match m st with
    | (Ok a, st') => k a st'
    | (Raise e, st') => (Raise e, st')
    | (OutOfFuel, st') => (OutOfFuel, st')
    end.

(** [try: m  except Exception as e: h e]. *)
Definition try_except {A} (m : M A) (h : Exn -> M A) : M A :=
  fun st =>
    match m st with
    | (Raise e, st') => h e st'
    | r => r
    end.

Declare Scope coro_scope.
Delimit Scope coro_scope with coro.
Notation "x <- m ;; k" := (bind m (fun x => k))
  (at level 100, m at next level, right associativity) : coro_scope.
Notation "m ;;; k" := (bind m (fun _ => k))
  (at level 100, right associativity) : coro_scope.
Local Open Scope coro_scope.

(** Records one call in the history. *)
Definition emit (ev : Event) : M unit :=
  fun st => (Ok tt, mkState (history st ++ [ev])%list (pool_is_shutdown st)).

(** What a collaborator answers: it returns or it raises. *)
Inductive Answer (A : Type) : Type :=
| Returns (a : A)
| Raises (e : Exn).
Arguments Returns {A} a.
Arguments Raises {A} e.

(** Consults an oracle at the current point of the history. *)
Definition ask {A} (oracle : History -> Answer A) : M A :=
  fun st =>
    match oracle (history st) with
    | Returns a => (Ok a, st)
    | Raises e => (Raise e, st)
    end.

Definition out_of_fuel {A} : M A := fun st => (OutOfFuel, st).

(* ===================================================================== *)
(** * app/db/bigquery_database.py *)
(* ===================================================================== *)

(** The part of [app.core.config.settings] that the connector reads at
    call time. *)
Record Settings : Type := mkSettings {
  BIGQUERY_MAX_BYTES_PROCESSED : Z
}.

(** One entry of [get_table_schema]'s ["fields"] list. *)
Record SchemaField : Type := mkSchemaField {
  field_name : string;
  field_type : string;
  field_mode : string;
  field_description : option string
}.

(** The [google.cloud.bigquery.Client] as the connector uses it. A row is
    whatever [dict(row.items())] gives; its type is left open. *)
Record Client (Row : Type) : Type := mkClient {
  (* total_bytes_processed of the job of a dry run *)
  dry_run_bytes : string -> History -> Answer Z;
  (* the rows of client.query(query, job_config).result() *)
  run_query : string -> list (string * string) -> History -> Answer (list Row);
  (* the schema of client.get_table(ref) *)
  get_table : string -> History -> Answer (list SchemaField);
  (* client.query(query), the job that paginated_query pages through *)
  start_job : string -> History -> Answer unit;
  (* query_job.result(page_size, page_token): rows and next_page_token *)
  result_page : string -> Z -> option string -> History
                -> Answer (list Row * option string)
}.
Arguments dry_run_bytes {Row} _ _ _.
Arguments run_query {Row} _ _ _ _.
Arguments get_table {Row} _ _ _.
Arguments start_job {Row} _ _ _.
Arguments result_page {Row} _ _ _ _ _.

(** A constructed [BigQueryDatabase]. The worker pool [self._pool] is the
    mutable part; it lives in [State]. *)
Record BigQueryDatabase (Row : Type) : Type := mkDb {
  project_id : string;
  dataset_id : string;
  client : Client Row
}.
Arguments project_id {Row} _.
Arguments dataset_id {Row} _.
Arguments client {Row} _.

(** Truth value of an [Optional[str]]: [None] and the empty string are
    false. *)
Definition truthy_str (s : option string) : bool :=
  match s with
  | Some (String _ _) => true
  | _ => false
  end.

(** Truth value of an [Optional[int]]: [None] and [0] are false. *)
Definition truthy_int (n : option Z) : bool :=
  match n with
  | Some k => negb (k =? 0)
  | None => false
  end.

(** Where the generator of [paginated_query] stands: not yet started,
    suspended at its [yield] (holding the token of the page just delivered
    and [page_count]), or finished. *)
Inductive GenState : Type :=
| GenCreated
| GenSuspended (next_page_token : option string) (page_count : Z)
| GenFinished.

(** The generator object: the arguments of the call and its position. *)
Record PageGen : Type := mkGen {
  gen_query : string;
  gen_page_size : Z;
  gen_max_pages : option Z;
  gen_state : GenState
}.

Section Connector.

Context {Row : Type}.
Variable settings : Settings.
Variable db : BigQueryDatabase Row.

(** [ThreadPoolExecutor.submit(task)] followed by awaiting the future. *)
Definition pool_submit {A} (task : M A) : M A :=
  fun st =>
    if pool_is_shutdown st then (Raise pool_shutdown_error, st) else task st.

Definition _execute_query_sync (query : string) (params : list (string * string))
  : M (list Row) :=
  emit (EvQuery query params) ;;;
  ask (run_query (client db) query params).

Definition execute_query (query : string) (params : list (string * string))
  : M (list Row) :=
  (* Dry run for cost estimation *)
  emit (EvDryRun query) ;;;
  total_bytes_processed <- ask (dry_run_bytes (client db) query) ;;
  (* Check if estimated cost is within limits *)
  if total_bytes_processed >? BIGQUERY_MAX_BYTES_PROCESSED settings
  then raise (QueryCostError
                ("Query would process " ++ PyStr.of_int total_bytes_processed
                 ++ " bytes"))
  else
    (* Execute actual query *)
    results <- pool_submit (_execute_query_sync query params) ;;
    ret results.

Definition test_connection : M bool :=
  try_except
    (emit (EvQuery "SELECT 1" []) ;;;
     _ <- ask (run_query (client db) "SELECT 1" []) ;;
     ret true)
    (fun _ => ret false).

Definition get_table_schema (table_name : string) : M (list SchemaField) :=
  let table_ref := project_id db ++ "." ++ dataset_id db ++ "." ++ table_name in
  emit (EvGetTable table_ref) ;;;
  ask (get_table (client db) table_ref).

(** [paginated_query(query, page_size, max_pages)]: calling an async
    generator function only creates the generator. *)
Definition paginated_query (query : string) (page_size : Z)
  (max_pages : option Z) : PageGen :=
  mkGen query page_size max_pages GenCreated.

(** One [__anext__] of the generator, that is the body of
    [paginated_query] from where it stands to its next [yield]:
    [Some batch] is a yielded batch, [None] is the end of the iteration. *)
Definition paginated_query_next (g : PageGen) : M (option (list Row) * PageGen) :=
  let query := gen_query g in
  let page_size := gen_page_size g in
  let max_pages := gen_max_pages g in
  let at_yield (page_token : option string) (page_count : Z) :=
    mkGen query page_size max_pages (GenSuspended page_token page_count) in
  let finished := mkGen query page_size max_pages GenFinished in
  let fetch (page_token : option string) (page_count : Z) :=
    emit (EvResultPage query page_size page_token) ;;;
    page <- ask (result_page (client db) query page_size page_token) ;;
    ret (Some (fst page), at_yield (snd page) page_count) in
  match gen_state g with
  | GenCreated =>
      emit (EvStartJob query) ;;;
      _ <- ask (start_job (client db) query) ;;
      fetch None 0
  | GenSuspended page_token page_count =>
      if negb (truthy_str page_token)
         || (truthy_int max_pages
             && (page_count >=? match max_pages with Some m => m | None => 0 end))
      then ret (None, finished)
      else fetch page_token (page_count + 1)
  | GenFinished => ret (None, finished)
  end.

(** [async for page in generator], gathering the batches. [fuel] bounds
    the number of [__anext__] calls of the model. *)
Fixpoint paginated_query_collect (fuel : nat) (g : PageGen)
  (acc : list (list Row)) : M (list (list Row)) :=
  match fuel with
  | O => out_of_fuel
  | S fuel' =>
      r <- paginated_query_next g ;;
      match r with
      | (Some batch, g') => paginated_query_collect fuel' g' (acc ++ [batch])%list
      | (None, _) => ret acc
      end
  end.

(** [close()]: [self._pool] is an executor object, hence true. *)
Definition close : M unit :=
  fun st => (Ok tt, mkState (history st) true).

End Connector.

(* ===================================================================== *)
(** * app/services/chat_agent/tools/library/bigquery_tool/bigquery_tool.py *)
(* ===================================================================== *)

(** The run manager of LangChain, when one is attached. Its callbacks
    [on_text] and [on_tool_error] are recorded in the history and taken to
    return. *)
Inductive RunManager : Type := AsyncCallbackManagerForToolRun.

(** The configuration of a [BigQueryTool]. A prompt template is the
    function that its [.format(...)] computes (the templates are taken to
    be well formed); an absent or empty optional template is [None]. *)
Record BigQueryTool : Type := mkTool {
  name : string;
  appendix_title : string;
  nb_example_rows : Z;
  validate_empty_results : bool;
  validate_with_llm : bool;
  system_context : string;
  (* prompt_message.format(ga4_schema=..., question=...) *)
  prompt_message : string -> string -> string;
  (* prompt_selection.format(question=...) *)
  prompt_selection : option (string -> string);
  system_context_selection : option string;
  (* prompt_validation.format(query=..., result=..., question=...) *)
  prompt_validation : option (string -> string -> string -> string);
  system_context_validation : option string;
  (* prompt_refinement.format(ga4_schema=..., question=...,
                              previous_query=..., feedback=...) *)
  prompt_refinement : option (string -> string -> string -> string -> string)
}.

(** [x or ""] for an [Optional[str]]. *)
Definition or_empty (s : option string) : string :=
  match s with Some v => v | None => "" end.

(** [x or "no_data"]: [None] and the empty string give the sentinel. *)
Definition or_no_data (s : option string) : string :=
  match s with
  | Some (String c r) => String c r
  | _ => "no_data"
  end.

Definition is_none {A} (o : option A) : bool :=
  match o with None => true | Some _ => false end.

(** [len(l)] as a Python integer. *)
Definition len {A} (l : list A) : Z := Z.of_nat (List.length l).

(** [not l] for a list. *)
Definition is_empty {A} (l : list A) : bool :=
  match l with [] => true | _ :: _ => false end.

(** Lines 231-236 of [_avalidate_response]: the fenced query of a
    response, [None] where the code answers that it could not parse. *)
Definition extract_query (response : string) : option string :=
  let query_start := PyStr.find response "```sql" 0 + 6 in
  let query_end := PyStr.find response "```" query_start in
  if (query_start =? -1) || (query_end =? -1) then None
  else Some (PyStr.strip (PyStr.slice response query_start query_end)).

(** One step of the [for line in lines] of [_parse_validation]. *)
Definition parse_validation_line (acc : bool * string) (line : string)
  : bool * string :=
  let (is_valid, reason) := acc in
  if PyStr.startswith line "Valid:"
  then (PyStr.contains (PyStr.lower line) "yes", reason)
  else if PyStr.startswith line "Reason:"
       then (is_valid, PyStr.strip (PyStr.replace line "Reason:" ""))
       else (is_valid, reason).

Definition _parse_validation (response : string) : bool * string * string :=
  let lines := PyStr.split PyStr.nl (PyStr.strip response) in
  let (is_valid, reason) := fold_left parse_validation_line lines (false, "") in
  (is_valid, "", reason).

Definition _construct_final_response (query_response results_str : string)
  : string :=
  query_response ++ String PyStr.nl (String PyStr.nl "Results: ") ++ results_str.

(** [ToolInputSchema], as far as the tool reads a parsed input. *)
Record ToolInputSchema : Type := mkToolInput {
  latest_human_message : string
}.

(** What indexing an empty tuple raises. *)
Definition IndexError : Exn :=
  mkExn "IndexError" "tuple index out of range"
        "IndexError('tuple index out of range')".

(** [kwargs.get(key, default)]. *)
Fixpoint dict_get (kwargs : list (string * string)) (key default : string)
  : string :=
  match kwargs with
  | [] => default
  | (k, v) :: rest => if String.eqb k key then v else dict_get rest key default
  end.

(** The local variables of the [while] loop of [_arun]. [results_str] is
    first bound in the loop, which always runs once; it starts empty
    here. *)
Record LoopVars : Type := mkVars {
  result : option string;
  retries : Z;
  is_valid : bool;
  results_str : string;
  query_response : string
}.

Section Tool.

Context {Row : Type}.
Variable settings : Settings.
Variable db : BigQueryDatabase Row.
Variable tool : BigQueryTool.

(** The inherited [_agenerate_response(messages, discard_fast_llm=...)]:
    the text generation capability. *)
Variable _agenerate_response :
  list Message -> option bool -> History -> Answer string.

(** The rendering of a list of rows inside an f-string. *)
Variable repr_rows : list Row -> string.

Definition generate (step : Step) (messages : list Message)
  (discard_fast_llm : option bool) : M string :=
  emit (EvGenerate step messages discard_fast_llm) ;;;
  ask (_agenerate_response messages discard_fast_llm).

(** [if run_manager is not None: await m]. *)
Definition with_run_manager (run_manager : option RunManager) (m : M unit)
  : M unit :=
  match run_manager with
  | Some _ => m
  | None => ret tt
  end.

Definition _alist_required_fields (question : string)
  (run_manager : option RunManager) : M string :=
  with_run_manager run_manager (emit (EvOnText "list_fields" ACTION)) ;;;
  let messages :=
    [ SystemMessage (or_empty (system_context_selection tool));
      HumanMessage (match prompt_selection tool with
                    | Some format => format question
                    | None => ""
                    end) ] in
  response <- generate SelectFields messages (Some true) ;;
  let fields := map PyStr.strip (PyStr.split ","%char response) in
  ret (PyStr.join ", " fields).

Definition _agenerate_query (question fields : string)
  (run_manager : option RunManager) : M string :=
  with_run_manager run_manager (emit (EvOnText "generate_query" ACTION)) ;;;
  let messages :=
    [ SystemMessage (system_context tool);
      HumanMessage (prompt_message tool fields question) ] in
  response <- generate GenerateQuery messages (Some true) ;;
  ret response.

(** The summary of lines 247-248. *)
Definition format_results (results : list Row) : string :=
  let sample_rows := py_take (nb_example_rows tool) results in
  "total rows: " ++ PyStr.of_int (len results)
  ++ ", first " ++ PyStr.of_int (len sample_rows)
  ++ " rows: " ++ repr_rows sample_rows.

Definition _avalidate_response (question response : string)
  (run_manager : option RunManager) : M (bool * string * string) :=
  try_except
    ((* Extract query *)
     match extract_query response with
     | None => ret (false, "", "Could not parse SQL query from response")
     | Some query =>
         (* Execute query *)
         results <- execute_query settings db query [] ;;
         if is_empty results
         then ret (false, "", "Query returned no results")
         else
           if validate_empty_results tool && (len results =? 0)
           then ret (false, "", "Query executed but returned no rows")
           else
             (* Format results *)
             let results_str := format_results results in
             (* Validate with LLM if configured *)
             if validate_with_llm tool
             then
               let messages :=
                 [ SystemMessage (or_empty (system_context_validation tool));
                   HumanMessage (match prompt_validation tool with
                                 | Some format => format response results_str question
                                 | None => ""
                                 end) ] in
               validation_response <- generate ValidateResult messages None ;;
               ret (_parse_validation validation_response)
             else ret (true, results_str, "")
     end)
    (fun e =>
       with_run_manager run_manager (emit (EvOnToolError e)) ;;;
       ret (false, "", exn_str e)).

Definition _aimprove_query (question previous_query feedback fields : string)
  (run_manager : option RunManager) : M string :=
  with_run_manager run_manager (emit (EvOnText "improve_query" ACTION)) ;;;
  let messages :=
    [ SystemMessage (system_context tool);
      HumanMessage (match prompt_refinement tool with
                    | Some format => format fields question previous_query feedback
                    | None => ""
                    end) ] in
  generate ImproveQuery messages None.

(** [while result is None and retries <= 3: ...] of [_arun]. [fuel]
    bounds the iterations of the model; the loop itself is the source's. *)
Fixpoint validation_loop (fuel : nat) (question fields : string)
  (run_manager : option RunManager) (v : LoopVars) : M LoopVars :=
  if is_none (result v) && (retries v <=? 3)
  then
    match fuel with
    | O => out_of_fuel
    | S fuel' =>
        r <- _avalidate_response question (query_response v) run_manager ;;
        let '(is_valid', results_str', complaints) := r in
        if is_valid'
        then
          validation_loop fuel' question fields run_manager
            (mkVars (Some (query_response v)) (retries v) is_valid'
                    results_str' (query_response v))
        else
          improved <- _aimprove_query question (query_response v) complaints
                                      fields run_manager ;;
          validation_loop fuel' question fields run_manager
            (mkVars (result v) (retries v + 1) is_valid' results_str' improved)
    end
  else ret v.

(** Lines 145-162 of [_arun]: what is returned once the loop is left. *)
Definition finish (run_manager : option RunManager) (v : LoopVars) : M string :=
  match run_manager with
  | Some _ =>
      if is_valid v
      then
        emit (EvOnText (or_empty (result v)) APPENDIX) ;;;
        ret (_construct_final_response (query_response v) (results_str v))
      else
        emit (EvOnText "no_data" ACTION) ;;;
        ret (or_no_data (result v))
  | None => ret (or_no_data (result v))
  end.

(** The [try] block of [_arun]. *)
Definition _arun_body (fuel : nat) (question : string)
  (run_manager : option RunManager) : M string :=
  (* Get required fields *)
  fields <- _alist_required_fields question run_manager ;;
  (* Generate and validate query *)
  query_response <- _agenerate_query question fields run_manager ;;
  v <- validation_loop fuel question fields run_manager
         (mkVars None 0 false "" query_response) ;;
  finish run_manager v.

(** [_arun], from the parsed input on: the [try] statement of lines
    108-168, where [question] is [query.latest_human_message]. *)
Definition _arun (fuel : nat) (question : string)
  (run_manager : option RunManager) : M string :=
  try_except
    (_arun_body fuel question run_manager)
    (fun e =>
       match run_manager with
       | Some _ => emit (EvOnToolError e) ;;; ret (exn_repr e)
       | None => raise e
       end).

(** [ToolInputSchema.parse_raw], the parser of pydantic: it is external
    and raises on a text that is no valid input. *)
Variable parse_raw : string -> Answer ToolInputSchema.

(** [_arun] from its first line, with its positional arguments [args]
    and its keyword arguments [kwargs]: lines 105-106, which stand before
    the [try], and then the [try] statement. The arguments are the texts
    that [parse_raw] takes. Python evaluates [args[0]] before it calls
    [kwargs.get], whether or not [kwargs] has a ["query"]. *)
Definition _arun_from_input (fuel : nat) (args : list string)
  (kwargs : list (string * string)) (run_manager : option RunManager)
  : M string :=
  match args with
  | [] => raise IndexError
  | arg0 :: _ =>
      let query := dict_get kwargs "query" arg0 in
      query <- ask (fun _ => parse_raw query) ;;
      _arun fuel (latest_human_message query) run_manager
  end.

End Tool.

(* ===================================================================== *)
(** * Observations on a run *)
(* ===================================================================== *)

(** The calls made between two states of one run, oldest first. *)
Definition new_events (st st' : State) : list Event :=
  skipn (List.length (history st)) (history st').

Definition is_real_query (ev : Event) : bool :=
  match ev with EvQuery _ _ => true | _ => false end.

Definition is_generate (ev : Event) : bool :=
  match ev with EvGenerate _ _ _ => true | _ => false end.

Definition is_step (s : Step) (ev : Event) : bool :=
  match ev, s with
  | EvGenerate SelectFields _ _, SelectFields => true
  | EvGenerate GenerateQuery _ _, GenerateQuery => true
  | EvGenerate ValidateResult _ _, ValidateResult => true
  | EvGenerate ImproveQuery _ _, ImproveQuery => true
  | _, _ => false
  end.

Definition is_result_page (ev : Event) : bool :=
  match ev with EvResultPage _ _ _ => true | _ => false end.

Definition count_events (p : Event -> bool) (h : list Event) : nat :=
  List.length (filter p h).

(** The repair cycles of a run: the calls of [_aimprove_query] to the text
    generation. *)
Definition repair_cycles (h : list Event) : nat :=
  count_events (is_step ImproveQuery) h.

(** An answer of a collaborator, as the outcome of the awaiting call. *)
Definition res_of_answer {A} (a : Answer A) : Res A :=
  match a with
  | Returns v => Ok v
  | Raises e => Raise e
  end.

(** [sub] occurs in [s] at offset [k]. *)
Definition occurs_at (sub s : string) (k : nat) : bool :=
  String.prefix sub (PyStr.drop k s).

(** [k] is the first offset from [from] on at which [sub] occurs in [s]. *)
Definition first_occurrence (sub s : string) (from k : nat) : Prop :=
  (from <= k)%nat /\ (k <= String.length s)%nat /\
  occurs_at sub s k = true /\
  forall j, (from <= j < k)%nat -> occurs_at sub s j = false.

(** [sub] does not occur in [s] from [from] on. *)
Definition no_occurrence (sub s : string) (from : nat) : Prop :=
  forall j, (from <= j)%nat -> occurs_at sub s j = false.



(** The tool with [validate_empty_results] set to [flag]. *)
Definition set_validate_empty_results (tool : BigQueryTool) (flag : bool)
  : BigQueryTool :=
  mkTool (name tool) (appendix_title tool) (nb_example_rows tool) flag
         (validate_with_llm tool) (system_context tool) (prompt_message tool)
         (prompt_selection tool) (system_context_selection tool)
         (prompt_validation tool) (system_context_validation tool)
         (prompt_refinement tool).

(** From any state, [m] stays within the model's loop budget and records
    at most [n] repair cycles; what it records is appended to the
    history. *)
Definition within_repairs {A} (n : nat) (m : M A) : Prop :=
  forall st,
    fst (m st) <> OutOfFuel /\
    exists evs, history (snd (m st)) = (history st ++ evs)%list /\
                (repair_cycles evs <= n)%nat.

Section Candidates.

Context {Row : Type}.
Variable settings : Settings.
Variable db : BigQueryDatabase Row.
Variable tool : BigQueryTool.
Variable _agenerate_response :
  list Message -> option bool -> History -> Answer string.
Variable repr_rows : list Row -> string.
Variable question : string.
Variable run_manager : option RunManager.

(** What a run enters its loop with: the field list, the first candidate
    response and the state, when the field selection and the generation
    returned. *)
Definition first_candidate (st : State) : option (string * string * State) :=
  match _alist_required_fields tool _agenerate_response question run_manager st with
  | (Ok fields, st1) =>
      match _agenerate_query tool _agenerate_response question fields
                             run_manager st1 with
      | (Ok response, st2) => Some (fields, response, st2)
      | _ => None
      end
  | _ => None
  end.

(** The candidate that one iteration of the loop makes of the candidate
    [c], a response and the state it is validated in: the repaired
    response, when the validation of [c] fails and the repair returns. *)
Definition next_candidate (fields : string) (c : string * State)
  : option (string * State) :=
  match _avalidate_response settings db tool _agenerate_response repr_rows
                            question (fst c) run_manager (snd c) with
  | (Ok (false, _, complaints), st1) =>
      match _aimprove_query tool _agenerate_response question (fst c)
                            complaints fields run_manager st1 with
      | (Ok improved, st2) => Some (improved, st2)
      | _ => None
      end
  | _ => None
  end.

(** The candidate reached from [c] by [k] iterations. *)
Fixpoint nth_candidate (k : nat) (fields : string) (c : string * State)
  : option (string * State) :=
  match k with
  | O => Some c
  | S k' =>
      match next_candidate fields c with
      | Some c' => nth_candidate k' fields c'
      | None => None
      end
  end.

(** The candidate that the run started in [st] validates in its iteration
    [k] (counted from 0), with the state it is validated in. It exists
    only if the candidates before it failed validation and were
    repaired. *)
Definition candidate (k : nat) (st : State) : option (string * State) :=
  match first_candidate st with
  | Some (fields, response, st2) => nth_candidate k fields (response, st2)
  | None => None
  end.

(** The validation of the candidate [c] says that it is valid. *)
Definition accepted (c : string * State) : bool :=
  match fst (_avalidate_response settings db tool _agenerate_response repr_rows
                                 question (fst c) run_manager (snd c)) with
  | Ok (true, _, _) => true
  | _ => false
  end.

(** None of the candidates that the run started in [st] validates is
    accepted. *)
Definition no_candidate_validates (st : State) : Prop :=
  forall k c, (k <= 3)%nat -> candidate k st = Some c -> accepted c = false.

End Candidates.

(** The text generation always returns. *)
Definition always_returns
  (llm : list Message -> option bool -> History -> Answer string) : Prop :=
  forall messages flag h, exists text, llm messages flag h = Returns text.

(** The state [st] with the worker pool shut down or not. *)
Definition with_pool (st : State) (shut : bool) : State :=
  mkState (history st) shut.

(** The batches a generator of [paginated_query] can still yield under
    the cap [m]. *)
Definition page_budget (m : Z) (g : GenState) : nat :=
  match g with
  | GenCreated => (1 + Z.to_nat m)%nat
  | GenSuspended _ page_count => Z.to_nat (m - page_count)
  | GenFinished => 0%nat
  end.

(** The state after one more recorded call. *)
Definition record_event (st : State) (ev : Event) : State :=
  mkState (history st ++ [ev])%list (pool_is_shutdown st).



(* ===================================================================== *)
(** * Concrete collaborators for the scenarios *)
(* ===================================================================== *)

Module Scenario.

(** Rows with integer cells, as in the tool's test fixture. *)
Definition Row : Type := list (string * Z).

Definition repr_item (kv : string * Z) : string :=
  "'" ++ fst kv ++ "': " ++ PyStr.of_int (snd kv).

Definition repr_row (r : Row) : string :=
  "{" ++ PyStr.join ", " (map repr_item r) ++ "}".

Definition repr_rows (rs : list Row) : string :=
  "[" ++ PyStr.join ", " (map repr_row rs) ++ "]".

Definition two_rows : list Row :=
  [ [("users", 100); ("sessions", 150)];
    [("users", 120); ("sessions", 180)] ].

(** A warehouse with a fixed estimate and result, whose paged result is
    the list [pages]: the n-th call of [result] gets the n-th page. *)
Definition fixed_client (estimate : Z) (rows : list Row)
  (pages : list (list Row * option string)) : Client Row :=
  mkClient Row
    (fun _ _ => Returns estimate)
    (fun _ _ _ => Returns rows)
    (fun _ _ => Returns [mkSchemaField "event_date" "STRING" "NULLABLE" None])
    (fun _ _ => Returns tt)
    (fun _ _ _ h =>
       Returns (nth (count_events is_result_page h - 1) pages ([], None))).

Definition fixed_db (estimate : Z) (rows : list Row)
  (pages : list (list Row * option string)) : BigQueryDatabase Row :=
  mkDb Row "test-project" "test-dataset" (fixed_client estimate rows pages).

(** A text generation that replays [responses] in order, then
    [default], like the fake chat model of the tests. *)
Definition scripted_llm (responses : list (Answer string))
  (default : Answer string)
  : list Message -> option bool -> History -> Answer string :=
  fun _ _ h => nth (count_events is_generate h - 1) responses default.

Definition test_settings : Settings := mkSettings 1000000000.

Definition test_tool (with_llm : bool) : BigQueryTool :=
  mkTool "bigquery_tool" "Analytics Appendix" 3 true with_llm
         "You are a test system"
         (fun _ question => question)
         None None None None None.

Definition fresh : State := mkState [] false.

Definition fenced_query : string :=
  "```sql" ++ String PyStr.nl "SELECT * FROM events```".

Definition boom : Exn := mkExn "Exception" "Test error" "Exception('Test error')".

(** Scenario A: fields, then a well-fenced query; 500 bytes estimated
    against a budget of 1_000_000_000; two rows. *)
Definition llm_a : list Message -> option bool -> History -> Answer string :=
  scripted_llm [Returns "user_id, event_name"; Returns fenced_query]
               (Returns "").

Definition db_a : BigQueryDatabase Row := fixed_db 500 two_rows [].

(** The same with the validation left to the model, which approves. *)
Definition llm_approving
  : list Message -> option bool -> History -> Answer string :=
  scripted_llm [Returns "user_id, event_name"; Returns fenced_query;
                Returns ("Valid: yes" ++ String PyStr.nl "Reason: Query returns data")]
               (Returns "").

Definition rm : option RunManager := Some AsyncCallbackManagerForToolRun.

(** The states scenario A passes through with a run manager attached:
    after the field selection, the generation and the execution. *)
Definition st1_a : State :=
  snd (_alist_required_fields (test_tool false) llm_a "show events" rm fresh).

Definition st2_a : State :=
  snd (_agenerate_query (test_tool false) llm_a "show events"
                        "user_id, event_name" rm st1_a).

Definition st3_a : State :=
  snd (execute_query test_settings db_a "SELECT * FROM events" [] st2_a).

(** Scenario C: the model never produces a fenced query. *)
Definition llm_c : list Message -> option bool -> History -> Answer string :=
  scripted_llm [] (Returns "I cannot write that query.").

(** A model that fails when asked to judge a result (its third call). *)
Definition llm_failing_validation
  : list Message -> option bool -> History -> Answer string :=
  scripted_llm [Returns "user_id, event_name"; Returns fenced_query;
                Raises boom;
                Returns fenced_query;
                Returns ("Valid: yes" ++ String PyStr.nl "Reason: ok")]
               (Returns "").

(** The states of the run with that model and a run manager attached in
    which the repaired candidate is validated, and has been. *)
Definition st_repaired : State :=
  match candidate test_settings db_a (test_tool true) llm_failing_validation
                  repr_rows "show events" rm 1 fresh with
  | Some c => snd c
  | None => fresh
  end.

Definition st_revalidated : State :=
  snd (_avalidate_response test_settings db_a (test_tool true)
                           llm_failing_validation repr_rows "show events"
                           fenced_query rm st_repaired).

(** The state in which the run with that model and no run manager ends. *)
Definition st_answered : State :=
  snd (_arun test_settings db_a (test_tool true) llm_failing_validation
             repr_rows 4 "show events" None fresh).


(** A warehouse with three server pages: tokens "p2", "p3", then none. *)
Definition three_pages : list (list Row * option string) :=
  [ ([[("n", 1)]], Some "p2");
    ([[("n", 2)]], Some "p3");
    ([[("n", 3)]], None) ].

Definition db_pages : BigQueryDatabase Row := fixed_db 500 [] three_pages.

(** The paged result of the connector's test: token "page2", then none. *)
Definition two_pages : list (list Row * option string) :=
  [ ([[("column1", 1)]], Some "page2");
    ([[("column1", 2)]], None) ].

(** The same three pages served by cursor: what a page request gets is
    determined by its [page_token]. *)
Definition serve_three (page_token : option string)
  : list Row * option string :=
  match page_token with
  | None => ([[("n", 1)]], Some "p2")
  | Some token =>
      if String.eqb token "p2" then ([[("n", 2)]], Some "p3")
      else if String.eqb token "p3" then ([[("n", 3)]], None)
      else ([], None)
  end.

Definition db_by_cursor : BigQueryDatabase Row :=
  mkDb Row "test-project" "test-dataset"
       (mkClient Row
          (fun _ _ => Returns 500)
          (fun _ _ _ => Returns [])
          (fun _ _ => Returns [])
          (fun _ _ => Returns tt)
          (fun _ _ page_token _ => Returns (serve_three page_token))).

End Scenario.

(* ===================================================================== *)
(** * More of the connector: construction *)
(* ===================================================================== *)

(** The part of [app.core.config.settings] that [BigQueryDatabase.__init__]
    reads. *)
Record ConnectionSettings : Type := mkConnectionSettings {
  BIGQUERY_ENABLED : bool;
  BIGQUERY_PROJECT_ID : option string;
  BIGQUERY_DATASET : option string;
  BIGQUERY_CREDENTIALS_PATH : option string
}.

(** [ValueError(msg)], rendered as Python renders an exception built from
    one plain message. *)
Definition ValueError (msg : string) : Exn :=
  mkExn "ValueError" msg ("ValueError('" ++ msg ++ "')").

(** [a or b] for two [Optional[str]]. *)
Definition or_else (a b : option string) : option string :=
  if truthy_str a then a else b.

Section Construction.

Context {Row : Type}.

(** What [service_account.Credentials.from_service_account_file] returns. *)
Variable Credentials : Type.

(** [Credentials.from_service_account_file(path, scopes=[...])] and
    [bigquery.Client(project=..., credentials=...)]: both external, both
    may raise. *)
Variable from_service_account_file : string -> Answer Credentials.
Variable make_client : string -> Credentials -> Answer (Client Row).

(** [ThreadPoolExecutor(max_workers=pool_size)], which refuses a size
    that is not positive. *)
Definition new_pool (pool_size : Z) : Answer unit :=
  if pool_size <=? 0
  then Raises (ValueError "max_workers must be greater than 0")
  else Returns tt.

(** [BigQueryDatabase(project_id, dataset_id, credentials_path,
    pool_size)]: the connector, or the exception of the constructor. The
    last line, [self.client.dataset(self.dataset_id)], only builds a
    reference from the two names and is left out. *)
Definition __init__ (settings : ConnectionSettings)
  (project_id dataset_id credentials_path : option string) (pool_size : Z)
  : Answer (BigQueryDatabase Row) :=
  if negb (BIGQUERY_ENABLED settings)
  then Raises (ValueError "BigQuery is not enabled in settings")
  else
    match or_else project_id (BIGQUERY_PROJECT_ID settings) with
    | Some (String c r) =>
        let self_project_id := String c r in
        match or_else dataset_id (BIGQUERY_DATASET settings) with
        | Some (String c' r') =>
            let self_dataset_id := String c' r' in
            match or_else credentials_path (BIGQUERY_CREDENTIALS_PATH settings) with
            | Some (String c'' r'') =>
                let self_credentials_path := String c'' r'' in
                (* Initialize credentials and client *)
                match from_service_account_file self_credentials_path with
                | Raises e => Raises e
                | Returns credentials =>
                    match new_pool pool_size with
                    | Raises e => Raises e
                    | Returns _ =>
                        match make_client self_project_id credentials with
                        | Raises e => Raises e
                        | Returns client =>
                            Returns (mkDb Row self_project_id self_dataset_id client)
                        end
                    end
                end
            | _ => Raises (ValueError "BigQuery credentials path is required")
            end
        | _ => Raises (ValueError "BigQuery dataset ID is required")
        end
    | _ => Raises (ValueError "BigQuery project ID is required")
    end.

End Construction.

(* ===================================================================== *)
(** * app/services/chat_agent/helpers/llm.py *)
(* ===================================================================== *)

(** The part of the settings that [get_llm] reads. *)
Record LlmSettings : Type := mkLlmSettings {
  OPENAI_API_KEY : string;
  OPENAI_ORGANIZATION : option string;
  OPENAI_API_BASE : option string;
  ANTHROPIC_API_KEY : string;
  ANTHROPIC_BASE_URL : string;
  GOOGLE_API_KEY : string
}.

(** A call of one of LangChain's chat-model constructors: the class and
    the keyword arguments. *)
Inductive ChatModelCall : Type :=
| ChatOpenAI (temperature : Z) (model_name : string)
    (openai_organization : option string) (openai_api_key : string)
    (streaming : bool)
| ChatAnthropic (model_name : string) (temperature : Z)
    (anthropic_api_key : string) (base_url : string) (streaming : bool)
| ChatGoogleGenerativeAI (model : string) (temperature : Z)
    (google_api_key : string) (convert_system_message_to_human : bool)
    (stream : bool)
| AzureChatOpenAI (openai_api_base : string) (openai_api_version : string)
    (deployment_name : string) (openai_api_key : string)
    (openai_api_type : string) (streaming : bool).

(** [x in names] for a list of strings. *)
Definition str_in (x : string) (names : list string) : bool :=
  existsb (String.eqb x) names.

(** [api_key if api_key is not None else default]. *)
Definition key_or (api_key : option string) (default : string) : string :=
  match api_key with
  | Some k => k
  | None => default
  end.

Section ChatModel.

(** What the constructors build. *)
Context {BaseLanguageModel : Type}.

(** The constructors themselves: they are external, validate their
    arguments and may raise. *)
Variable construct : ChatModelCall -> Answer BaseLanguageModel.

Definition get_llm (settings : LlmSettings) (llm : string)
  (api_key : option string) : Answer BaseLanguageModel :=
  (* OpenAI Models *)
  if str_in llm ["gpt-4o"; "gpt-4o-2024-08-06"; "gpt-4o-mini";
                 "gpt-4o-mini-2024-07-18"]
  then construct (ChatOpenAI 0 llm (OPENAI_ORGANIZATION settings)
                             (key_or api_key (OPENAI_API_KEY settings)) true)
  (* Anthropic Models *)
  else if String.eqb llm "claude-3-5-sonnet-latest"
  then construct (ChatAnthropic llm 0
                                (key_or api_key (ANTHROPIC_API_KEY settings))
                                (ANTHROPIC_BASE_URL settings) true)
  (* Google Models *)
  else if String.eqb llm "gemini-2.0-flash-exp"
  then construct (ChatGoogleGenerativeAI ("models/" ++ llm) 0
                    (key_or api_key (GOOGLE_API_KEY settings)) true true)
  (* Azure OpenAI (if needed) *)
  else if String.eqb llm "azure-3.5"
  then
    match OPENAI_API_BASE settings with
    | None => Raises (ValueError "OPENAI_API_BASE must be set to use Azure LLM")
    | Some base =>
        construct (AzureChatOpenAI base "2023-03-15-preview" "rnd-gpt-35-turbo"
                                   (key_or api_key (OPENAI_API_KEY settings))
                                   "azure" true)
    end
  (* Default/Fallback *)
  else construct (ChatOpenAI 0 "gpt-4o" (OPENAI_ORGANIZATION settings)
                             (OPENAI_API_KEY settings) true).

End ChatModel.

(* ===================================================================== *)
(** * app/schemas/ga4_schema.py *)
(* ===================================================================== *)

Module GA4Schema.

Definition get_date_range_condition (start_date end_date : string) : string :=
  "_TABLE_SUFFIX BETWEEN '" ++ start_date ++ "' AND '" ++ end_date ++ "'".

End GA4Schema.

(* ===================================================================== *)
(** * Further observations *)
(* ===================================================================== *)

Definition is_dry_run (ev : Event) : bool :=
  match ev with EvDryRun _ => true | _ => false end.

(** The weight of a list of calls, each call weighing [w]. *)
Definition total (w : Event -> nat) (evs : list Event) : nat :=
  list_sum (map w evs).

(** One for a call of the kind [p], nothing for another. *)
Definition hit (p : Event -> bool) (ev : Event) : nat :=
  if p ev then 1%nat else 0%nat.

(** From any state, what [m] records is appended to the history and
    weighs at most [n]. *)
Definition within_cost {A} (w : Event -> nat) (n : nat) (m : M A) : Prop :=
  forall st,
    exists evs, history (snd (m st)) = (history st ++ evs)%list /\
                (total w evs <= n)%nat.

(** The pages that following the cursor visits from [page_token] on, at
    most [n] of them, for a warehouse in which [serve] gives the rows and
    the next token of the page at a token: each page with the token it is
    requested by. The chain ends at a page without a next token. *)
Fixpoint cursor_chain {Row} (serve : option string -> list Row * option string)
  (n : nat) (page_token : option string) : list (option string * list Row) :=
  match n with
  | O => []
  | S n' =>
      (page_token, fst (serve page_token))
      :: (if truthy_str (snd (serve page_token))
          then cursor_chain serve n' (snd (serve page_token))
          else [])
  end.

(** Following the cursor from [page_token] on reaches a page without a
    next token within [n] pages. *)
Fixpoint cursor_ends {Row} (serve : option string -> list Row * option string)
  (n : nat) (page_token : option string) : bool :=
  match n with
  | O => false
  | S n' =>
      negb (truthy_str (snd (serve page_token)))
      || cursor_ends serve n' (snd (serve page_token))
  end.

(** The page request that [paginated_query] makes for a page of the
    chain. *)
Definition page_request {Row} (query : string) (page_size : Z)
  (p : option string * list Row) : Event :=
  EvResultPage query page_size (fst p).

(** The field list that [_alist_required_fields] makes of the model's
    answer (lines 190-192). *)
Definition field_list (response : string) : string :=
  PyStr.join ", " (map PyStr.strip (PyStr.split ","%char response)).

(** The character [c] does not occur in [s]. *)
Fixpoint free_of (c : ascii) (s : string) : bool :=
  match s with
  | EmptyString => true
  | String a s' => negb (Ascii.eqb a c) && free_of c s'
  end.

(** The constructor call that [get_llm] asks for: its outcome with
    constructors that return the call they are given. *)
Definition requested_call (settings : LlmSettings) (llm : string)
  (api_key : option string) : Answer ChatModelCall :=
  get_llm (fun call => Returns call) settings llm api_key.

(** The API key handed to the constructor. *)
Definition api_key_of (call : ChatModelCall) : string :=
  match call with
  | ChatOpenAI _ _ _ k _ => k
  | ChatAnthropic _ _ k _ _ => k
  | ChatGoogleGenerativeAI _ _ k _ _ => k
  | AzureChatOpenAI _ _ _ k _ _ => k
  end.

(** Whether the constructor is asked for a streaming model. *)
Definition streams (call : ChatModelCall) : bool :=
  match call with
  | ChatOpenAI _ _ _ _ b => b
  | ChatAnthropic _ _ _ _ b => b
  | ChatGoogleGenerativeAI _ _ _ _ b => b
  | AzureChatOpenAI _ _ _ _ _ b => b
  end.

(** The model names that [get_llm] knows. *)
Definition known_models : list string :=
  ["gpt-4o"; "gpt-4o-2024-08-06"; "gpt-4o-mini"; "gpt-4o-mini-2024-07-18";
   "claude-3-5-sonnet-latest"; "gemini-2.0-flash-exp"; "azure-3.5"].

(* ===================================================================== *)
(** * Properties *)
(* ===================================================================== *)

Lemma skipn_length_app {A} (l r : list A) : skipn (List.length l) (l ++ r) = r.
Proof. induction l as [|x l IH]; simpl; auto. Qed.

Lemma new_events_app st h' b :
  new_events st (mkState (history st ++ h')%list b) = h'.
Proof. unfold new_events; simpl. apply skipn_length_app. Qed.

Section CostGuard.

Context {Row : Type}.
Variable settings : Settings.
Variable db : BigQueryDatabase Row.

(** C1. With the connector open and a dry run that estimates [E] bytes,
    [execute_query] first performs the dry run; it issues the real
    warehouse call exactly when [E] is at most the configured budget
    (equality runs) and then hands back what the warehouse answers;
    otherwise it raises [QueryCostError] with the dry run as its only
    call. The decision depends on [E] and the budget alone. *)
Theorem execute_query_cost_gate :
  forall (query : string) (params : list (string * string)) (st : State) (E : Z),
    pool_is_shutdown st = false ->
    dry_run_bytes (client db) query (history st ++ [EvDryRun query])%list
    = Returns E ->
    let B := BIGQUERY_MAX_BYTES_PROCESSED settings in
    let r := fst (execute_query settings db query params st) in
    let st' := snd (execute_query settings db query params st) in
    (exists rest, new_events st st' = EvDryRun query :: rest) /\
    (existsb is_real_query (new_events st st') = true <-> E <= B) /\
    (E <= B ->
       new_events st st' = [EvDryRun query; EvQuery query params] /\
       r = res_of_answer (run_query (client db) query params (history st'))) /\
    (B < E ->
       new_events st st' = [EvDryRun query] /\
       r = Raise (QueryCostError
                    ("Query would process " ++ PyStr.of_int E ++ " bytes"))).
Proof.
  intros query params st E Hopen Hdry B r st'.
  subst r st' B.
  unfold execute_query, bind, emit, ask, raise, pool_submit, _execute_query_sync.
  cbn [history pool_is_shutdown].
  rewrite Hdry.
  destruct (E >? BIGQUERY_MAX_BYTES_PROCESSED settings) eqn:Hcmp.
  - (* over budget *)
    assert (Hgt : BIGQUERY_MAX_BYTES_PROCESSED settings < E) by lia.
    cbn [fst snd]. rewrite new_events_app.
    repeat split; try (intros; lia); try reflexivity.
    + eexists; reflexivity.
    + cbn. intros; discriminate.
  - (* within budget *)
    assert (Hle : E <= BIGQUERY_MAX_BYTES_PROCESSED settings) by lia.
    cbn [history pool_is_shutdown]. rewrite Hopen.
    unfold bind, emit, ask. cbn [history pool_is_shutdown].
    rewrite <- app_assoc. cbn [app].
    destruct (run_query (client db) query params
                (history st ++ [EvDryRun query; EvQuery query params])%list)
      as [rows|e] eqn:Hrun; unfold ret; cbn [fst snd history];
      rewrite new_events_app;
      rewrite Hrun;
      (repeat split; try (intros; lia); try reflexivity;
       eexists; reflexivity).
Qed.

End CostGuard.

(** A closed run of the guard at the boundary: an estimate equal to the
    budget is executed. *)
Lemma execute_query_cost_gate_witness :
  new_events Scenario.fresh
    (snd (execute_query Scenario.test_settings
            (Scenario.fixed_db 1000000000 Scenario.two_rows [])
            "SELECT 1" [] Scenario.fresh))
  = [EvDryRun "SELECT 1"; EvQuery "SELECT 1" []].
Proof.
  destruct (execute_query_cost_gate Scenario.test_settings
              (Scenario.fixed_db 1000000000 Scenario.two_rows [])
              "SELECT 1" [] Scenario.fresh 1000000000 eq_refl eq_refl)
    as (_ & _ & Hrun & _).
  apply Hrun. simpl. lia.
Defined.

(** Scenario B: an estimate of 2_000_000_000 bytes against a budget of
    1_000_000_000 is rejected after the dry run. *)
Example execute_query_over_budget :
  execute_query Scenario.test_settings
                (Scenario.fixed_db 2000000000 Scenario.two_rows [])
                "SELECT * FROM large_table" [] Scenario.fresh
  = (Raise (QueryCostError "Query would process 2000000000 bytes"),
     mkState [EvDryRun "SELECT * FROM large_table"] false).
Proof. reflexivity. Qed.

(* --------------------------------------------------------------------- *)
(** ** Searching in strings *)
(* --------------------------------------------------------------------- *)

Lemma drop_nil n : PyStr.drop n "" = "".
Proof. destruct n; reflexivity. Qed.

Lemma drop_drop s : forall i j, PyStr.drop j (PyStr.drop i s) = PyStr.drop (i + j) s.
Proof.
  induction s as [|c s IH]; intros i j.
  - now rewrite !drop_nil.
  - destruct i; simpl; auto.
Qed.

Lemma drop_step s : forall i,
  (i < String.length s)%nat ->
  exists c, PyStr.drop i s = String c (PyStr.drop (S i) s).
Proof.
  induction s as [|c s IH]; intros i Hi; simpl in Hi; [lia|].
  destruct i as [|i].
  - exists c. reflexivity.
  - change (PyStr.drop (S i) (String c s)) with (PyStr.drop i s).
    change (PyStr.drop (S (S i)) (String c s)) with (PyStr.drop (S i) s).
    apply IH. lia.
Qed.

Lemma search_first sub s : forall d i k,
  k = (i + d)%nat ->
  first_occurrence sub s i k ->
  PyStr.search sub (PyStr.drop i s) i = Some k.
Proof.
  induction d as [|d IH]; intros i k Hk (Hle & Hlen & Hocc & Hbefore).
  - replace k with i in * by lia.
    unfold occurs_at in Hocc.
    remember (PyStr.drop i s) as t eqn:Ht.
    destruct t; cbn [PyStr.search]; rewrite Hocc; reflexivity.
  - assert (Hi : occurs_at sub s i = false) by (apply Hbefore; lia).
    unfold occurs_at in Hi.
    destruct (drop_step s i) as [c Hc]; [lia|].
    rewrite Hc in *. cbn [PyStr.search]. rewrite Hi.
    apply IH; [lia|].
    repeat split; auto; try lia.
    intros j Hj. apply Hbefore. lia.
Qed.

Lemma search_none sub t : forall i,
  (forall j, String.prefix sub (PyStr.drop j t) = false) ->
  PyStr.search sub t i = None.
Proof.
  induction t as [|c t IH]; intros i H.
  - pose proof (H O) as H0. cbn [PyStr.drop] in H0.
    cbn [PyStr.search]. now rewrite H0.
  - pose proof (H O) as H0. cbn [PyStr.drop] in H0.
    cbn [PyStr.search]. rewrite H0.
    apply IH. intros j. apply (H (S j)).
Qed.

Lemma search_absent sub s i :
  no_occurrence sub s i ->
  PyStr.search sub (PyStr.drop i s) i = None.
Proof.
  intros H. apply search_none. intros j.
  rewrite drop_drop. apply H. lia.
Qed.

Lemma search_sound sub t : forall i k,
  PyStr.search sub t i = Some k ->
  exists d, k = (i + d)%nat /\ (d <= String.length t)%nat /\
            String.prefix sub (PyStr.drop d t) = true /\
            forall j, (j < d)%nat -> String.prefix sub (PyStr.drop j t) = false.
Proof.
  induction t as [|c t IH]; intros i k H.
  - cbn [PyStr.search] in H.
    destruct (String.prefix sub "") eqn:Hp; [|discriminate].
    inversion H; subst. exists O. repeat split; auto; try lia.
  - cbn [PyStr.search] in H.
    destruct (String.prefix sub (String c t)) eqn:Hp.
    + inversion H; subst. exists O. repeat split; auto; simpl; lia.
    + apply IH in H. destruct H as (d & Hk & Hd & Hocc & Hbefore).
      exists (S d). repeat split; simpl; auto; try lia.
      intros [|j] Hj; [exact Hp|]. apply Hbefore. lia.
Qed.

Lemma length_drop s : forall n,
  (n <= String.length s)%nat ->
  String.length (PyStr.drop n s) = (String.length s - n)%nat.
Proof.
  induction s as [|c s IH]; intros n Hn.
  - now rewrite drop_nil.
  - destruct n; simpl; auto. apply IH. simpl in Hn. lia.
Qed.

Lemma prefix_length sub : forall t,
  String.prefix sub t = true -> (String.length sub <= String.length t)%nat.
Proof.
  induction sub as [|a sub IH]; intros t H; simpl; [lia|].
  destruct t as [|b t]; [discriminate|]. simpl in H.
  destruct (ascii_dec a b); [|discriminate].
  apply IH in H. simpl. lia.
Qed.

Lemma search_drop_sound sub s i k :
  (i <= String.length s)%nat ->
  PyStr.search sub (PyStr.drop i s) i = Some k ->
  first_occurrence sub s i k.
Proof.
  intros Hi H. apply search_sound in H.
  destruct H as (d & Hk & Hd & Hocc & Hbefore).
  rewrite length_drop in Hd by assumption.
  subst k. unfold first_occurrence, occurs_at.
  repeat split; try lia.
  - now rewrite <- drop_drop.
  - intros j Hj. replace j with (i + (j - i))%nat by lia.
    rewrite <- drop_drop. apply Hbefore. lia.
Qed.

Lemma occurs_at_bound sub s k :
  occurs_at sub s k = true -> sub <> "" ->
  (k + String.length sub <= String.length s)%nat.
Proof.
  unfold occurs_at. intros H Hne.
  apply prefix_length in H.
  destruct (Nat.le_gt_cases k (String.length s)) as [Hk|Hk].
  - rewrite length_drop in H by assumption. lia.
  - assert (Hd : PyStr.drop k s = "").
    { clear -Hk. revert k Hk. induction s as [|c s IH]; intros k Hk.
      - apply drop_nil.
      - destruct k; simpl in *; [lia|]. apply IH. lia. }
    rewrite Hd in H. destruct sub; [congruence|simpl in H; lia].
Qed.

Lemma find_first s sub i k :
  first_occurrence sub s i k ->
  PyStr.find s sub (Z.of_nat i) = Z.of_nat k.
Proof.
  intros H. pose proof H as (Hle & Hlen & _ & _).
  unfold PyStr.find, PyStr.clamp.
  destruct (Z.ltb_spec (Z.of_nat i) 0); [lia|].
  destruct (Z.ltb_spec (Z.of_nat (String.length s)) (Z.of_nat i)); [lia|].
  rewrite Nat2Z.id.
  rewrite (search_first sub s (k - i) i k); [reflexivity|lia|assumption].
Qed.

Lemma find_absent s sub i :
  no_occurrence sub s i ->
  PyStr.find s sub (Z.of_nat i) = -1.
Proof.
  intros H. unfold PyStr.find, PyStr.clamp.
  destruct (Z.ltb_spec (Z.of_nat i) 0); [lia|].
  destruct (Z.of_nat (String.length s) <? Z.of_nat i); [reflexivity|].
  rewrite Nat2Z.id. now rewrite search_absent.
Qed.

Lemma slice_substring s a b :
  (a <= b)%nat -> (b <= String.length s)%nat ->
  PyStr.slice s (Z.of_nat a) (Z.of_nat b) = String.substring a (b - a) s.
Proof.
  intros Hab Hb. unfold PyStr.slice, PyStr.clamp.
  destruct (Z.ltb_spec (Z.of_nat a) 0); [lia|].
  destruct (Z.ltb_spec (Z.of_nat b) 0); [lia|].
  rewrite !Z.min_l by lia.
  rewrite Nat2Z.id. f_equal. lia.
Qed.

Section Extraction.

Context {Row : Type}.
Variable settings : Settings.
Variable db : BigQueryDatabase Row.
Variable tool : BigQueryTool.
Variable _agenerate_response :
  list Message -> option bool -> History -> Answer string.
Variable repr_rows : list Row -> string.

(** C2, as the code has it. Let the opening marker occur in the response,
    first at offset [k]. If the closing marker occurs at or after
    [k + 6], first at offset [e], the extracted query is the text strictly
    between the two markers with the white space at both ends stripped.
    If the closing marker does not occur from [k + 6] on, nothing is
    extracted and validation answers, without raising and without calling
    the warehouse, [(False, "", "Could not parse SQL query from
    response")]. *)
Theorem extract_query_between_markers :
  forall (response : string) (k : nat),
    first_occurrence "```sql" response 0 k ->
    (forall e,
        first_occurrence "```" response (k + 6) e ->
        extract_query response
        = Some (PyStr.strip (String.substring (k + 6) (e - (k + 6)) response)))
    /\
    (no_occurrence "```" response (k + 6) ->
     extract_query response = None /\
     forall question run_manager st,
       _avalidate_response settings db tool _agenerate_response repr_rows
                           question response run_manager st
       = (Ok (false, "", "Could not parse SQL query from response"), st)).
Proof.
  intros response k Hopen.
  assert (Hstart : PyStr.find response "```sql" 0 + 6 = Z.of_nat (k + 6)).
  { change 0 with (Z.of_nat 0). rewrite (find_first _ _ _ _ Hopen). lia. }
  split.
  - intros e Hclose. pose proof Hclose as (Hle & Hlen & _ & _).
    unfold extract_query. rewrite Hstart.
    rewrite (find_first _ _ _ _ Hclose).
    destruct (Z.eqb_spec (Z.of_nat (k + 6)) (-1)); [lia|].
    destruct (Z.eqb_spec (Z.of_nat e) (-1)); [lia|].
    cbn [orb]. now rewrite slice_substring.
  - intros Hnone.
    assert (Hex : extract_query response = None).
    { unfold extract_query. rewrite Hstart.
      rewrite (find_absent _ _ _ Hnone).
      now rewrite orb_true_r. }
    split; [exact Hex|].
    intros question run_manager st.
    unfold _avalidate_response, try_except. rewrite Hex. reflexivity.
Qed.

End Extraction.

(** The closed instance: a fenced query with a line break after the
    opening marker. *)
Lemma extract_query_between_markers_witness :
  first_occurrence "```sql" Scenario.fenced_query 0 0 /\
  first_occurrence "```" Scenario.fenced_query 6 27 /\
  extract_query Scenario.fenced_query = Some "SELECT * FROM events".
Proof.
  assert (H0 : first_occurrence "```sql" Scenario.fenced_query 0 0).
  { apply (search_drop_sound _ _ 0 0); [simpl; lia|reflexivity]. }
  assert (H1 : first_occurrence "```" Scenario.fenced_query 6 27).
  { apply (search_drop_sound _ _ 6 27); [simpl; lia|reflexivity]. }
  split; [exact H0|split; [exact H1|]].
  exact (proj1 (extract_query_between_markers
                  Scenario.test_settings
                  (Scenario.fixed_db 500 Scenario.two_rows [])
                  (Scenario.test_tool false)
                  (Scenario.scripted_llm [] (Returns ""))
                  Scenario.repr_rows
                  Scenario.fenced_query 0%nat H0) 27%nat H1).
Defined.

(** C2 as stated fails: on a well-formed response the code does not return
    the text between the markers as it stands, it returns it stripped. *)
Lemma extract_query_exact_substring_counterexample :
  first_occurrence "```sql" Scenario.fenced_query 0 0 /\
  first_occurrence "```" Scenario.fenced_query 6 27 /\
  String.substring 6 (27 - 6) Scenario.fenced_query
  = String PyStr.nl "SELECT * FROM events" /\
  extract_query Scenario.fenced_query
  <> Some (String.substring 6 (27 - 6) Scenario.fenced_query).
Proof.
  split; [|split; [|split]].
  - apply (search_drop_sound _ _ 0 0); [simpl; lia|reflexivity].
  - apply (search_drop_sound _ _ 6 27); [simpl; lia|reflexivity].
  - reflexivity.
  - vm_compute. discriminate.
Qed.

(** Without the opening marker the search for the closing marker starts
    at offset 5, and a response with a closing marker from there on is
    still parsed: lines 231-233 never see [-1] in [query_start]. *)
Example extract_query_without_opening_marker :
  PyStr.contains "see: ```SELECT 1```" "```sql" = false /\
  extract_query "see: ```SELECT 1```" = Some "".
Proof. split; reflexivity. Qed.

(* --------------------------------------------------------------------- *)
(** ** The validation grammar *)
(* --------------------------------------------------------------------- *)







(* --------------------------------------------------------------------- *)
(** ** Validation of one response *)
(* --------------------------------------------------------------------- *)

Section Validation.

Context {Row : Type}.
Variable settings : Settings.
Variable db : BigQueryDatabase Row.
Variable tool : BigQueryTool.
Variable _agenerate_response :
  list Message -> option bool -> History -> Answer string.
Variable repr_rows : list Row -> string.

Lemma len_cons_nonzero {A} (x : A) (l : list A) : (len (x :: l) =? 0) = false.
Proof. unfold len. destruct (Z.eqb_spec (Z.of_nat (List.length (x :: l))) 0); simpl in *; lia. Qed.

(** Validation without the model's opinion succeeds on a non-empty
    result, with the summary of the rows. *)
Lemma validate_rows_without_llm question response run_manager st query rows st' :
  validate_with_llm tool = false ->
  extract_query response = Some query ->
  execute_query settings db query [] st = (Ok rows, st') ->
  rows <> [] ->
  _avalidate_response settings db tool _agenerate_response repr_rows
                      question response run_manager st
  = (Ok (true, format_results tool repr_rows rows, ""), st').
Proof.
  intros Hllm Hq Hrun Hne.
  unfold _avalidate_response, try_except, bind. rewrite Hq, Hrun.
  destruct rows as [|r rows]; [congruence|].
  cbn [is_empty]. rewrite len_cons_nonzero, andb_false_r, Hllm. reflexivity.
Qed.

(** C9. When the extracted query executes and returns no row, validation
    fails with the reason ["Query returned no results"], whatever
    [validate_empty_results] is; and that flag never changes what
    validation does, its branch being behind the guard. *)
Theorem empty_result_never_validates :
  (forall question response run_manager st query st',
      extract_query response = Some query ->
      execute_query settings db query [] st = (Ok [], st') ->
      _avalidate_response settings db tool _agenerate_response repr_rows
                          question response run_manager st
      = (Ok (false, "", "Query returned no results"), st')) /\
  (forall flag question response run_manager st,
      _avalidate_response settings db (set_validate_empty_results tool flag)
                          _agenerate_response repr_rows
                          question response run_manager st
      = _avalidate_response settings db tool _agenerate_response repr_rows
                            question response run_manager st).
Proof.
  split.
  - intros question response run_manager st query st' Hq Hrun.
    unfold _avalidate_response, try_except, bind. rewrite Hq, Hrun.
    reflexivity.
  - intros flag question response run_manager st.
    unfold _avalidate_response, try_except, bind.
    destruct (extract_query response) as [query|]; [|reflexivity].
    destruct (execute_query settings db query [] st) as [[rows|e|] st'];
      try reflexivity.
    destruct rows as [|r rows]; [reflexivity|].
    cbn [is_empty]. rewrite len_cons_nonzero, !andb_false_r. reflexivity.
Qed.

End Validation.

(** A closed run: the warehouse returns no row and the flag is off. *)
Lemma empty_result_never_validates_witness :
  _avalidate_response Scenario.test_settings (Scenario.fixed_db 500 [] [])
    (set_validate_empty_results (Scenario.test_tool false) false)
    Scenario.llm_a Scenario.repr_rows
    "show events" Scenario.fenced_query None Scenario.fresh
  = (Ok (false, "", "Query returned no results"),
     mkState [EvDryRun "SELECT * FROM events";
              EvQuery "SELECT * FROM events" []] false).
Proof.
  exact (proj1 (empty_result_never_validates
                  Scenario.test_settings (Scenario.fixed_db 500 [] [])
                  (set_validate_empty_results (Scenario.test_tool false) false)
                  Scenario.llm_a Scenario.repr_rows)
               "show events" Scenario.fenced_query None Scenario.fresh
               "SELECT * FROM events"
               (mkState [EvDryRun "SELECT * FROM events";
                         EvQuery "SELECT * FROM events" []] false)
               eq_refl eq_refl).
Defined.

(* --------------------------------------------------------------------- *)
(** ** The generate / validate / repair loop *)
(* --------------------------------------------------------------------- *)

Section Loop.

Context {Row : Type}.
Variable settings : Settings.
Variable db : BigQueryDatabase Row.
Variable tool : BigQueryTool.
Variable _agenerate_response :
  list Message -> option bool -> History -> Answer string.
Variable repr_rows : list Row -> string.

Local Abbreviation validate :=
  (_avalidate_response settings db tool _agenerate_response repr_rows).
Local Abbreviation improve := (_aimprove_query tool _agenerate_response).
Local Abbreviation loop :=
  (validation_loop settings db tool _agenerate_response repr_rows).
Local Abbreviation run := (_arun settings db tool _agenerate_response repr_rows).
Local Abbreviation run_body :=
  (_arun_body settings db tool _agenerate_response repr_rows).

Lemma loop_exit fuel question fields run_manager v st :
  is_none (result v) && (retries v <=? 3) = false ->
  loop fuel question fields run_manager v st = (Ok v, st).
Proof. intros H. destruct fuel; cbn [validation_loop]; rewrite H; reflexivity. Qed.

Lemma loop_valid_step fuel question fields run_manager v st rs c st' :
  result v = None -> retries v <= 3 ->
  validate question (query_response v) run_manager st = (Ok (true, rs, c), st') ->
  loop (S fuel) question fields run_manager v st
  = (Ok (mkVars (Some (query_response v)) (retries v) true rs (query_response v)),
     st').
Proof.
  intros Hres Hret Hval. cbn [validation_loop]. rewrite Hres.
  destruct (Z.leb_spec (retries v) 3); [|lia].
  cbn [is_none andb]. unfold bind at 1. rewrite Hval.
  now rewrite loop_exit.
Qed.

Lemma loop_invalid_step fuel question fields run_manager v st rs c st1 q st2 :
  result v = None -> retries v <= 3 ->
  validate question (query_response v) run_manager st = (Ok (false, rs, c), st1) ->
  improve question (query_response v) c fields run_manager st1 = (Ok q, st2) ->
  loop (S fuel) question fields run_manager v st
  = loop fuel question fields run_manager
         (mkVars None (retries v + 1) false rs q) st2.
Proof.
  intros Hres Hret Hval Himp. cbn [validation_loop]. rewrite Hres.
  destruct (Z.leb_spec (retries v) 3); [|lia].
  cbn [is_none andb]. unfold bind at 1. rewrite Hval.
  unfold bind at 1. rewrite Himp. reflexivity.
Qed.


(** Beyond the iterations the loop can still make, fuel changes
    nothing: four iterations of fuel run [_arun] as the source does. *)
Lemma loop_fuel_irrelevant question fields run_manager :
  forall fuel1 fuel2 v st,
    (Z.to_nat (4 - retries v) <= fuel1)%nat ->
    (Z.to_nat (4 - retries v) <= fuel2)%nat ->
    loop fuel1 question fields run_manager v st
    = loop fuel2 question fields run_manager v st.
Proof.
  induction fuel1 as [|fuel1 IH]; intros fuel2 v st H1 H2;
    destruct (is_none (result v) && (retries v <=? 3)) eqn:Hc;
    try (now rewrite !loop_exit by exact Hc);
    pose proof Hc as Hc'; apply andb_prop in Hc'; destruct Hc' as [_ Hle];
    apply Z.leb_le in Hle; [lia|].
  destruct fuel2 as [|fuel2]; [lia|].
  cbn [validation_loop]. rewrite Hc. unfold bind at 1 3.
  destruct (validate question (query_response v) run_manager st)
    as [[[[valid rs] c]|e|] st1]; try reflexivity.
  destruct valid.
  - now rewrite !loop_exit by reflexivity.
  - unfold bind.
    destruct (improve question (query_response v) c fields run_manager st1)
      as [[q|e|] st2]; try reflexivity.
    apply IH; cbn [retries]; lia.
Qed.

Lemma run_fuel_irrelevant fuel question run_manager st :
  (4 <= fuel)%nat ->
  run fuel question run_manager st = run 4 question run_manager st.
Proof.
  intros Hfuel. unfold _arun, try_except, _arun_body, bind.
  destruct (_alist_required_fields _ _ _ _ _) as [[fields|e|] st1];
    try reflexivity.
  destruct (_agenerate_query _ _ _ _ _ _) as [[response|e|] st2];
    try reflexivity.
  rewrite (loop_fuel_irrelevant question fields run_manager fuel 4);
    [reflexivity|cbn [retries]; lia|cbn [retries]; lia].
Qed.

(** A run whose first candidate validates. *)
Lemma run_first_attempt fuel question run_manager st fields st1 response st2
      rs c st3 :
  _alist_required_fields tool _agenerate_response question run_manager st
  = (Ok fields, st1) ->
  _agenerate_query tool _agenerate_response question fields run_manager st1
  = (Ok response, st2) ->
  validate question response run_manager st2 = (Ok (true, rs, c), st3) ->
  run (S fuel) question run_manager st
  = finish run_manager (mkVars (Some response) 0 true rs response) st3.
Proof.
  intros Hsel Hgen Hval.
  unfold _arun, try_except, _arun_body.
  unfold bind at 1. rewrite Hsel.
  unfold bind at 1. rewrite Hgen.
  unfold bind at 1.
  rewrite (loop_valid_step fuel question fields run_manager
             (mkVars None 0 false "" response) st2 rs c st3);
    [|reflexivity|cbn; lia|exact Hval].
  cbn [result retries query_response].
  destruct run_manager; reflexivity.
Qed.

(** C8, as the code has it. With a run manager attached, validation
    configured without the model's check and a first candidate whose
    query executes and returns at least one row, the run validates once,
    repairs nothing, and answers the generated response text, the
    separator and the summary: the total row count and the rendering of
    the first [nb_example_rows] rows. The summary is a function of the
    result list, which it only reads. *)
Theorem first_attempt_response_with_summary :
  forall fuel question (m : RunManager) st fields st1 response st2 query rows st3,
    validate_with_llm tool = false ->
    _alist_required_fields tool _agenerate_response question (Some m) st
    = (Ok fields, st1) ->
    _agenerate_query tool _agenerate_response question fields (Some m) st1
    = (Ok response, st2) ->
    extract_query response = Some query ->
    execute_query settings db query [] st2 = (Ok rows, st3) ->
    rows <> [] ->
    run (S fuel) question (Some m) st
    = (Ok (response ++ String PyStr.nl (String PyStr.nl "Results: ")
           ++ "total rows: " ++ PyStr.of_int (len rows)
           ++ ", first "
           ++ PyStr.of_int (len (py_take (nb_example_rows tool) rows))
           ++ " rows: " ++ repr_rows (py_take (nb_example_rows tool) rows)),
       record_event st3 (EvOnText response APPENDIX)).
Proof.
  intros fuel question m st fields st1 response st2 query rows st3
         Hllm Hsel Hgen Hq Hrun Hne.
  rewrite (run_first_attempt fuel question (Some m) st fields st1 response
             st2 (format_results tool repr_rows rows) "" st3 Hsel Hgen).
  - reflexivity.
  - now apply validate_rows_without_llm with (query := query).
Qed.

(** Where the model is consulted, a successful validation carries no
    summary. *)
Lemma validate_with_llm_drops_summary question response run_manager st rs c st' :
  validate_with_llm tool = true ->
  validate question response run_manager st = (Ok (true, rs, c), st') ->
  rs = "".
Proof.
  intros Hllm. unfold _avalidate_response, try_except, bind.
  destruct (extract_query response) as [query|]; [|unfold ret; congruence].
  destruct (execute_query settings db query [] st) as [[rows|e|] st1];
    [| |unfold out_of_fuel; congruence].
  - destruct (is_empty rows); [unfold ret; congruence|].
    destruct (validate_empty_results tool && (len rows =? 0));
      [unfold ret; congruence|].
    rewrite Hllm.
    destruct (generate _ _ _ _ _) as [[text|e|] st2];
      [| |congruence].
    + unfold ret, _parse_validation.
      destruct (fold_left _ _ _) as [v r]. congruence.
    + destruct run_manager; unfold with_run_manager, emit, ret; congruence.
  - destruct run_manager; unfold with_run_manager, emit, ret; congruence.
Qed.

(** The loop follows the candidates of the run: when the candidate of
    iteration [k] is accepted, the loop is left with it. *)
Lemma loop_candidate_validates question fields run_manager :
  forall k fuel v st response stk rs c stk',
    result v = None -> retries v + Z.of_nat k <= 3 -> (k < fuel)%nat ->
    nth_candidate settings db tool _agenerate_response repr_rows question
                  run_manager k fields (query_response v, st)
    = Some (response, stk) ->
    validate question response run_manager stk = (Ok (true, rs, c), stk') ->
    loop fuel question fields run_manager v st
    = (Ok (mkVars (Some response) (retries v + Z.of_nat k) true rs response),
       stk').
Proof.
  induction k as [|k IH];
    intros fuel v st response stk rs c stk' Hres Hret Hfuel Hcand Hval;
    (destruct fuel as [|fuel]; [lia|]).
  - cbn [nth_candidate] in Hcand. inversion Hcand; subst.
    rewrite (loop_valid_step fuel question fields run_manager v stk rs c stk'
               Hres ltac:(lia) Hval).
    now rewrite Z.add_0_r.
  - cbn [nth_candidate] in Hcand. unfold next_candidate in Hcand.
    cbn [fst snd] in Hcand.
    destruct (validate question (query_response v) run_manager st)
      as [[[[valid rs0] c0]|e|] st1] eqn:Hv; try discriminate.
    destruct valid; [discriminate|].
    destruct (improve question (query_response v) c0 fields run_manager st1)
      as [[q|e|] st2] eqn:Hi; try discriminate.
    rewrite (loop_invalid_step fuel question fields run_manager v st rs0 c0
               st1 q st2 Hres ltac:(lia) Hv Hi).
    replace (retries v + Z.of_nat (S k)) with (retries v + 1 + Z.of_nat k)
      by lia.
    apply (IH fuel (mkVars None (retries v + 1) false rs0 q) st2
              response stk rs c stk');
      [reflexivity|cbn [retries]; lia|lia|exact Hcand|exact Hval].
Qed.

(** A run whose candidate of iteration [k] is accepted ends with it. *)
Lemma run_candidate_validates fuel question run_manager st k response stk
      rs c stk' :
  (k <= 3)%nat -> (k < fuel)%nat ->
  candidate settings db tool _agenerate_response repr_rows question
            run_manager k st = Some (response, stk) ->
  validate question response run_manager stk = (Ok (true, rs, c), stk') ->
  run fuel question run_manager st
  = finish run_manager (mkVars (Some response) (Z.of_nat k) true rs response)
           stk'.
Proof.
  intros Hk Hfuel Hcand Hval.
  unfold candidate, first_candidate in Hcand.
  destruct (_alist_required_fields tool _agenerate_response question
              run_manager st) as [[fields|e|] st1] eqn:Hsel; try discriminate.
  destruct (_agenerate_query tool _agenerate_response question fields
              run_manager st1) as [[response0|e|] st2] eqn:Hgen;
    try discriminate.
  unfold _arun, try_except, _arun_body.
  unfold bind at 1. rewrite Hsel.
  unfold bind at 1. rewrite Hgen.
  unfold bind at 1.
  rewrite (loop_candidate_validates question fields run_manager k fuel
             (mkVars None 0 false "" response0) st2 response stk rs c stk');
    [|reflexivity|cbn [retries]; lia|exact Hfuel|exact Hcand|exact Hval].
  cbn [retries Z.add].
  destruct run_manager; reflexivity.
Qed.

(** C10, as the code has it. With [validate_with_llm] on, the second
    component of what [_parse_validation] returns is always empty, so
    every successful validation carries an empty summary; and with a run
    manager attached, a run that ends on an accepted candidate, be it the
    first one or one that a repair produced, answers that response text
    followed by the separator and nothing: the summary computed before
    the consultation is not part of it. *)
Theorem llm_validated_response_has_no_summary :
  validate_with_llm tool = true ->
  (forall response, snd (fst (_parse_validation response)) = "") /\
  (forall question response run_manager st rs c st',
      validate question response run_manager st = (Ok (true, rs, c), st') ->
      rs = "") /\
  (forall fuel question (m : RunManager) st k response stk rs c stk',
      (k <= 3)%nat -> (k < fuel)%nat ->
      candidate settings db tool _agenerate_response repr_rows question
                (Some m) k st = Some (response, stk) ->
      validate question response (Some m) stk = (Ok (true, rs, c), stk') ->
      run fuel question (Some m) st
      = (Ok (response ++ String PyStr.nl (String PyStr.nl "Results: ")),
         record_event stk' (EvOnText response APPENDIX))).
Proof.
  intros Hllm. split; [|split].
  - intros response. unfold _parse_validation.
    destruct (fold_left _ _ _) as [v r]. reflexivity.
  - intros question response run_manager st rs c st' Hval.
    eapply validate_with_llm_drops_summary; eauto.
  - intros fuel question m st k response stk rs c stk' Hk Hfuel Hcand Hval.
    assert (rs = "") by (eapply validate_with_llm_drops_summary; eauto).
    subst rs.
    rewrite (run_candidate_validates fuel question (Some m) st k response stk
               "" c stk' Hk Hfuel Hcand Hval).
    reflexivity.
Qed.

End Loop.

(** Scenario A with a run manager attached: one validation, the response
    and its summary. *)
Lemma first_attempt_response_with_summary_witness :
  fst (_arun Scenario.test_settings Scenario.db_a (Scenario.test_tool false)
             Scenario.llm_a Scenario.repr_rows 4 "show events"
             Scenario.rm Scenario.fresh)
  = Ok (Scenario.fenced_query
        ++ String PyStr.nl (String PyStr.nl
             "Results: total rows: 2, first 2 rows: [{'users': 100, 'sessions': 150}, {'users': 120, 'sessions': 180}]")).
Proof.
  exact (f_equal fst
           (first_attempt_response_with_summary
              Scenario.test_settings Scenario.db_a (Scenario.test_tool false)
              Scenario.llm_a Scenario.repr_rows 3 "show events"
              AsyncCallbackManagerForToolRun Scenario.fresh
              "user_id, event_name" Scenario.st1_a
              Scenario.fenced_query Scenario.st2_a
              "SELECT * FROM events" Scenario.two_rows Scenario.st3_a
              eq_refl eq_refl eq_refl eq_refl eq_refl
              ltac:(discriminate))).
Defined.

(** C8 as stated fails without a run manager: scenario A then answers the
    response text alone, with neither separator nor summary. *)
Lemma response_without_run_manager_counterexample :
  fst (_arun Scenario.test_settings Scenario.db_a (Scenario.test_tool false)
             Scenario.llm_a Scenario.repr_rows 4 "show events"
             None Scenario.fresh)
  = Ok Scenario.fenced_query /\
  PyStr.contains Scenario.fenced_query "Results: " = false /\
  PyStr.contains Scenario.fenced_query "total rows: 2" = false.
Proof. repeat split; vm_compute; reflexivity. Qed.

(** The model that fails when first consulted for the validation, with a
    run manager attached: the candidate that the repair produced is
    accepted, and the response ends with the separator. *)
Lemma llm_validated_response_has_no_summary_witness :
  fst (_arun Scenario.test_settings Scenario.db_a (Scenario.test_tool true)
             Scenario.llm_failing_validation Scenario.repr_rows 4 "show events"
             Scenario.rm Scenario.fresh)
  = Ok (Scenario.fenced_query ++ String PyStr.nl (String PyStr.nl "Results: ")).
Proof.
  exact (f_equal fst
           (proj2 (proj2
              (llm_validated_response_has_no_summary
                 Scenario.test_settings Scenario.db_a (Scenario.test_tool true)
                 Scenario.llm_failing_validation Scenario.repr_rows eq_refl))
              4%nat "show events" AsyncCallbackManagerForToolRun Scenario.fresh
              1%nat Scenario.fenced_query Scenario.st_repaired
              "" "ok" Scenario.st_revalidated
              ltac:(lia) ltac:(lia)
              ltac:(vm_compute; reflexivity) ltac:(vm_compute; reflexivity))).
Defined.

(** C10 as stated fails without a run manager: the response then is the
    response text alone, without the separator. *)
Lemma llm_validated_without_run_manager_counterexample :
  fst (_arun Scenario.test_settings Scenario.db_a (Scenario.test_tool true)
             Scenario.llm_approving Scenario.repr_rows 4 "show events"
             None Scenario.fresh)
  = Ok Scenario.fenced_query /\
  Scenario.fenced_query
  <> Scenario.fenced_query ++ String PyStr.nl (String PyStr.nl "Results: ").
Proof. split; [vm_compute; reflexivity|vm_compute; discriminate]. Qed.

(* --------------------------------------------------------------------- *)
(** ** Counting repair cycles *)
(* --------------------------------------------------------------------- *)

Lemma repair_cycles_app (h1 h2 : list Event) :
  repair_cycles (h1 ++ h2) = (repair_cycles h1 + repair_cycles h2)%nat.
Proof.
  unfold repair_cycles, count_events. now rewrite filter_app, length_app.
Qed.

Lemma within_ret {A} (a : A) : within_repairs 0 (ret a).
Proof.
  intros st. split; [discriminate|].
  exists []. cbn. rewrite app_nil_r. auto.
Qed.

Lemma within_raise {A} (e : Exn) : within_repairs 0 (@raise A e).
Proof.
  intros st. split; [discriminate|].
  exists []. cbn. rewrite app_nil_r. auto.
Qed.

Lemma within_emit (ev : Event) :
  within_repairs (repair_cycles [ev]) (emit ev).
Proof.
  intros st. split; [discriminate|].
  exists [ev]. cbn. auto.
Qed.

Lemma within_ask {A} (oracle : History -> Answer A) :
  within_repairs 0 (ask oracle).
Proof.
  intros st. unfold ask.
  destruct (oracle (history st)); (split; [discriminate|]);
    exists []; cbn; rewrite app_nil_r; auto.
Qed.

Lemma within_weaken {A} (n n' : nat) (m : M A) :
  (n <= n')%nat -> within_repairs n m -> within_repairs n' m.
Proof.
  intros Hle H st. destruct (H st) as (Hf & evs & Hh & Hc).
  split; [exact Hf|]. exists evs. split; [exact Hh|lia].
Qed.

Lemma within_ext {A} (n : nat) (m m' : M A) :
  (forall st, m st = m' st) -> within_repairs n m' -> within_repairs n m.
Proof. intros E H st. rewrite E. apply H. Qed.

Lemma within_bind {A B} (n1 n2 : nat) (m : M A) (k : A -> M B) :
  within_repairs n1 m ->
  (forall a, within_repairs n2 (k a)) ->
  within_repairs (n1 + n2) (bind m k).
Proof.
  intros Hm Hk st. unfold bind.
  destruct (Hm st) as (Hf & evs & Hh & Hc).
  destruct (m st) as [[a|e|] st1]; cbn [fst snd] in *.
  - destruct (Hk a st1) as (Hf2 & evs2 & Hh2 & Hc2).
    split; [exact Hf2|].
    exists (evs ++ evs2)%list. rewrite Hh2, Hh, app_assoc, repair_cycles_app.
    split; [reflexivity|lia].
  - split; [discriminate|]. exists evs. split; [exact Hh|lia].
  - congruence.
Qed.

Lemma within_try {A} (n1 n2 : nat) (m : M A) (h : Exn -> M A) :
  within_repairs n1 m ->
  (forall e, within_repairs n2 (h e)) ->
  within_repairs (n1 + n2) (try_except m h).
Proof.
  intros Hm Hh st. unfold try_except.
  destruct (Hm st) as (Hf & evs & Hhist & Hc).
  destruct (m st) as [[a|e|] st1]; cbn [fst snd] in *.
  - split; [discriminate|]. exists evs. split; [exact Hhist|lia].
  - destruct (Hh e st1) as (Hf2 & evs2 & Hh2 & Hc2).
    split; [exact Hf2|].
    exists (evs ++ evs2)%list. rewrite Hh2, Hhist, app_assoc, repair_cycles_app.
    split; [reflexivity|lia].
  - congruence.
Qed.

Lemma try_except_raises {A} (m : M A) (h : Exn -> M A) st e st' :
  try_except m h st = (Raise e, st') ->
  exists e0 st0, h e0 st0 = (Raise e, st').
Proof.
  unfold try_except. destruct (m st) as [[a|e0|] st0]; intros H;
    [discriminate|eauto|discriminate].
Qed.

Lemma within_with_run_manager (run_manager : option RunManager) (m : M unit) :
  within_repairs 0 m -> within_repairs 0 (with_run_manager run_manager m).
Proof. destruct run_manager; [auto|intros _; apply within_ret]. Qed.

Lemma within_pool_submit {A} (n : nat) (task : M A) :
  within_repairs n task -> within_repairs n (pool_submit task).
Proof.
  intros H st. unfold pool_submit.
  destruct (pool_is_shutdown st); [|apply H].
  split; [discriminate|]. exists []. cbn. rewrite app_nil_r.
  split; [reflexivity|unfold repair_cycles, count_events; simpl; lia].
Qed.

Section Bounds.

Context {Row : Type}.
Variable settings : Settings.
Variable db : BigQueryDatabase Row.
Variable tool : BigQueryTool.
Variable _agenerate_response :
  list Message -> option bool -> History -> Answer string.
Variable repr_rows : list Row -> string.

Local Abbreviation validate :=
  (_avalidate_response settings db tool _agenerate_response repr_rows).
Local Abbreviation improve := (_aimprove_query tool _agenerate_response).
Local Abbreviation loop :=
  (validation_loop settings db tool _agenerate_response repr_rows).
Local Abbreviation run := (_arun settings db tool _agenerate_response repr_rows).

Lemma within_execute_query query params :
  within_repairs 0 (execute_query settings db query params).
Proof.
  unfold execute_query.
  apply (within_bind 0 0); [apply (within_emit (EvDryRun query))|intros _].
  apply (within_bind 0 0); [apply within_ask|intros total].
  destruct (total >? _); [apply within_raise|].
  apply (within_bind 0 0); [|intros; apply within_ret].
  apply within_pool_submit. unfold _execute_query_sync.
  apply (within_bind 0 0); [apply (within_emit (EvQuery query params))|intros _].
  apply within_ask.
Qed.

Lemma within_generate step messages flag :
  within_repairs (if is_step ImproveQuery (EvGenerate step messages flag)
                  then 1 else 0)
                 (generate _agenerate_response step messages flag).
Proof.
  unfold generate.
  replace (if is_step ImproveQuery (EvGenerate step messages flag) then 1 else 0)%nat
    with (repair_cycles [EvGenerate step messages flag] + 0)%nat
    by (destruct step; reflexivity).
  apply within_bind; [apply within_emit|intros _; apply within_ask].
Qed.

Lemma within_validate question response run_manager :
  within_repairs 0 (validate question response run_manager).
Proof.
  unfold _avalidate_response.
  apply (within_try 0 0).
  - destruct (extract_query response) as [query|]; [|apply within_ret].
    apply (within_bind 0 0); [apply within_execute_query|intros rows].
    destruct (is_empty rows); [apply within_ret|].
    destruct (validate_empty_results tool && _); [apply within_ret|].
    destruct (validate_with_llm tool); [|apply within_ret].
    apply (within_bind 0 0); [|intros; apply within_ret].
    apply (within_generate ValidateResult).
  - intros e. apply (within_bind 0 0); [|intros; apply within_ret].
    apply within_with_run_manager. apply (within_emit (EvOnToolError e)).
Qed.

Lemma within_improve question previous feedback fields run_manager :
  within_repairs 1 (improve question previous feedback fields run_manager).
Proof.
  unfold _aimprove_query.
  apply (within_bind 0 1).
  - apply within_with_run_manager.
    apply (within_emit (EvOnText "improve_query" ACTION)).
  - intros _. apply (within_generate ImproveQuery).
Qed.

Lemma within_select question run_manager :
  within_repairs 0
    (_alist_required_fields tool _agenerate_response question run_manager).
Proof.
  unfold _alist_required_fields.
  apply (within_bind 0 0).
  - apply within_with_run_manager.
    apply (within_emit (EvOnText "list_fields" ACTION)).
  - intros _. apply (within_bind 0 0); [|intros; apply within_ret].
    apply (within_generate SelectFields).
Qed.

Lemma within_generate_query question fields run_manager :
  within_repairs 0
    (_agenerate_query tool _agenerate_response question fields run_manager).
Proof.
  unfold _agenerate_query.
  apply (within_bind 0 0).
  - apply within_with_run_manager.
    apply (within_emit (EvOnText "generate_query" ACTION)).
  - intros _. apply (within_bind 0 0); [|intros; apply within_ret].
    apply (within_generate GenerateQuery).
Qed.

Lemma within_finish run_manager v : within_repairs 0 (finish run_manager v).
Proof.
  unfold finish. destruct run_manager; [|apply within_ret].
  destruct (is_valid v);
    (apply (within_bind 0 0); [|intros; apply within_ret]).
  - apply (within_emit (EvOnText (or_empty (result v)) APPENDIX)).
  - apply (within_emit (EvOnText "no_data" ACTION)).
Qed.

(** The loop is left after at most [4 - retries] further repairs, and
    that many iterations of fuel are enough. *)
Lemma within_loop_exit n fuel question fields run_manager v :
  is_none (result v) && (retries v <=? 3) = false ->
  within_repairs n (loop fuel question fields run_manager v).
Proof.
  intros Hc. apply (within_ext _ _ (ret v)).
  - intros st. now apply loop_exit.
  - apply (within_weaken 0); [lia|apply within_ret].
Qed.

Lemma within_loop question fields run_manager :
  forall fuel v,
    (Z.to_nat (4 - retries v) <= fuel)%nat ->
    within_repairs (Z.to_nat (4 - retries v))
                   (loop fuel question fields run_manager v).
Proof.
  induction fuel as [|fuel IH]; intros v Hfuel.
  - destruct (is_none (result v) && (retries v <=? 3)) eqn:Hc.
    + apply andb_prop in Hc. destruct Hc as [_ Hc].
      apply Z.leb_le in Hc. lia.
    + now apply within_loop_exit.
  - destruct (is_none (result v) && (retries v <=? 3)) eqn:Hc.
    + pose proof Hc as Hc'.
      apply andb_prop in Hc'. destruct Hc' as [_ Hle].
      apply Z.leb_le in Hle.
      cbn [validation_loop]. rewrite Hc.
      replace (Z.to_nat (4 - retries v))
        with (0 + (1 + Z.to_nat (4 - (retries v + 1))))%nat by lia.
      apply within_bind; [apply within_validate|].
      intros [[valid rs] c]. destruct valid.
      * now apply within_loop_exit.
      * apply within_bind; [apply within_improve|].
        intros q. apply (IH (mkVars (result v) (retries v + 1) false rs q)).
        cbn [retries]. lia.
    + now apply within_loop_exit.
Qed.

Lemma within_run fuel question run_manager :
  (4 <= fuel)%nat -> within_repairs 4 (run fuel question run_manager).
Proof.
  intros Hfuel. unfold _arun, _arun_body.
  apply (within_try 4 0).
  - apply (within_bind 0 4); [apply within_select|intros fields].
    apply (within_bind 0 4); [apply within_generate_query|intros response].
    apply (within_bind 4 0); [|intros; apply within_finish].
    apply (within_loop question fields run_manager fuel
             (mkVars None 0 false "" response)).
    cbn [retries]. exact Hfuel.
  - intros e. destruct run_manager; [|apply within_raise].
    apply (within_bind 0 0); [|intros; apply within_ret].
    apply (within_emit (EvOnToolError e)).
Qed.

Lemma new_events_ext st st' evs :
  history st' = (history st ++ evs)%list -> new_events st st' = evs.
Proof. intros H. unfold new_events. rewrite H. apply skipn_length_app. Qed.

(** Validation always returns a verdict: it neither raises nor repairs. *)
Lemma validate_returns question response run_manager st :
  exists res st',
    validate question response run_manager st = (Ok res, st') /\
    exists evs, history st' = (history st ++ evs)%list /\
                repair_cycles evs = 0%nat.
Proof.
  destruct (within_validate question response run_manager st)
    as (Hf & evs & Hh & Hc).
  destruct (validate question response run_manager st)
    as [[res|e|] st'] eqn:E; cbn [fst snd] in *.
  - exists res, st'. split; [reflexivity|]. exists evs. split; [exact Hh|lia].
  - exfalso. unfold _avalidate_response in E.
    apply try_except_raises in E. destruct E as (e0 & st0 & E).
    destruct run_manager; discriminate.
  - congruence.
Qed.

Section Exhaustion.

Hypothesis llm_returns : always_returns _agenerate_response.

Lemma generate_returns step messages flag st :
  exists text,
    generate _agenerate_response step messages flag st
    = (Ok text, record_event st (EvGenerate step messages flag)).
Proof.
  unfold generate, bind, emit, ask. cbn [history].
  destruct (llm_returns messages flag
              (history st ++ [EvGenerate step messages flag])%list)
    as [text Ht].
  rewrite Ht. exists text. reflexivity.
Qed.

Lemma improve_returns question previous feedback fields run_manager st :
  exists q st',
    improve question previous feedback fields run_manager st = (Ok q, st') /\
    exists evs, history st' = (history st ++ evs)%list /\
                repair_cycles evs = 1%nat.
Proof.
  unfold _aimprove_query.
  set (messages := [SystemMessage _; HumanMessage _]).
  destruct run_manager as [m|]; cbn [with_run_manager].
  - unfold bind at 1. unfold emit at 1.
    destruct (generate_returns ImproveQuery messages None
                (mkState (history st ++ [EvOnText "improve_query" ACTION])%list
                         (pool_is_shutdown st))) as [q Hq].
    rewrite Hq. eexists; eexists. split; [reflexivity|].
    exists [EvOnText "improve_query" ACTION; EvGenerate ImproveQuery messages None].
    cbn [record_event history]. rewrite <- app_assoc. split; reflexivity.
  - unfold bind at 1. unfold ret at 1.
    destruct (generate_returns ImproveQuery messages None st) as [q Hq].
    rewrite Hq. eexists; eexists. split; [reflexivity|].
    exists [EvGenerate ImproveQuery messages None]. split; reflexivity.
Qed.

Lemma select_returns question run_manager st :
  exists fields st',
    _alist_required_fields tool _agenerate_response question run_manager st
    = (Ok fields, st') /\
    exists evs, history st' = (history st ++ evs)%list /\
                repair_cycles evs = 0%nat.
Proof.
  unfold _alist_required_fields.
  set (messages := [SystemMessage _; HumanMessage _]).
  destruct run_manager as [m|]; cbn [with_run_manager].
  - unfold bind at 1. unfold emit at 1.
    unfold bind at 1.
    destruct (generate_returns SelectFields messages (Some true)
                (mkState (history st ++ [EvOnText "list_fields" ACTION])%list
                         (pool_is_shutdown st))) as [text Ht].
    rewrite Ht. eexists; eexists. split; [reflexivity|].
    exists [EvOnText "list_fields" ACTION; EvGenerate SelectFields messages (Some true)].
    cbn [record_event history]. rewrite <- app_assoc. split; reflexivity.
  - unfold bind at 1. unfold ret at 1.
    unfold bind at 1.
    destruct (generate_returns SelectFields messages (Some true) st) as [text Ht].
    rewrite Ht. eexists; eexists. split; [reflexivity|].
    exists [EvGenerate SelectFields messages (Some true)]. split; reflexivity.
Qed.

Lemma generate_query_returns question fields run_manager st :
  exists response st',
    _agenerate_query tool _agenerate_response question fields run_manager st
    = (Ok response, st') /\
    exists evs, history st' = (history st ++ evs)%list /\
                repair_cycles evs = 0%nat.
Proof.
  unfold _agenerate_query.
  set (messages := [SystemMessage _; HumanMessage _]).
  destruct run_manager as [m|]; cbn [with_run_manager].
  - unfold bind at 1. unfold emit at 1.
    unfold bind at 1.
    destruct (generate_returns GenerateQuery messages (Some true)
                (mkState (history st ++ [EvOnText "generate_query" ACTION])%list
                         (pool_is_shutdown st))) as [text Ht].
    rewrite Ht. eexists; eexists. split; [reflexivity|].
    exists [EvOnText "generate_query" ACTION; EvGenerate GenerateQuery messages (Some true)].
    cbn [record_event history]. rewrite <- app_assoc. split; reflexivity.
  - unfold bind at 1. unfold ret at 1.
    unfold bind at 1.
    destruct (generate_returns GenerateQuery messages (Some true) st) as [text Ht].
    rewrite Ht. eexists; eexists. split; [reflexivity|].
    exists [EvGenerate GenerateQuery messages (Some true)]. split; reflexivity.
Qed.

(** With none of its next [n] candidates accepted, the loop repairs until
    [retries] is 4 and is left without a result. *)
Lemma loop_exhausts question fields run_manager :
  forall n fuel v st,
    result v = None -> is_valid v = false ->
    retries v = 4 - Z.of_nat n -> (n <= fuel)%nat ->
    (forall k c, (k < n)%nat ->
        nth_candidate settings db tool _agenerate_response repr_rows question
                      run_manager k fields (query_response v, st) = Some c ->
        accepted settings db tool _agenerate_response repr_rows question
                 run_manager c = false) ->
    exists v' st',
      loop fuel question fields run_manager v st = (Ok v', st') /\
      result v' = None /\ is_valid v' = false /\
      exists evs, history st' = (history st ++ evs)%list /\
                  repair_cycles evs = n.
Proof.
  induction n as [|n IH]; intros fuel v st Hres Hvalid Hret Hfuel Hnone.
  - exists v, st. rewrite loop_exit.
    + repeat split; auto. exists []. now rewrite app_nil_r.
    + rewrite Hres. cbn [is_none andb].
      destruct (Z.leb_spec (retries v) 3); [lia|reflexivity].
  - destruct fuel as [|fuel]; [lia|].
    destruct (validate_returns question (query_response v) run_manager st)
      as ([[valid rs] c] & st1 & Hval & evs1 & Hh1 & Hc1).
    assert (valid = false).
    { pose proof (Hnone 0%nat (query_response v, st) ltac:(lia) eq_refl) as H0.
      unfold accepted in H0. cbn [fst snd] in H0. rewrite Hval in H0.
      cbn [fst] in H0. destruct valid; [discriminate|reflexivity]. }
    subst valid.
    destruct (improve_returns question (query_response v) c fields
                              run_manager st1)
      as (q & st2 & Himp & evs2 & Hh2 & Hc2).
    rewrite (loop_invalid_step settings db tool _agenerate_response repr_rows
               fuel question fields run_manager v st rs c st1 q st2);
      [|exact Hres|lia|exact Hval|exact Himp].
    destruct (IH fuel (mkVars None (retries v + 1) false rs q) st2)
      as (v' & st' & Hloop & Hres' & Hvalid' & evs3 & Hh3 & Hc3);
      [reflexivity|reflexivity|cbn [retries]; lia|lia| |].
    + intros k c0 Hk Hc. apply (Hnone (S k) c0); [lia|].
      cbn [nth_candidate]. unfold next_candidate. cbn [fst snd].
      rewrite Hval, Himp. exact Hc.
    + exists v', st'. repeat split; auto.
      exists (evs1 ++ evs2 ++ evs3)%list.
      rewrite Hh3, Hh2, Hh1, !repair_cycles_app, <- !app_assoc.
      split; [reflexivity|lia].
Qed.

End Exhaustion.

(** C3, as the code has it. The loop runs while [retries <= 3] with
    [retries] counted from 0: for any question and any collaborators a
    run ends (the model's budget of 4 iterations is never exhausted) and
    performs at most 4 repair cycles. If moreover none of the candidates
    that this run validates is accepted and the text generation always
    returns, the run performs exactly 4 repair cycles and returns
    ["no_data"] instead of raising. *)
Theorem synthesis_loop_bounded :
  forall fuel question run_manager st,
    (4 <= fuel)%nat ->
    fst (run fuel question run_manager st) <> OutOfFuel /\
    (repair_cycles (new_events st (snd (run fuel question run_manager st)))
     <= 4)%nat /\
    (no_candidate_validates settings db tool _agenerate_response repr_rows
                            question run_manager st ->
     always_returns _agenerate_response ->
     fst (run fuel question run_manager st) = Ok "no_data" /\
     repair_cycles (new_events st (snd (run fuel question run_manager st)))
     = 4%nat).
Proof.
  intros fuel question run_manager st Hfuel.
  destruct (within_run fuel question run_manager Hfuel st)
    as (Hf & evs & Hh & Hc).
  split; [exact Hf|]. split.
  - now rewrite (new_events_ext _ _ _ Hh).
  - intros Hnone Hllm.
    destruct (select_returns Hllm question run_manager st)
      as (fields & st1 & Hsel & evs1 & Hh1 & Hc1).
    destruct (generate_query_returns Hllm question fields run_manager st1)
      as (response & st2 & Hgen & evs2 & Hh2 & Hc2).
    destruct (loop_exhausts Hllm question fields run_manager 4 fuel
                (mkVars None 0 false "" response) st2)
      as (v' & st3 & Hloop & Hres & Hvalid & evs3 & Hh3 & Hc3);
      [reflexivity|reflexivity|reflexivity|exact Hfuel| |].
    { intros k c Hk Hcand. apply (Hnone k c); [lia|].
      unfold candidate, first_candidate. rewrite Hsel, Hgen. exact Hcand. }
    assert (Hrun : exists evs4,
               run fuel question run_manager st
               = (Ok "no_data",
                  mkState (history st3 ++ evs4)%list (pool_is_shutdown st3)) /\
               repair_cycles evs4 = 0%nat).
    { unfold _arun, try_except, _arun_body.
      unfold bind at 1. rewrite Hsel.
      unfold bind at 1. rewrite Hgen.
      unfold bind at 1. rewrite Hloop.
      unfold finish. rewrite Hvalid, Hres.
      destruct run_manager.
      - exists [EvOnText "no_data" ACTION]. split; reflexivity.
      - exists []. rewrite app_nil_r. destruct st3. split; reflexivity. }
    destruct Hrun as (evs4 & Hrun & Hc4).
    rewrite Hrun. cbn [fst snd]. split; [reflexivity|].
    rewrite (new_events_ext st _ (evs1 ++ evs2 ++ evs3 ++ evs4)%list).
    + rewrite !repair_cycles_app. lia.
    + cbn [history]. rewrite Hh3, Hh2, Hh1, <- !app_assoc. reflexivity.
Qed.

End Bounds.

Lemma scripted_llm_returns text : always_returns (Scenario.scripted_llm [] (Returns text)).
Proof.
  intros messages flag h. exists text. unfold Scenario.scripted_llm.
  destruct (count_events is_generate h - 1)%nat; reflexivity.
Qed.

(** Scenario C: the model never produces a fenced query, so none of the
    four candidates of the run is accepted; four repairs, then the
    sentinel. *)
Lemma synthesis_loop_bounded_witness :
  fst (_arun Scenario.test_settings Scenario.db_a (Scenario.test_tool false)
             Scenario.llm_c Scenario.repr_rows 4 "show events"
             Scenario.rm Scenario.fresh) = Ok "no_data" /\
  repair_cycles
    (new_events Scenario.fresh
       (snd (_arun Scenario.test_settings Scenario.db_a
                   (Scenario.test_tool false) Scenario.llm_c
                   Scenario.repr_rows 4 "show events"
                   Scenario.rm Scenario.fresh))) = 4%nat.
Proof.
  apply (proj2 (proj2 (synthesis_loop_bounded
                         Scenario.test_settings Scenario.db_a
                         (Scenario.test_tool false) Scenario.llm_c
                         Scenario.repr_rows 4 "show events"
                         Scenario.rm Scenario.fresh (le_n 4)))).
  - intros k c Hk.
    destruct k as [|[|[|[|k]]]]; [| | | |lia];
      intros H; vm_compute in H; injection H as <-;
      vm_compute; reflexivity.
  - apply scripted_llm_returns.
Defined.

(** C3 as stated fails: in scenario C the loop performs four repair
    cycles, not at most three, before it answers ["no_data"]. *)
Lemma three_repair_cycles_counterexample :
  fst (_arun Scenario.test_settings Scenario.db_a (Scenario.test_tool false)
             Scenario.llm_c Scenario.repr_rows 4 "show events"
             Scenario.rm Scenario.fresh) = Ok "no_data" /\
  repair_cycles
    (new_events Scenario.fresh
       (snd (_arun Scenario.test_settings Scenario.db_a
                   (Scenario.test_tool false) Scenario.llm_c
                   Scenario.repr_rows 4 "show events"
                   Scenario.rm Scenario.fresh))) = 4%nat /\
  ~ (repair_cycles
       (new_events Scenario.fresh
          (snd (_arun Scenario.test_settings Scenario.db_a
                      (Scenario.test_tool false) Scenario.llm_c
                      Scenario.repr_rows 4 "show events"
                      Scenario.rm Scenario.fresh))) <= 3)%nat.
Proof.
  split; [vm_compute; reflexivity|].
  split; [vm_compute; reflexivity|].
  vm_compute. intros H. repeat (apply le_S_n in H). inversion H.
Qed.

(* --------------------------------------------------------------------- *)
(** ** Exceptions of the text generation *)
(* --------------------------------------------------------------------- *)

Section Propagation.

Context {Row : Type}.
Variable settings : Settings.
Variable db : BigQueryDatabase Row.
Variable tool : BigQueryTool.
Variable _agenerate_response :
  list Message -> option bool -> History -> Answer string.
Variable repr_rows : list Row -> string.

Local Abbreviation validate :=
  (_avalidate_response settings db tool _agenerate_response repr_rows).
Local Abbreviation improve := (_aimprove_query tool _agenerate_response).
Local Abbreviation loop :=
  (validation_loop settings db tool _agenerate_response repr_rows).
Local Abbreviation run := (_arun settings db tool _agenerate_response repr_rows).
Local Abbreviation select := (_alist_required_fields tool _agenerate_response).
Local Abbreviation generate_query := (_agenerate_query tool _agenerate_response).



End Propagation.



(* --------------------------------------------------------------------- *)
(** ** Pagination *)
(* --------------------------------------------------------------------- *)

Section Pagination.

Context {Row : Type}.
Variable db : BigQueryDatabase Row.

(** Under a cap [m] other than 0, a traversal with enough fuel ends, and
    yields at most [m + 1] batches when started afresh: the cap is
    compared with [page_count] before the count is incremented. *)
Lemma paginated_query_collect_bound query page_size m :
  m <> 0 ->
  forall fuel state acc st,
    (page_budget m state < fuel)%nat ->
    match paginated_query_collect db fuel
            (mkGen query page_size (Some m) state) acc st with
    | (Ok batches, _) =>
        (List.length batches <= List.length acc + page_budget m state)%nat
    | (Raise _, _) => True
    | (OutOfFuel, _) => False
    end.
Proof.
  intros Hm. induction fuel as [|fuel IH]; intros state acc st Hfuel; [lia|].
  cbn [paginated_query_collect]. unfold bind at 1.
  unfold paginated_query_next.
  cbn [gen_query gen_page_size gen_max_pages gen_state].
  destruct state as [|token page_count|].
  - (* first page *)
    unfold bind, emit, ask. cbn [history].
    destruct (start_job (client db) query _); [|exact I].
    cbn [history pool_is_shutdown].
    destruct (result_page (client db) query page_size None _) as [page|];
      [|exact I].
    unfold ret.
    specialize (IH (GenSuspended (snd page) 0) (acc ++ [fst page])%list).
    match goal with
    | |- context [paginated_query_collect db fuel _ _ ?s] => specialize (IH s)
    end.
    cbn [page_budget] in *.
    match type of IH with
    | ?P -> _ => assert (HP : P) by lia; specialize (IH HP)
    end.
    destruct (paginated_query_collect db fuel _ _ _) as [[batches|e|] st'];
      auto.
    rewrite length_app in IH. cbn [List.length] in IH. lia.
  - (* resumed after a yield *)
    cbn [truthy_int].
    destruct (Z.eqb_spec m 0); [contradiction|]. cbn [negb andb].
    destruct (negb (truthy_str token)) eqn:Htok; cbn [orb].
    + unfold ret. lia.
    + destruct (Z.geb_spec page_count m) as [Hge|Hlt].
      * unfold ret. lia.
      * unfold bind, emit, ask. cbn [history pool_is_shutdown].
        destruct (result_page (client db) query page_size token _) as [page|];
          [|exact I].
        unfold ret.
        specialize (IH (GenSuspended (snd page) (page_count + 1))
                       (acc ++ [fst page])%list).
        match goal with
        | |- context [paginated_query_collect db fuel _ _ ?s] => specialize (IH s)
        end.
        cbn [page_budget] in *.
        match type of IH with
        | ?P -> _ => assert (HP : P) by lia; specialize (IH HP)
        end.
        destruct (paginated_query_collect db fuel _ _ _)
          as [[batches|e|] st']; auto.
        rewrite length_app in IH. cbn [List.length] in IH. lia.
  - unfold ret. cbn [page_budget]. lia.
Qed.

End Pagination.

(** C4 on the failing input: with [max_pages = 1] and a result of three
    server pages, the traversal yields two batches and asks the warehouse
    for two pages. *)
Theorem paginated_query_yields_one_page_more :
  paginated_query_collect Scenario.db_pages 5
                          (paginated_query "SELECT n FROM t" 1 (Some 1))
                          [] Scenario.fresh
  = (Ok [ [[("n", 1)]]; [[("n", 2)]] ],
     mkState [EvStartJob "SELECT n FROM t";
              EvResultPage "SELECT n FROM t" 1 None;
              EvResultPage "SELECT n FROM t" 1 (Some "p2")] false).
Proof. vm_compute. reflexivity. Qed.

(** Scenario D: without a cap, two server pages give two batches in
    order and no third call. *)
Example paginated_query_two_pages :
  paginated_query_collect
    (Scenario.fixed_db 500 [] Scenario.two_pages) 5
    (paginated_query "SELECT * FROM test_table" 1 None) [] Scenario.fresh
  = (Ok [ [[("column1", 1)]]; [[("column1", 2)]] ],
     mkState [EvStartJob "SELECT * FROM test_table";
              EvResultPage "SELECT * FROM test_table" 1 None;
              EvResultPage "SELECT * FROM test_table" 1 (Some "page2")] false).
Proof. vm_compute. reflexivity. Qed.

(* --------------------------------------------------------------------- *)
(** ** Closing the connector *)
(* --------------------------------------------------------------------- *)

Section Closing.

Context {Row : Type}.
Variable settings : Settings.
Variable db : BigQueryDatabase Row.

(** [test_connection] neither reads nor writes the state of the pool. *)
Lemma test_connection_ignores_pool st shut :
  test_connection db (with_pool st shut)
  = (fst (test_connection db st), with_pool (snd (test_connection db st)) shut).
Proof.
  unfold test_connection, try_except, bind, emit, ask, with_pool.
  cbn [history pool_is_shutdown].
  destruct (run_query (client db) "SELECT 1" [] _); reflexivity.
Qed.

Lemma get_table_schema_ignores_pool table_name st shut :
  get_table_schema db table_name (with_pool st shut)
  = (fst (get_table_schema db table_name st),
     with_pool (snd (get_table_schema db table_name st)) shut).
Proof.
  unfold get_table_schema, bind, emit, ask, with_pool.
  cbn [history pool_is_shutdown].
  destruct (get_table (client db) _ _); reflexivity.
Qed.

Lemma paginated_query_next_ignores_pool g st shut :
  paginated_query_next db g (with_pool st shut)
  = (fst (paginated_query_next db g st),
     with_pool (snd (paginated_query_next db g st)) shut).
Proof.
  unfold paginated_query_next, with_pool.
  destruct (gen_state g) as [|token page_count|].
  - unfold bind, emit, ask. cbn [history pool_is_shutdown].
    destruct (start_job (client db) _ _); [|reflexivity].
    cbn [history pool_is_shutdown].
    destruct (result_page (client db) _ _ None _); reflexivity.
  - destruct (negb (truthy_str token) || _); [reflexivity|].
    unfold bind, emit, ask. cbn [history pool_is_shutdown].
    destruct (result_page (client db) _ _ token _); reflexivity.
  - reflexivity.
Qed.

(** C7, as the code has it. [close()] only shuts the worker pool down.
    It always succeeds, and a second call leaves the connector as the
    first did. There is no closed-connector error: [test_connection],
    [get_table_schema] and [paginated_query] do after [close()] what they
    do before it; [execute_query] still makes its dry run and its cost
    check, and then, instead of running an admitted query, raises the
    pool's [RuntimeError] without calling the warehouse. *)
Theorem close_only_stops_the_pool :
  (forall st, close st = (Ok tt, with_pool st true)) /\
  (forall st, close (snd (close st)) = close st) /\
  (forall st,
      test_connection db (snd (close st))
      = (fst (test_connection db st),
         snd (close (snd (test_connection db st))))) /\
  (forall table_name st,
      get_table_schema db table_name (snd (close st))
      = (fst (get_table_schema db table_name st),
         snd (close (snd (get_table_schema db table_name st))))) /\
  (forall g st,
      paginated_query_next db g (snd (close st))
      = (fst (paginated_query_next db g st),
         snd (close (snd (paginated_query_next db g st))))) /\
  (forall query params st E,
      dry_run_bytes (client db) query (history st ++ [EvDryRun query])%list
      = Returns E ->
      execute_query settings db query params (snd (close st))
      = (Raise (if E >? BIGQUERY_MAX_BYTES_PROCESSED settings
                then QueryCostError
                       ("Query would process " ++ PyStr.of_int E ++ " bytes")
                else pool_shutdown_error),
         with_pool (record_event st (EvDryRun query)) true)).
Proof.
  split; [reflexivity|]. split; [reflexivity|].
  split; [|split; [|split]].
  - intros st. apply test_connection_ignores_pool.
  - intros table_name st. apply get_table_schema_ignores_pool.
  - intros g st. apply paginated_query_next_ignores_pool.
  - intros query params st E Hdry.
    unfold execute_query, close, bind, emit, ask, raise, pool_submit.
    cbn [snd history pool_is_shutdown]. rewrite Hdry.
    destruct (E >? BIGQUERY_MAX_BYTES_PROCESSED settings); reflexivity.
Qed.

End Closing.

(** A closed run: an admissible query on a closed connector. *)
Lemma close_only_stops_the_pool_witness :
  execute_query Scenario.test_settings Scenario.db_a "SELECT 1" []
                (snd (close Scenario.fresh))
  = (Raise pool_shutdown_error, mkState [EvDryRun "SELECT 1"] true).
Proof.
  exact (proj2 (proj2 (proj2 (proj2 (proj2
           (close_only_stops_the_pool Scenario.test_settings Scenario.db_a)))))
           "SELECT 1" [] Scenario.fresh 500 eq_refl).
Defined.

(** C7 as stated fails: after [close()] the connection test and the
    schema lookup succeed, and what an admissible [execute_query] raises
    is a [RuntimeError]. *)
Lemma operations_after_close_counterexample :
  fst (test_connection Scenario.db_a (snd (close Scenario.fresh))) = Ok true /\
  fst (get_table_schema Scenario.db_a "events" (snd (close Scenario.fresh)))
  = Ok [mkSchemaField "event_date" "STRING" "NULLABLE" None] /\
  (exists e,
      fst (execute_query Scenario.test_settings Scenario.db_a "SELECT 1" []
                         (snd (close Scenario.fresh))) = Raise e /\
      exn_class e = "RuntimeError" /\
      exn_class e <> "ClosedConnectorError").
Proof.
  split; [reflexivity|]. split; [reflexivity|].
  exists pool_shutdown_error.
  split; [reflexivity|]. split; [reflexivity|]. discriminate.
Qed.

(* ===================================================================== *)
(** * Further properties of the connector *)
(* ===================================================================== *)

Section ConnectorCalls.

Context {Row : Type}.
Variable settings : Settings.
Variable db : BigQueryDatabase Row.

(** X1. Whatever the warehouse answers, [execute_query] makes the dry run
    and at most one real call after it. A dry run that raises is passed on
    with no real call made; and rows are only ever returned after a dry
    run whose estimate was within the budget, on an open pool, and they
    are the rows the warehouse gave to that one real call. *)
Theorem execute_query_call_discipline :
  forall (query : string) (params : list (string * string)) (st : State),
    (new_events st (snd (execute_query settings db query params st))
     = [EvDryRun query] \/
     new_events st (snd (execute_query settings db query params st))
     = [EvDryRun query; EvQuery query params]) /\
    (forall e,
        dry_run_bytes (client db) query (history st ++ [EvDryRun query])%list
        = Raises e ->
        execute_query settings db query params st
        = (Raise e, record_event st (EvDryRun query))) /\
    (forall rows st',
        execute_query settings db query params st = (Ok rows, st') ->
        exists E,
          dry_run_bytes (client db) query (history st ++ [EvDryRun query])%list
          = Returns E /\
          E <= BIGQUERY_MAX_BYTES_PROCESSED settings /\
          pool_is_shutdown st = false /\
          st' = record_event (record_event st (EvDryRun query))
                             (EvQuery query params) /\
          run_query (client db) query params (history st') = Returns rows).
Proof.
  intros query params st.
  unfold execute_query, bind, emit, ask, raise, pool_submit, _execute_query_sync,
    record_event.
  cbn [history pool_is_shutdown].
  destruct (dry_run_bytes (client db) query (history st ++ [EvDryRun query])%list)
    as [E|e0] eqn:Hdry.
  - destruct (Z.gtb_spec E (BIGQUERY_MAX_BYTES_PROCESSED settings)) as [Hgt|Hle].
    + cbn [snd]. rewrite new_events_app.
      split; [left; reflexivity|]. split; intros; discriminate.
    + cbn [history pool_is_shutdown].
      destruct (pool_is_shutdown st) eqn:Hpool.
      * cbn [snd]. rewrite new_events_app.
        split; [left; reflexivity|]. split; intros; discriminate.
      * unfold bind, emit, ask, ret. cbn [history pool_is_shutdown].
        rewrite <- app_assoc. cbn [app].
        destruct (run_query (client db) query params
                    (history st ++ [EvDryRun query; EvQuery query params])%list)
          as [rows|e1] eqn:Hrun; cbn [snd]; rewrite new_events_app;
          (split; [right; reflexivity|]); (split; [intros; discriminate|]);
          intros rows' st' H; inversion H; subst.
        exists E. cbn [history].
        repeat split; auto.
  - cbn [snd]. rewrite new_events_app.
    split; [left; reflexivity|].
    split; [intros e He; inversion He; reflexivity|intros; discriminate].
Qed.

(** X2. [test_connection] never raises: it issues the one query
    ["SELECT 1"], with no dry run and whatever the state of the pool, and
    answers [True] exactly when the warehouse returns. *)
Theorem test_connection_never_raises :
  forall st : State,
    exists b : bool,
      test_connection db st = (Ok b, record_event st (EvQuery "SELECT 1" [])) /\
      (b = true <->
       exists rows,
         run_query (client db) "SELECT 1" []
                   (history st ++ [EvQuery "SELECT 1" []])%list = Returns rows).
Proof.
  intros st.
  unfold test_connection, try_except, bind, emit, ask, ret, record_event.
  cbn [history pool_is_shutdown].
  destruct (run_query (client db) "SELECT 1" [] _) as [rows|e].
  - exists true. split; [reflexivity|]. split; eauto.
  - exists false. split; [reflexivity|].
    split; [discriminate|]. intros [rows H]. discriminate.
Qed.

End ConnectorCalls.

(** An admissible query on the scenario's warehouse returns its rows. *)
Lemma execute_query_call_discipline_witness :
  dry_run_bytes (client Scenario.db_a) "SELECT 1" [EvDryRun "SELECT 1"]
  = Returns 500 /\
  500 <= BIGQUERY_MAX_BYTES_PROCESSED Scenario.test_settings.
Proof.
  destruct (proj2 (proj2 (execute_query_call_discipline
                            Scenario.test_settings Scenario.db_a
                            "SELECT 1" [] Scenario.fresh))
              Scenario.two_rows
              (mkState [EvDryRun "SELECT 1"; EvQuery "SELECT 1" []] false)
              eq_refl)
    as (E & Hdry & Hle & _).
  cbn in Hdry. inversion Hdry; subst E.
  split; [reflexivity|exact Hle].
Defined.

(* --------------------------------------------------------------------- *)
(** ** More on pagination *)
(* --------------------------------------------------------------------- *)

Lemma count_events_app (p : Event -> bool) (h1 h2 : list Event) :
  count_events p (h1 ++ h2) = (count_events p h1 + count_events p h2)%nat.
Proof. unfold count_events. now rewrite filter_app, length_app. Qed.

Section PaginationCalls.

Context {Row : Type}.
Variable db : BigQueryDatabase Row.

(** What one [__anext__] records: no dry run, no query through the pool,
    and one page request exactly when it yields a batch. *)
Lemma paginated_query_next_calls g st ob g' st' :
  paginated_query_next db g st = (Ok (ob, g'), st') ->
  exists evs,
    history st' = (history st ++ evs)%list /\
    existsb is_dry_run evs = false /\
    existsb is_real_query evs = false /\
    count_events is_result_page evs
    = match ob with Some _ => 1%nat | None => 0%nat end.
Proof.
  unfold paginated_query_next.
  destruct (gen_state g) as [|token page_count|].
  - unfold bind, emit, ask, ret. cbn [history pool_is_shutdown].
    destruct (start_job (client db) _ _); [|discriminate].
    cbn [history pool_is_shutdown].
    destruct (result_page (client db) _ _ None _); [|discriminate].
    intros H; inversion H; subst. cbn [history].
    rewrite <- app_assoc. eexists. split; [reflexivity|].
    repeat split; reflexivity.
  - destruct (negb (truthy_str token) || _).
    + unfold ret. intros H; inversion H; subst.
      exists []. rewrite app_nil_r. repeat split; reflexivity.
    + unfold bind, emit, ask, ret. cbn [history pool_is_shutdown].
      destruct (result_page (client db) _ _ token _); [|discriminate].
      intros H; inversion H; subst. cbn [history].
      eexists. split; [reflexivity|]. repeat split; reflexivity.
  - unfold ret. intros H; inversion H; subst.
    exists []. rewrite app_nil_r. repeat split; reflexivity.
Qed.

(** X3. A traversal of [paginated_query] never estimates a cost and never
    goes through the pooled [execute_query] path: when it ends, it has
    made exactly one page request per batch it yielded, and neither a dry
    run nor a query of the other kind. *)
Theorem paginated_query_one_request_per_batch :
  forall fuel g acc st batches st',
    paginated_query_collect db fuel g acc st = (Ok batches, st') ->
    exists evs,
      history st' = (history st ++ evs)%list /\
      existsb is_dry_run evs = false /\
      existsb is_real_query evs = false /\
      (List.length acc + count_events is_result_page evs
       = List.length batches)%nat.
Proof.
  induction fuel as [|fuel IH]; intros g acc st batches st' H; [discriminate|].
  cbn [paginated_query_collect] in H. unfold bind at 1 in H.
  destruct (paginated_query_next db g st) as [[[ob g']|e|] st1] eqn:Hnext;
    try discriminate.
  destruct (paginated_query_next_calls _ _ _ _ _ Hnext)
    as (evs1 & Hh1 & Hd1 & Hq1 & Hc1).
  destruct ob as [batch|].
  - apply IH in H. destruct H as (evs2 & Hh2 & Hd2 & Hq2 & Hc2).
    exists (evs1 ++ evs2)%list.
    rewrite Hh2, Hh1, <- app_assoc, !existsb_app, Hd1, Hd2, Hq1, Hq2.
    rewrite count_events_app, Hc1.
    rewrite length_app in Hc2. cbn [List.length] in Hc2.
    repeat split; try reflexivity. lia.
  - unfold ret in H. inversion H; subst.
    exists evs1. rewrite Hc1. repeat split; auto.
Qed.

(** X4. [max_pages=0] is no cap at all: a traversal with it is the
    traversal without [max_pages]. *)
Theorem paginated_query_zero_cap_is_no_cap :
  forall fuel query page_size state acc st,
    paginated_query_collect db fuel (mkGen query page_size (Some 0) state) acc st
    = paginated_query_collect db fuel (mkGen query page_size None state) acc st.
Proof.
  induction fuel as [|fuel IH]; intros query page_size state acc st;
    [reflexivity|].
  cbn [paginated_query_collect]. unfold bind at 1 2.
  unfold paginated_query_next.
  cbn [gen_query gen_page_size gen_max_pages gen_state truthy_int].
  destruct state as [|token page_count|].
  - unfold bind, emit, ask, ret. cbn [history pool_is_shutdown].
    destruct (start_job (client db) _ _); [|reflexivity].
    cbn [history pool_is_shutdown].
    destruct (result_page (client db) _ _ None _); [|reflexivity].
    apply IH.
  - change (negb (0 =? 0)) with false. cbn [andb].
    destruct (negb (truthy_str token) || false); [reflexivity|].
    unfold bind, emit, ask, ret. cbn [history pool_is_shutdown].
    destruct (result_page (client db) _ _ token _); [|reflexivity].
    apply IH.
  - reflexivity.
Qed.

(** X5. Under a cap [m] of at least 1, a traversal started afresh ends
    within [m + 2] steps and yields at most [m + 1] batches. *)
Theorem paginated_query_cap_bound :
  forall fuel query page_size m st,
    1 <= m ->
    (Z.to_nat m + 1 < fuel)%nat ->
    match paginated_query_collect db fuel
            (paginated_query query page_size (Some m)) [] st with
    | (Ok batches, _) => (List.length batches <= Z.to_nat m + 1)%nat
    | (Raise _, _) => True
    | (OutOfFuel, _) => False
    end.
Proof.
  intros fuel query page_size m st Hm Hfuel.
  pose proof (paginated_query_collect_bound db query page_size m
                ltac:(lia) fuel GenCreated [] st) as H.
  cbn [page_budget List.length] in H.
  unfold paginated_query.
  destruct (paginated_query_collect db fuel _ [] st) as [[batches|e|] st'];
    auto.
  - assert (Hb : (1 + Z.to_nat m < fuel)%nat) by lia.
    specialize (H Hb). lia.
  - apply H. lia.
Qed.

End PaginationCalls.

(** The test's two pages, traversed: two batches, two page requests. *)
Lemma paginated_query_one_request_per_batch_witness :
  exists evs,
    [EvStartJob "SELECT * FROM test_table";
     EvResultPage "SELECT * FROM test_table" 1 None;
     EvResultPage "SELECT * FROM test_table" 1 (Some "page2")]
    = ([] ++ evs)%list /\
    existsb is_dry_run evs = false /\
    existsb is_real_query evs = false /\
    (0 + count_events is_result_page evs = 2)%nat.
Proof.
  exact (paginated_query_one_request_per_batch
           (Scenario.fixed_db 500 [] Scenario.two_pages) 5
           (paginated_query "SELECT * FROM test_table" 1 None) [] Scenario.fresh
           [ [[("column1", 1)]]; [[("column1", 2)]] ]
           (mkState [EvStartJob "SELECT * FROM test_table";
                     EvResultPage "SELECT * FROM test_table" 1 None;
                     EvResultPage "SELECT * FROM test_table" 1 (Some "page2")]
                    false)
           eq_refl).
Defined.

(** Three server pages under a cap of 2: all three are yielded. *)
Lemma paginated_query_cap_bound_witness :
  (List.length
     [ [[("n", 1)]]; [[("n", 2)]]; [[("n", 3)]] ] <= Z.to_nat 2 + 1)%nat.
Proof.
  exact (paginated_query_cap_bound Scenario.db_pages 5 "SELECT n FROM t" 1 2
           Scenario.fresh ltac:(lia) ltac:(cbn; lia)).
Defined.

Section CursorWarehouse.

Context {Row : Type}.
Variable db : BigQueryDatabase Row.
Variable serve : option string -> list Row * option string.
Variable query : string.
Variable page_size : Z.

(** The warehouse starts the job, and the page it gives to a request is
    the one at the token of the request. *)
Hypothesis job_starts :
  forall h, start_job (client db) query h = Returns tt.
Hypothesis served_by_cursor :
  forall page_token h,
    result_page (client db) query page_size page_token h
    = Returns (serve page_token).

(** What is left of the chain after a page with the next token
    [page_token]. *)
Local Abbreviation rest_of_chain n page_token :=
  (if truthy_str page_token then cursor_chain serve n page_token else []).

(** From the [yield] of a page on, the generator follows the cursor. *)
Lemma paginated_query_follows_cursor :
  forall n page_token acc st page_count fuel,
    (truthy_str page_token = true -> cursor_ends serve n page_token = true) ->
    (n < fuel)%nat ->
    paginated_query_collect db fuel
      (mkGen query page_size None (GenSuspended page_token page_count)) acc st
    = (Ok (acc ++ map snd (rest_of_chain n page_token))%list,
       mkState (history st
                ++ map (page_request query page_size)
                       (rest_of_chain n page_token))%list
               (pool_is_shutdown st)).
Proof.
  induction n as [|n IH]; intros page_token acc st page_count fuel Hends Hfuel;
    (destruct fuel as [|fuel]; [lia|]);
    cbn [paginated_query_collect]; unfold bind at 1;
    unfold paginated_query_next;
    cbn [gen_query gen_page_size gen_max_pages gen_state truthy_int andb];
    rewrite orb_false_r;
    destruct (truthy_str page_token) eqn:Htoken; cbn [negb];
    try (unfold ret; cbn [map]; rewrite !app_nil_r; destruct st; reflexivity).
  - specialize (Hends eq_refl). discriminate.
  - specialize (Hends eq_refl). cbn [cursor_ends] in Hends.
    unfold bind, emit, ask, ret. cbn [history pool_is_shutdown].
    rewrite served_by_cursor. cbn [fst snd].
    rewrite (IH (snd (serve page_token))); [| |lia].
    + cbn [cursor_chain map history pool_is_shutdown page_request fst snd].
      rewrite <- !app_assoc. reflexivity.
    + intros Hnext. rewrite Hnext in Hends. exact Hends.
Qed.

(** X6. Without a cap the generator follows the cursor of the warehouse:
    where each page request is answered by the page at its token, and the
    chain of next tokens from the first page on ends within [n] pages, a
    traversal requests exactly the pages of this chain, each with its own
    token, once and in order, yields their batches in this order, and
    ends. *)
Theorem paginated_query_follows_the_cursor :
  forall n fuel st,
    cursor_ends serve n None = true ->
    (n < fuel)%nat ->
    paginated_query_collect db fuel (paginated_query query page_size None) [] st
    = (Ok (map snd (cursor_chain serve n None)),
       mkState (history st
                ++ EvStartJob query
                   :: map (page_request query page_size)
                          (cursor_chain serve n None))%list
               (pool_is_shutdown st)).
Proof.
  intros n fuel st Hends Hfuel.
  destruct n as [|n]; [discriminate|].
  destruct fuel as [|fuel]; [lia|].
  cbn [cursor_ends] in Hends.
  cbn [paginated_query_collect]. unfold bind at 1.
  unfold paginated_query, paginated_query_next.
  cbn [gen_query gen_page_size gen_max_pages gen_state].
  unfold bind, emit, ask, ret. cbn [history pool_is_shutdown].
  rewrite job_starts. cbn [history pool_is_shutdown].
  rewrite served_by_cursor. cbn [fst snd].
  rewrite (paginated_query_follows_cursor n (snd (serve None))); [| |lia].
  - cbn [cursor_chain map history pool_is_shutdown page_request fst snd app].
    rewrite <- !app_assoc. reflexivity.
  - intros Hnext. rewrite Hnext in Hends. exact Hends.
Qed.

End CursorWarehouse.

(** The three pages served by cursor: the second and third request carry
    the tokens "p2" and "p3". *)
Lemma paginated_query_follows_the_cursor_witness :
  paginated_query_collect Scenario.db_by_cursor 5
    (paginated_query "SELECT n FROM t" 1 None) [] Scenario.fresh
  = (Ok [ [[("n", 1)]]; [[("n", 2)]]; [[("n", 3)]] ],
     mkState [EvStartJob "SELECT n FROM t";
              EvResultPage "SELECT n FROM t" 1 None;
              EvResultPage "SELECT n FROM t" 1 (Some "p2");
              EvResultPage "SELECT n FROM t" 1 (Some "p3")] false).
Proof.
  exact (paginated_query_follows_the_cursor
           Scenario.db_by_cursor Scenario.serve_three "SELECT n FROM t" 1
           (fun _ => eq_refl) (fun _ _ => eq_refl)
           3 5 Scenario.fresh eq_refl ltac:(lia)).
Defined.

(* --------------------------------------------------------------------- *)
(** ** Construction of the connector *)
(* --------------------------------------------------------------------- *)

Section ConstructionChecks.

Context {Row : Type}.
Variable Credentials : Type.
Variable from_service_account_file : string -> Answer Credentials.
Variable make_client : string -> Credentials -> Answer (Client Row).

Local Abbreviation init :=
  (__init__ Credentials from_service_account_file make_client).

(** X7. The constructor validates before it connects. A disabled
    BigQuery, then a missing project, dataset or credentials path (each
    after the argument, when [None] or empty, has given way to the
    setting) fail in this order with their [ValueError], whatever the
    credentials file and the client would do. A connector that is returned
    has BigQuery enabled, a positive pool size, a non-empty project and
    dataset taken from the argument or else from the setting, and the
    client made from the credentials that were loaded. *)
Theorem init_validates_before_connecting :
  forall settings project_id0 dataset_id0 credentials_path0 pool_size,
    (BIGQUERY_ENABLED settings = false ->
     init settings project_id0 dataset_id0 credentials_path0 pool_size
     = Raises (ValueError "BigQuery is not enabled in settings")) /\
    (BIGQUERY_ENABLED settings = true ->
     truthy_str (or_else project_id0 (BIGQUERY_PROJECT_ID settings)) = false ->
     init settings project_id0 dataset_id0 credentials_path0 pool_size
     = Raises (ValueError "BigQuery project ID is required")) /\
    (BIGQUERY_ENABLED settings = true ->
     truthy_str (or_else project_id0 (BIGQUERY_PROJECT_ID settings)) = true ->
     truthy_str (or_else dataset_id0 (BIGQUERY_DATASET settings)) = false ->
     init settings project_id0 dataset_id0 credentials_path0 pool_size
     = Raises (ValueError "BigQuery dataset ID is required")) /\
    (BIGQUERY_ENABLED settings = true ->
     truthy_str (or_else project_id0 (BIGQUERY_PROJECT_ID settings)) = true ->
     truthy_str (or_else dataset_id0 (BIGQUERY_DATASET settings)) = true ->
     truthy_str (or_else credentials_path0 (BIGQUERY_CREDENTIALS_PATH settings))
     = false ->
     init settings project_id0 dataset_id0 credentials_path0 pool_size
     = Raises (ValueError "BigQuery credentials path is required")) /\
    (forall db,
        init settings project_id0 dataset_id0 credentials_path0 pool_size
        = Returns db ->
        BIGQUERY_ENABLED settings = true /\
        0 < pool_size /\
        or_else project_id0 (BIGQUERY_PROJECT_ID settings) = Some (project_id db) /\
        project_id db <> "" /\
        or_else dataset_id0 (BIGQUERY_DATASET settings) = Some (dataset_id db) /\
        dataset_id db <> "" /\
        exists path credentials,
          or_else credentials_path0 (BIGQUERY_CREDENTIALS_PATH settings)
          = Some path /\
          from_service_account_file path = Returns credentials /\
          make_client (project_id db) credentials = Returns (client db)).
Proof.
  intros settings project_id0 dataset_id0 credentials_path0 pool_size.
  unfold __init__.
  split; [intros ->; reflexivity|].
  split; [intros -> Hp; cbn [negb];
          destruct (or_else project_id0 _) as [[|c r]|]; try discriminate;
          reflexivity|].
  split; [intros -> Hp Hd; cbn [negb];
          destruct (or_else project_id0 _) as [[|c r]|]; try discriminate;
          destruct (or_else dataset_id0 _) as [[|c' r']|]; try discriminate;
          reflexivity|].
  split; [intros -> Hp Hd Hc; cbn [negb];
          destruct (or_else project_id0 _) as [[|c r]|]; try discriminate;
          destruct (or_else dataset_id0 _) as [[|c' r']|]; try discriminate;
          destruct (or_else credentials_path0 _) as [[|c'' r'']|];
          try discriminate; reflexivity|].
  intros db.
  destruct (BIGQUERY_ENABLED settings); cbn [negb]; [|discriminate].
  destruct (or_else project_id0 _) as [[|c r]|]; try discriminate.
  destruct (or_else dataset_id0 _) as [[|c' r']|]; try discriminate.
  destruct (or_else credentials_path0 _) as [[|c'' r'']|]; try discriminate.
  destruct (from_service_account_file _) as [credentials|e] eqn:Hcred;
    [|discriminate].
  unfold new_pool. destruct (Z.leb_spec pool_size 0) as [Hneg|Hpos];
    [discriminate|].
  destruct (make_client _ credentials) as [cl|e] eqn:Hclient; [|discriminate].
  intros Hret; inversion Hret; subst. cbn [project_id dataset_id client].
  repeat split; try discriminate; try assumption.
  eauto.
Qed.

End ConstructionChecks.

(** A disabled BigQuery fails first, even with nothing else configured. *)
Lemma init_validates_before_connecting_witness :
  __init__ (Row := Scenario.Row) unit (fun _ => Returns tt)
           (fun _ _ => Returns (Scenario.fixed_client 500 [] []))
           (mkConnectionSettings false None None None) None None None 10
  = Raises (ValueError "BigQuery is not enabled in settings").
Proof.
  exact (proj1 (init_validates_before_connecting (Row := Scenario.Row)
                  unit (fun _ => Returns tt)
                  (fun _ _ => Returns (Scenario.fixed_client 500 [] []))
                  (mkConnectionSettings false None None None)
                  None None None 10)
               eq_refl).
Defined.

(* --------------------------------------------------------------------- *)
(** ** The choice of the chat model *)
(* --------------------------------------------------------------------- *)

Ltac split_model_name llm :=
  unfold requested_call, get_llm, str_in, known_models; cbn [existsb];
  destruct (String.eqb_spec llm "gpt-4o");
  destruct (String.eqb_spec llm "gpt-4o-2024-08-06");
  destruct (String.eqb_spec llm "gpt-4o-mini");
  destruct (String.eqb_spec llm "gpt-4o-mini-2024-07-18");
  destruct (String.eqb_spec llm "claude-3-5-sonnet-latest");
  destruct (String.eqb_spec llm "gemini-2.0-flash-exp");
  destruct (String.eqb_spec llm "azure-3.5");
  cbn [orb]; try congruence.

(** Whatever the constructors do, [get_llm] either raises by itself or
    passes on the outcome of the one call it asks for. *)
Lemma get_llm_one_call {Model} (construct : ChatModelCall -> Answer Model)
      settings llm api_key :
  get_llm construct settings llm api_key
  = match requested_call settings llm api_key with
    | Returns call => construct call
    | Raises e => Raises e
    end.
Proof.
  unfold requested_call, get_llm.
  repeat match goal with
         | |- context [if ?b then _ else _] => destruct b; try reflexivity
         end.
  destruct (OPENAI_API_BASE settings); reflexivity.
Qed.

(** X8. [get_llm] makes at most one constructor call and passes its
    outcome on, whatever the constructors do. It raises by itself for one
    input only, the model ["azure-3.5"] without [OPENAI_API_BASE], and
    then calls no constructor; every call it makes asks for a streaming
    model; and a model name it does not know leads to the default call,
    [ChatOpenAI] for ["gpt-4o"], instead of an error of its own. *)
Theorem get_llm_passes_on_one_streaming_call :
  forall settings llm api_key,
    (forall Model (construct : ChatModelCall -> Answer Model),
        get_llm construct settings llm api_key
        = match requested_call settings llm api_key with
          | Returns call => construct call
          | Raises e => Raises e
          end) /\
    (forall e,
        requested_call settings llm api_key = Raises e ->
        llm = "azure-3.5" /\ OPENAI_API_BASE settings = None /\
        e = ValueError "OPENAI_API_BASE must be set to use Azure LLM") /\
    (forall call,
        requested_call settings llm api_key = Returns call ->
        streams call = true) /\
    (str_in llm known_models = false ->
     requested_call settings llm api_key
     = Returns (ChatOpenAI 0 "gpt-4o" (OPENAI_ORGANIZATION settings)
                           (OPENAI_API_KEY settings) true)).
Proof.
  intros settings llm api_key. split; [|split; [|split]].
  - intros Model construct. apply get_llm_one_call.
  - intros e. split_model_name llm; try discriminate.
    destruct (OPENAI_API_BASE settings); [discriminate|].
    intros H; inversion H. auto.
  - intros call. split_model_name llm;
      try (intros H; inversion H; reflexivity).
    destruct (OPENAI_API_BASE settings); [|discriminate].
    intros H; inversion H; reflexivity.
  - split_model_name llm; try discriminate; intros _; reflexivity.
Qed.

(** X9. The API key that reaches the constructor. A caller's key, even
    an empty one, is the key of the call for every model name that
    [get_llm] knows; for an unknown name it is dropped and the OpenAI key
    of the settings is passed. Whether a model comes of it is up to the
    constructor. *)
Theorem get_llm_api_key :
  forall settings llm key call,
    requested_call settings llm (Some key) = Returns call ->
    (forall Model (construct : ChatModelCall -> Answer Model),
        get_llm construct settings llm (Some key) = construct call) /\
    api_key_of call
    = if str_in llm known_models then key else OPENAI_API_KEY settings.
Proof.
  intros settings llm key call Hcall. split.
  - intros Model construct. rewrite get_llm_one_call, Hcall. reflexivity.
  - revert Hcall.
    split_model_name llm; try (intros H; inversion H; reflexivity).
    destruct (OPENAI_API_BASE settings); [|discriminate].
    intros H; inversion H; reflexivity.
Qed.

(** The test's invalid model name falls back to the default call. *)
Lemma get_llm_passes_on_one_streaming_call_witness :
  requested_call (mkLlmSettings "test-key" None None "test-key"
                                "https://api.anthropic.com" "test-key")
                 "invalid-model" (Some "test-key-123")
  = Returns (ChatOpenAI 0 "gpt-4o" None "test-key" true).
Proof.
  exact (proj2 (proj2 (proj2 (get_llm_passes_on_one_streaming_call
                         (mkLlmSettings "test-key" None None "test-key"
                                        "https://api.anthropic.com" "test-key")
                         "invalid-model" (Some "test-key-123"))))
               eq_refl).
Defined.

(** A custom key reaches the constructor of a known model, also where the
    constructor refuses it. *)
Lemma get_llm_api_key_witness :
  get_llm (fun _ => Raises (ValueError "invalid api key") : Answer unit)
          (mkLlmSettings "test-key" None None "test-key"
                         "https://api.anthropic.com" "test-key")
          "gpt-4o" (Some "test-key-123")
  = Raises (ValueError "invalid api key") /\
  api_key_of (ChatOpenAI 0 "gpt-4o" None "test-key-123" true) = "test-key-123".
Proof.
  pose proof (get_llm_api_key
                (mkLlmSettings "test-key" None None "test-key"
                               "https://api.anthropic.com" "test-key")
                "gpt-4o" "test-key-123"
                (ChatOpenAI 0 "gpt-4o" None "test-key-123" true) eq_refl)
    as [Hcall Hkey].
  split; [exact (Hcall unit _)|exact Hkey].
Defined.

(* ===================================================================== *)
(** * Further properties of the tool *)
(* ===================================================================== *)

(** What a returning [execute_query] has done. *)
Lemma execute_query_returns_inv {Row} settings (db : BigQueryDatabase Row)
      query params st rows st' :
  execute_query settings db query params st = (Ok rows, st') ->
  exists E,
    dry_run_bytes (client db) query (history st ++ [EvDryRun query])%list
    = Returns E /\
    E <= BIGQUERY_MAX_BYTES_PROCESSED settings /\
    history st' = (history st ++ [EvDryRun query; EvQuery query params])%list /\
    run_query (client db) query params (history st') = Returns rows.
Proof.
  unfold execute_query, bind, emit, ask, raise, pool_submit, _execute_query_sync.
  cbn [history pool_is_shutdown].
  destruct (dry_run_bytes (client db) query _) as [E|e]; [|discriminate].
  destruct (Z.gtb_spec E (BIGQUERY_MAX_BYTES_PROCESSED settings)) as [Hgt|Hle];
    [discriminate|].
  cbn [history pool_is_shutdown].
  destruct (pool_is_shutdown st); [discriminate|].
  unfold bind, emit, ask, ret. cbn [history pool_is_shutdown].
  rewrite <- app_assoc. cbn [app].
  destruct (run_query (client db) query params _) as [rows'|e] eqn:Hrun;
    [|discriminate].
  intros Hret; inversion Hret; subst. cbn [history].
  exists E. repeat split; auto.
Qed.

Section Verdicts.

Context {Row : Type}.
Variable settings : Settings.
Variable db : BigQueryDatabase Row.
Variable tool : BigQueryTool.
Variable _agenerate_response :
  list Message -> option bool -> History -> Answer string.
Variable repr_rows : list Row -> string.

Local Abbreviation validate :=
  (_avalidate_response settings db tool _agenerate_response repr_rows).
Local Abbreviation run := (_arun settings db tool _agenerate_response repr_rows).

(** X10. Validation never raises: it always returns a verdict. A failure
    of the execution, whatever its kind, becomes the verdict
    [(False, "", str(e))], reported to the run manager when there is one;
    in particular a query over budget is answered with the complaint
    ["Query would process <E> bytes"] and is never run. *)
Theorem validation_turns_failures_into_verdicts :
  forall question response run_manager st,
    (exists verdict st',
        validate question response run_manager st = (Ok verdict, st')) /\
    (forall query e st1,
        extract_query response = Some query ->
        execute_query settings db query [] st = (Raise e, st1) ->
        validate question response run_manager st
        = (Ok (false, "", exn_str e),
           match run_manager with
           | Some _ => record_event st1 (EvOnToolError e)
           | None => st1
           end)) /\
    (forall query E,
        extract_query response = Some query ->
        dry_run_bytes (client db) query (history st ++ [EvDryRun query])%list
        = Returns E ->
        BIGQUERY_MAX_BYTES_PROCESSED settings < E ->
        fst (validate question response run_manager st)
        = Ok (false, "", "Query would process " ++ PyStr.of_int E ++ " bytes") /\
        existsb is_real_query
                (new_events st (snd (validate question response run_manager st)))
        = false).
Proof.
  intros question response run_manager st. split; [|split].
  - destruct (validate_returns settings db tool _agenerate_response repr_rows
                question response run_manager st) as (v & st' & H & _).
    eauto.
  - intros query e st1 Hq Hrun.
    unfold _avalidate_response, try_except. rewrite Hq.
    unfold bind at 1. rewrite Hrun.
    destruct run_manager; reflexivity.
  - intros query E Hq Hdry Hover.
    unfold _avalidate_response, try_except. rewrite Hq.
    unfold bind at 1.
    unfold execute_query, bind, emit, ask, raise. cbn [history pool_is_shutdown].
    rewrite Hdry.
    destruct (Z.gtb_spec E (BIGQUERY_MAX_BYTES_PROCESSED settings)) as [Hgt|Hle];
      [|lia].
    destruct run_manager; cbn [with_run_manager];
      unfold bind, emit, ret; cbn [fst snd history pool_is_shutdown exn_str
                                   QueryCostError].
    + rewrite <- app_assoc. rewrite new_events_app. split; reflexivity.
    + rewrite new_events_app. split; reflexivity.
Qed.

(** X11. A candidate is only ever declared valid after its query was
    estimated within the budget, really run, and returned at least one
    row: a valid verdict shows the dry run and the real call of the
    extracted query as the first two calls of the validation. *)
Theorem valid_verdict_means_executed :
  forall question response run_manager st summary complaints st',
    validate question response run_manager st
    = (Ok (true, summary, complaints), st') ->
    exists query rows E rest,
      extract_query response = Some query /\
      dry_run_bytes (client db) query (history st ++ [EvDryRun query])%list
      = Returns E /\
      E <= BIGQUERY_MAX_BYTES_PROCESSED settings /\
      run_query (client db) query []
                (history st ++ [EvDryRun query; EvQuery query []])%list
      = Returns rows /\
      rows <> [] /\
      new_events st st' = EvDryRun query :: EvQuery query [] :: rest /\
      (validate_with_llm tool = false ->
       summary = format_results tool repr_rows rows /\ rest = []).
Proof.
  intros question response run_manager st summary complaints st'.
  unfold _avalidate_response, try_except, bind.
  destruct (extract_query response) as [query|]; [|unfold ret; congruence].
  destruct (execute_query settings db query [] st) as [[rows|e|] st1] eqn:Hrun;
    [| |unfold out_of_fuel; congruence].
  - destruct (execute_query_returns_inv _ _ _ _ _ _ _ Hrun)
      as (E & Hdry & Hle & Hh & Hres).
    rewrite Hh in Hres.
    destruct rows as [|r rows]; [unfold ret; cbn; congruence|].
    cbn [is_empty]. rewrite len_cons_nonzero, andb_false_r.
    destruct (validate_with_llm tool) eqn:Hllm.
    + unfold generate, bind, emit, ask. cbn [history pool_is_shutdown].
      destruct (_agenerate_response _ None _) as [text|e].
      * unfold ret. intros H; inversion H; subst.
        exists query, (r :: rows), E. eexists.
        split; [reflexivity|]. split; [exact Hdry|]. split; [exact Hle|].
        split; [exact Hres|]. split; [discriminate|].
        split; [|intros; congruence].
        apply new_events_ext. cbn [history]. rewrite Hh, <- app_assoc.
        reflexivity.
      * destruct run_manager; unfold with_run_manager, emit, ret; congruence.
    + unfold ret. intros H; inversion H; subst.
      exists query, (r :: rows), E, [].
      split; [reflexivity|]. split; [exact Hdry|]. split; [exact Hle|].
      split; [exact Hres|]. split; [discriminate|].
      split; [|intros; split; reflexivity].
      apply new_events_ext. exact Hh.
  - destruct run_manager; unfold with_run_manager, emit, ret; congruence.
Qed.

End Verdicts.

(** Scenario B inside the loop: the over-budget query becomes a
    complaint. *)
Lemma validation_turns_failures_into_verdicts_witness :
  fst (_avalidate_response Scenario.test_settings
         (Scenario.fixed_db 2000000000 Scenario.two_rows [])
         (Scenario.test_tool false) Scenario.llm_a Scenario.repr_rows
         "show events" Scenario.fenced_query None Scenario.fresh)
  = Ok (false, "", "Query would process 2000000000 bytes").
Proof.
  exact (proj1 (proj2 (proj2 (validation_turns_failures_into_verdicts
                  Scenario.test_settings
                  (Scenario.fixed_db 2000000000 Scenario.two_rows [])
                  (Scenario.test_tool false) Scenario.llm_a Scenario.repr_rows
                  "show events" Scenario.fenced_query None Scenario.fresh))
               "SELECT * FROM events" 2000000000 eq_refl eq_refl
               ltac:(cbn; lia))).
Defined.

(** Scenario A: the valid verdict of the tool's test. *)
Lemma valid_verdict_means_executed_witness :
  exists query rows E rest,
    extract_query Scenario.fenced_query = Some query /\
    dry_run_bytes (client Scenario.db_a) query
                  (history Scenario.fresh ++ [EvDryRun query])%list
    = Returns E /\
    E <= BIGQUERY_MAX_BYTES_PROCESSED Scenario.test_settings /\
    run_query (client Scenario.db_a) query []
              (history Scenario.fresh ++ [EvDryRun query; EvQuery query []])%list
    = Returns rows /\
    rows <> [] /\
    new_events Scenario.fresh
               (mkState [EvDryRun "SELECT * FROM events";
                         EvQuery "SELECT * FROM events" []] false)
    = EvDryRun query :: EvQuery query [] :: rest /\
    rest = [].
Proof.
  destruct (valid_verdict_means_executed
              Scenario.test_settings Scenario.db_a (Scenario.test_tool false)
              Scenario.llm_a Scenario.repr_rows
              "show events" Scenario.fenced_query None Scenario.fresh
              (format_results (Scenario.test_tool false) Scenario.repr_rows
                              Scenario.two_rows)
              ""
              (mkState [EvDryRun "SELECT * FROM events";
                        EvQuery "SELECT * FROM events" []] false)
              eq_refl)
    as (query & rows & E & rest & H1 & H2 & H3 & H4 & H5 & H6 & H7).
  exists query, rows, E, rest.
  repeat split; auto. apply (H7 eq_refl).
Defined.

(* --------------------------------------------------------------------- *)
(** ** What a run can cost *)
(* --------------------------------------------------------------------- *)

Lemma total_app w (h1 h2 : list Event) :
  total w (h1 ++ h2) = (total w h1 + total w h2)%nat.
Proof. unfold total. now rewrite map_app, list_sum_app. Qed.

Lemma count_events_total p (evs : list Event) :
  count_events p evs = total (hit p) evs.
Proof.
  induction evs as [|ev evs IH]; [reflexivity|].
  change (total (hit p) (ev :: evs)) with (hit p ev + total (hit p) evs)%nat.
  rewrite <- IH. unfold count_events, hit. cbn [filter].
  destruct (p ev); reflexivity.
Qed.

Section Cost.

Variable w : Event -> nat.

Lemma cost_ret {A} (a : A) : within_cost w 0 (ret a).
Proof. intros st. exists []. cbn. rewrite app_nil_r. auto. Qed.

Lemma cost_raise {A} (e : Exn) : within_cost w 0 (@raise A e).
Proof. intros st. exists []. cbn. rewrite app_nil_r. auto. Qed.

Lemma cost_out_of_fuel {A} : within_cost w 0 (@out_of_fuel A).
Proof. intros st. exists []. cbn. rewrite app_nil_r. auto. Qed.

Lemma cost_emit (ev : Event) : within_cost w (w ev) (emit ev).
Proof.
  intros st. exists [ev]. split; [reflexivity|].
  unfold total. simpl. lia.
Qed.

Lemma cost_ask {A} (oracle : History -> Answer A) : within_cost w 0 (ask oracle).
Proof.
  intros st. unfold ask. exists [].
  destruct (oracle (history st)); cbn; rewrite app_nil_r; auto.
Qed.

Lemma cost_weaken {A} (n n' : nat) (m : M A) :
  (n <= n')%nat -> within_cost w n m -> within_cost w n' m.
Proof.
  intros Hle H st. destruct (H st) as (evs & Hh & Hc).
  exists evs. split; [exact Hh|lia].
Qed.

Lemma cost_ext {A} (n : nat) (m m' : M A) :
  (forall st, m st = m' st) -> within_cost w n m' -> within_cost w n m.
Proof. intros E H st. rewrite E. apply H. Qed.

Lemma cost_bind {A B} (n1 n2 : nat) (m : M A) (k : A -> M B) :
  within_cost w n1 m -> (forall a, within_cost w n2 (k a)) ->
  within_cost w (n1 + n2) (bind m k).
Proof.
  intros Hm Hk st. unfold bind.
  destruct (Hm st) as (evs & Hh & Hc).
  destruct (m st) as [[a|e|] st1]; cbn [fst snd] in *.
  - destruct (Hk a st1) as (evs2 & Hh2 & Hc2).
    exists (evs ++ evs2)%list. rewrite Hh2, Hh, app_assoc, total_app.
    split; [reflexivity|lia].
  - exists evs. split; [exact Hh|lia].
  - exists evs. split; [exact Hh|lia].
Qed.

Lemma cost_try {A} (n1 n2 : nat) (m : M A) (h : Exn -> M A) :
  within_cost w n1 m -> (forall e, within_cost w n2 (h e)) ->
  within_cost w (n1 + n2) (try_except m h).
Proof.
  intros Hm Hh st. unfold try_except.
  destruct (Hm st) as (evs & Hhist & Hc).
  destruct (m st) as [[a|e|] st1]; cbn [fst snd] in *.
  - exists evs. split; [exact Hhist|lia].
  - destruct (Hh e st1) as (evs2 & Hh2 & Hc2).
    exists (evs ++ evs2)%list. rewrite Hh2, Hhist, app_assoc, total_app.
    split; [reflexivity|lia].
  - exists evs. split; [exact Hhist|lia].
Qed.

Lemma cost_with_run_manager (run_manager : option RunManager) n (m : M unit) :
  within_cost w n m -> within_cost w n (with_run_manager run_manager m).
Proof.
  destruct run_manager; [auto|].
  intros _. apply (cost_weaken 0); [lia|apply cost_ret].
Qed.

Lemma cost_pool_submit {A} (n : nat) (task : M A) :
  within_cost w n task -> within_cost w n (pool_submit task).
Proof.
  intros H st. unfold pool_submit.
  destruct (pool_is_shutdown st); [|apply H].
  exists []. cbn. rewrite app_nil_r. split; [reflexivity|lia].
Qed.

(** Bounds on the weight of one call of each kind. *)
Variables d q g t x : nat.
Hypothesis dry_run_weight : forall query, (w (EvDryRun query) <= d)%nat.
Hypothesis query_weight : forall query params, (w (EvQuery query params) <= q)%nat.
Hypothesis generate_weight :
  forall step messages flag, (w (EvGenerate step messages flag) <= g)%nat.
Hypothesis text_weight : forall text kind, (w (EvOnText text kind) <= t)%nat.
Hypothesis error_weight : forall e, (w (EvOnToolError e) <= x)%nat.

Context {Row : Type}.
Variable settings : Settings.
Variable db : BigQueryDatabase Row.
Variable tool : BigQueryTool.
Variable _agenerate_response :
  list Message -> option bool -> History -> Answer string.
Variable repr_rows : list Row -> string.

Lemma cost_execute_query query params :
  within_cost w (d + q) (execute_query settings db query params).
Proof.
  unfold execute_query.
  apply cost_bind;
    [apply (cost_weaken (w (EvDryRun query))); [auto|apply cost_emit]|intros _].
  replace q with (0 + q)%nat by lia.
  apply cost_bind; [apply cost_ask|intros total_bytes].
  destruct (total_bytes >? _);
    [apply (cost_weaken 0); [lia|apply cost_raise]|].
  replace q with (q + 0)%nat by lia.
  apply cost_bind; [|intros; apply cost_ret].
  apply cost_pool_submit. unfold _execute_query_sync.
  replace q with (q + 0)%nat by lia.
  apply cost_bind; [|intros _; apply cost_ask].
  apply (cost_weaken (w (EvQuery query params))); [auto|apply cost_emit].
Qed.

Lemma cost_generate step messages flag :
  within_cost w g (generate _agenerate_response step messages flag).
Proof.
  unfold generate. replace g with (g + 0)%nat by lia.
  apply cost_bind; [|intros _; apply cost_ask].
  eapply cost_weaken; [|apply cost_emit]. auto.
Qed.

Lemma cost_announced_generate run_manager text step messages flag :
  within_cost w (t + g)
    (bind (with_run_manager run_manager (emit (EvOnText text ACTION)))
          (fun _ => generate _agenerate_response step messages flag)).
Proof.
  apply cost_bind; [|intros _; apply cost_generate].
  apply cost_with_run_manager.
  eapply cost_weaken; [|apply cost_emit]. auto.
Qed.

Lemma cost_validate question response run_manager :
  within_cost w (d + q + g + x)
    (_avalidate_response settings db tool _agenerate_response repr_rows
                         question response run_manager).
Proof.
  unfold _avalidate_response.
  apply cost_try.
  - destruct (extract_query response) as [query|];
      [|apply (cost_weaken 0); [lia|apply cost_ret]].
    apply cost_bind; [apply cost_execute_query|intros rows].
    destruct (is_empty rows); [apply (cost_weaken 0); [lia|apply cost_ret]|].
    destruct (validate_empty_results tool && _);
      [apply (cost_weaken 0); [lia|apply cost_ret]|].
    destruct (validate_with_llm tool);
      [|apply (cost_weaken 0); [lia|apply cost_ret]].
    replace g with (g + 0)%nat by lia.
    apply cost_bind; [apply cost_generate|intros; apply cost_ret].
  - intros e. replace x with (x + 0)%nat by lia.
    apply cost_bind; [|intros; apply cost_ret].
    apply cost_with_run_manager.
    eapply cost_weaken; [|apply cost_emit]. auto.
Qed.

Lemma cost_improve question previous feedback fields run_manager :
  within_cost w (t + g)
    (_aimprove_query tool _agenerate_response question previous feedback
                     fields run_manager).
Proof. unfold _aimprove_query. apply cost_announced_generate. Qed.

Lemma cost_select question run_manager :
  within_cost w (t + g)
    (_alist_required_fields tool _agenerate_response question run_manager).
Proof.
  unfold _alist_required_fields.
  apply cost_bind;
    [apply cost_with_run_manager; eapply cost_weaken; [|apply cost_emit]; auto
    |intros _].
  replace g with (g + 0)%nat by lia.
  apply cost_bind; [apply cost_generate|intros; apply cost_ret].
Qed.

Lemma cost_generate_query question fields run_manager :
  within_cost w (t + g)
    (_agenerate_query tool _agenerate_response question fields run_manager).
Proof.
  unfold _agenerate_query.
  apply cost_bind;
    [apply cost_with_run_manager; eapply cost_weaken; [|apply cost_emit]; auto
    |intros _].
  replace g with (g + 0)%nat by lia.
  apply cost_bind; [apply cost_generate|intros; apply cost_ret].
Qed.

Lemma cost_finish run_manager v : within_cost w t (finish run_manager v).
Proof.
  unfold finish.
  destruct run_manager; [|apply (cost_weaken 0); [lia|apply cost_ret]].
  destruct (is_valid v); replace t with (t + 0)%nat by lia;
    (apply cost_bind; [|intros; apply cost_ret]);
    (eapply cost_weaken; [|apply cost_emit]); auto.
Qed.

(** Each iteration validates once and repairs at most once, and there are
    at most [4 - retries] of them, whatever the fuel. *)
Lemma cost_loop question fields run_manager :
  forall fuel v,
    within_cost w (Z.to_nat (4 - retries v) * ((d + q + g + x) + (t + g)))
      (validation_loop settings db tool _agenerate_response repr_rows
                       fuel question fields run_manager v).
Proof.
  induction fuel as [|fuel IH]; intros v; cbn [validation_loop];
    destruct (is_none (result v) && (retries v <=? 3)) eqn:Hc;
    try (apply (cost_weaken 0); [apply Nat.le_0_l|apply cost_ret]).
  - apply (cost_weaken 0); [apply Nat.le_0_l|apply cost_out_of_fuel].
  - apply andb_prop in Hc. destruct Hc as [_ Hle]. apply Z.leb_le in Hle.
    replace (Z.to_nat (4 - retries v))
      with (S (Z.to_nat (4 - (retries v + 1)))) by lia.
    cbn [Nat.mul].
    rewrite <- Nat.add_assoc.
    apply cost_bind; [apply cost_validate|].
    intros [[valid rs] c]. destruct valid.
    + eapply cost_ext.
      * intros st. apply loop_exit. reflexivity.
      * apply (cost_weaken 0); [apply Nat.le_0_l|apply cost_ret].
    + apply cost_bind; [apply cost_improve|].
      intros improved.
      apply (IH (mkVars (result v) (retries v + 1) false rs improved)).
Qed.

Lemma cost_run fuel question run_manager :
  within_cost w (2 * (t + g) + 4 * ((d + q + g + x) + (t + g)) + t + x)
    (_arun settings db tool _agenerate_response repr_rows
           fuel question run_manager).
Proof.
  unfold _arun, _arun_body.
  apply cost_try.
  - replace (2 * (t + g) + 4 * (d + q + g + x + (t + g)) + t)%nat
      with ((t + g) + ((t + g) + (4 * (d + q + g + x + (t + g)) + t)))%nat
      by lia.
    apply cost_bind; [apply cost_select|intros fields].
    apply cost_bind; [apply cost_generate_query|intros response].
    apply cost_bind; [|intros; apply cost_finish].
    apply (cost_loop question fields run_manager fuel
             (mkVars None 0 false "" response)).
  - intros e.
    destruct run_manager; [|apply (cost_weaken 0); [lia|apply cost_raise]].
    replace x with (x + 0)%nat by lia.
    apply cost_bind; [|intros; apply cost_ret].
    eapply cost_weaken; [|apply cost_emit]. auto.
Qed.

End Cost.

Section RunBounds.

Context {Row : Type}.
Variable settings : Settings.
Variable db : BigQueryDatabase Row.
Variable tool : BigQueryTool.
Variable _agenerate_response :
  list Message -> option bool -> History -> Answer string.
Variable repr_rows : list Row -> string.

Local Abbreviation validate :=
  (_avalidate_response settings db tool _agenerate_response repr_rows).
Local Abbreviation improve := (_aimprove_query tool _agenerate_response).
Local Abbreviation loop :=
  (validation_loop settings db tool _agenerate_response repr_rows).
Local Abbreviation run := (_arun settings db tool _agenerate_response repr_rows).

(** X12. One question costs at most four cost estimates, four real
    warehouse queries and ten calls of the text generation (one to select
    fields, one to generate, four to validate, four to repair), whatever
    the warehouse and the model answer. *)
Theorem run_resource_bounds :
  forall fuel question run_manager st,
    (count_events is_dry_run
       (new_events st (snd (run fuel question run_manager st))) <= 4)%nat /\
    (count_events is_real_query
       (new_events st (snd (run fuel question run_manager st))) <= 4)%nat /\
    (count_events is_generate
       (new_events st (snd (run fuel question run_manager st))) <= 10)%nat.
Proof.
  intros fuel question run_manager st. split; [|split].
  - destruct (cost_run (hit is_dry_run) 1 0 0 0 0
                ltac:(intros; cbn; lia) ltac:(intros; cbn; lia)
                ltac:(intros; cbn; lia) ltac:(intros; cbn; lia)
                ltac:(intros; cbn; lia)
                settings db tool _agenerate_response repr_rows
                fuel question run_manager st) as (evs & Hh & Hc).
    rewrite (new_events_ext _ _ _ Hh), count_events_total. exact Hc.
  - destruct (cost_run (hit is_real_query) 0 1 0 0 0
                ltac:(intros; cbn; lia) ltac:(intros; cbn; lia)
                ltac:(intros; cbn; lia) ltac:(intros; cbn; lia)
                ltac:(intros; cbn; lia)
                settings db tool _agenerate_response repr_rows
                fuel question run_manager st) as (evs & Hh & Hc).
    rewrite (new_events_ext _ _ _ Hh), count_events_total. exact Hc.
  - destruct (cost_run (hit is_generate) 0 0 1 0 0
                ltac:(intros; cbn; lia) ltac:(intros; cbn; lia)
                ltac:(intros; cbn; lia) ltac:(intros; cbn; lia)
                ltac:(intros; cbn; lia)
                settings db tool _agenerate_response repr_rows
                fuel question run_manager st) as (evs & Hh & Hc).
    rewrite (new_events_ext _ _ _ Hh), count_events_total. exact Hc.
Qed.

End RunBounds.

(* --------------------------------------------------------------------- *)
(** ** The input of a run *)
(* --------------------------------------------------------------------- *)

Section Input.

Context {Row : Type}.
Variable settings : Settings.
Variable db : BigQueryDatabase Row.
Variable tool : BigQueryTool.
Variable _agenerate_response :
  list Message -> option bool -> History -> Answer string.
Variable repr_rows : list Row -> string.
Variable parse_raw : string -> Answer ToolInputSchema.

Local Abbreviation run := (_arun settings db tool _agenerate_response repr_rows).
Local Abbreviation run_from_input :=
  (_arun_from_input settings db tool _agenerate_response repr_rows parse_raw).

(** With a run manager attached, the [try] statement never raises. *)
Lemma run_with_manager_never_raises fuel question (m : RunManager) st e st' :
  run fuel question (Some m) st <> (Raise e, st').
Proof.
  intros E. unfold _arun in E. apply try_except_raises in E.
  destruct E as (e0 & st0 & E). discriminate.
Qed.

(** X13. The errors of the input escape the handler of [_arun]: lines
    105-106 stand before the [try]. A call without a positional argument
    raises [IndexError], also where the query is given by keyword, and an
    input that [parse_raw] refuses raises what the parser raised; in both
    cases nothing is reported to the run manager and no call is made.
    Otherwise the run is the [try] statement on the parsed input's
    [latest_human_message], the keyword ["query"] taking precedence over
    the positional argument. With a run manager attached, these input
    errors are the only exceptions of [_arun]. *)
Theorem input_errors_escape_the_handler :
  forall fuel args kwargs run_manager st,
    (args = [] ->
     run_from_input fuel args kwargs run_manager st = (Raise IndexError, st)) /\
    (forall arg0 rest e,
        args = arg0 :: rest ->
        parse_raw (dict_get kwargs "query" arg0) = Raises e ->
        run_from_input fuel args kwargs run_manager st = (Raise e, st)) /\
    (forall arg0 rest query,
        args = arg0 :: rest ->
        parse_raw (dict_get kwargs "query" arg0) = Returns query ->
        run_from_input fuel args kwargs run_manager st
        = run fuel (latest_human_message query) run_manager st) /\
    (forall e st',
        run_manager <> None ->
        run_from_input fuel args kwargs run_manager st = (Raise e, st') ->
        st' = st /\
        ((args = [] /\ e = IndexError) \/
         (exists arg0 rest,
             args = arg0 :: rest /\
             parse_raw (dict_get kwargs "query" arg0) = Raises e))).
Proof.
  intros fuel args kwargs run_manager st.
  split; [|split; [|split]].
  - intros ->. reflexivity.
  - intros arg0 rest e -> Hparse.
    unfold _arun_from_input, bind, ask. now rewrite Hparse.
  - intros arg0 rest query -> Hparse.
    unfold _arun_from_input, bind, ask. now rewrite Hparse.
  - intros e st' Hrm. unfold _arun_from_input.
    destruct args as [|arg0 rest].
    + unfold raise. intros H; inversion H; subst. auto.
    + unfold bind, ask.
      destruct (parse_raw (dict_get kwargs "query" arg0)) as [query|e0] eqn:Hparse.
      * destruct run_manager as [m|]; [|congruence].
        intros H. exfalso. exact (run_with_manager_never_raises _ _ _ _ _ _ H).
      * intros H; inversion H; subst. split; [reflexivity|].
        right. exists arg0, rest. auto.
Qed.

End Input.

(** A call that gives the query by keyword only fails with [IndexError],
    run manager or not, and leaves no trace. *)
Lemma input_errors_escape_the_handler_witness :
  _arun_from_input Scenario.test_settings Scenario.db_a
    (Scenario.test_tool false) Scenario.llm_a Scenario.repr_rows
    (fun text => Returns (mkToolInput text))
    4 [] [("query", "show events")] Scenario.rm Scenario.fresh
  = (Raise IndexError, Scenario.fresh).
Proof.
  exact (proj1 (input_errors_escape_the_handler
                  Scenario.test_settings Scenario.db_a
                  (Scenario.test_tool false) Scenario.llm_a Scenario.repr_rows
                  (fun text => Returns (mkToolInput text))
                  4 [] [("query", "show events")] Scenario.rm Scenario.fresh)
               eq_refl).
Defined.

(* --------------------------------------------------------------------- *)
(** ** More on the extraction of the query *)
(* --------------------------------------------------------------------- *)

Lemma rstrip_idem s : PyStr.rstrip (PyStr.rstrip s) = PyStr.rstrip s.
Proof.
  induction s as [|c s IH]; [reflexivity|].
  cbn [PyStr.rstrip].
  destruct (PyStr.rstrip s) as [|a r] eqn:Hr.
  - destruct (PyStr.isspace c) eqn:Hc; [reflexivity|].
    cbn [PyStr.rstrip]. now rewrite Hc.
  - change (PyStr.rstrip (String c (String a r)))
      with (match PyStr.rstrip (String a r) with
            | EmptyString =>
                if PyStr.isspace c then EmptyString else String c EmptyString
            | String a' r' => String c (String a' r')
            end).
    now rewrite IH.
Qed.

Lemma lstrip_head s :
  PyStr.lstrip s = "" \/
  exists c r, PyStr.lstrip s = String c r /\ PyStr.isspace c = false.
Proof.
  induction s as [|c s IH]; [left; reflexivity|].
  cbn [PyStr.lstrip]. destruct (PyStr.isspace c) eqn:Hc; [exact IH|].
  right. eauto.
Qed.

Lemma lstrip_rstrip_head c r :
  PyStr.isspace c = false ->
  PyStr.lstrip (PyStr.rstrip (String c r)) = PyStr.rstrip (String c r).
Proof.
  intros Hc. cbn [PyStr.rstrip]. rewrite Hc.
  destruct (PyStr.rstrip r); cbn [PyStr.lstrip]; now rewrite Hc.
Qed.

Lemma strip_idem s : PyStr.strip (PyStr.strip s) = PyStr.strip s.
Proof.
  unfold PyStr.strip.
  destruct (lstrip_head s) as [H|(c & r & H & Hc)]; rewrite H.
  - reflexivity.
  - rewrite (lstrip_rstrip_head c r Hc). apply rstrip_idem.
Qed.

Lemma prefix_trans a : forall b c,
  String.prefix a b = true -> String.prefix b c = true ->
  String.prefix a c = true.
Proof.
  induction a as [|x a IH]; intros b c Hab Hbc; [destruct c; reflexivity|].
  destruct b as [|y b]; [discriminate|]. destruct c as [|z c]; [discriminate|].
  cbn [String.prefix] in *.
  destruct (ascii_dec x y) as [->|]; [|discriminate].
  destruct (ascii_dec y z) as [->|]; [|discriminate].
  eauto.
Qed.

(** An occurrence inside a prefix of [t] is an occurrence in [t]. *)
Lemma occurs_in_prefix sub : forall j p t,
  sub <> "" ->
  String.prefix p t = true ->
  occurs_at sub p j = true -> occurs_at sub t j = true.
Proof.
  unfold occurs_at.
  induction j as [|j IH]; intros p t Hne Hp Hocc.
  - cbn [PyStr.drop] in *. eapply prefix_trans; eauto.
  - destruct p as [|a p].
    + cbn [PyStr.drop] in Hocc. destruct sub; [congruence|discriminate].
    + destruct t as [|b t]; [discriminate|].
      cbn [String.prefix] in Hp. destruct (ascii_dec a b); [|discriminate].
      cbn [PyStr.drop] in *. eauto.
Qed.

Lemma rstrip_prefix s : String.prefix (PyStr.rstrip s) s = true.
Proof.
  induction s as [|c s IH]; [reflexivity|].
  cbn [PyStr.rstrip]. destruct (PyStr.rstrip s) as [|a r].
  - destruct (PyStr.isspace c); [reflexivity|].
    cbn [String.prefix]. destruct (ascii_dec c c); [|congruence].
    destruct s; reflexivity.
  - cbn [String.prefix] in *. destruct (ascii_dec c c); [|congruence].
    exact IH.
Qed.

Lemma lstrip_drop s : exists i, PyStr.lstrip s = PyStr.drop i s.
Proof.
  induction s as [|c s [i IH]]; [exists O; reflexivity|].
  cbn [PyStr.lstrip]. destruct (PyStr.isspace c).
  - exists (S i). exact IH.
  - exists O. reflexivity.
Qed.

Lemma substring_prefix : forall n s,
  String.prefix (String.substring 0 n s) s = true.
Proof.
  induction n as [|n IH]; intros s; [destruct s; reflexivity|].
  destruct s as [|c s]; [reflexivity|].
  cbn [String.substring String.prefix].
  destruct (ascii_dec c c); [apply IH|congruence].
Qed.

Lemma substring_drop : forall a n s,
  String.substring a n s = String.substring 0 n (PyStr.drop a s).
Proof.
  induction a as [|a IH]; intros n s; [reflexivity|].
  destruct s as [|c s].
  - cbn [PyStr.drop]. destruct n; reflexivity.
  - cbn [String.substring PyStr.drop]. apply IH.
Qed.

Lemma substring_length_le : forall n s,
  (String.length (String.substring 0 n s) <= n)%nat.
Proof.
  induction n as [|n IH]; intros s; [destruct s; cbn; lia|].
  destruct s as [|c s]; [cbn; lia|].
  cbn [String.substring String.length]. specialize (IH s). lia.
Qed.

(** An occurrence in the stripped slice [s[a:a+n]] lies in [s] at an
    offset from [a] on and before [a + n]. *)
Lemma occurs_in_stripped_slice sub s a n j :
  sub <> "" ->
  occurs_at sub (PyStr.strip (String.substring a n s)) j = true ->
  exists k, (a <= k < a + n)%nat /\ occurs_at sub s k = true.
Proof.
  intros Hne Hocc. unfold PyStr.strip in Hocc.
  apply (occurs_in_prefix sub j _ (PyStr.lstrip (String.substring a n s)) Hne
           (rstrip_prefix _)) in Hocc.
  destruct (lstrip_drop (String.substring a n s)) as [i Hi].
  rewrite Hi in Hocc. unfold occurs_at in Hocc. rewrite drop_drop in Hocc.
  fold (occurs_at sub (String.substring a n s) (i + j)) in Hocc.
  pose proof (occurs_at_bound _ _ _ Hocc Hne) as Hbound.
  rewrite substring_drop in Hocc, Hbound.
  pose proof (substring_length_le n (PyStr.drop a s)) as Hlen.
  apply (occurs_in_prefix sub (i + j) _ (PyStr.drop a s) Hne
           (substring_prefix _ _)) in Hocc.
  unfold occurs_at in Hocc. rewrite drop_drop in Hocc.
  exists (a + (i + j))%nat. split; [|exact Hocc].
  assert (0 < String.length sub)%nat by (destruct sub; [congruence|cbn; lia]).
  lia.
Qed.

Lemma find_from_sound s sub a e :
  PyStr.find s sub (Z.of_nat a) = Z.of_nat e -> first_occurrence sub s a e.
Proof.
  unfold PyStr.find, PyStr.clamp.
  destruct (Z.ltb_spec (Z.of_nat a) 0); [lia|].
  destruct (Z.ltb_spec (Z.of_nat (String.length s)) (Z.of_nat a)); [lia|].
  rewrite Nat2Z.id.
  destruct (PyStr.search sub (PyStr.drop a s) a) as [k|] eqn:Hs; [|lia].
  intros Hk. apply Nat2Z.inj in Hk. subst k.
  apply search_drop_sound; [lia|exact Hs].
Qed.

Lemma find_range s sub start :
  PyStr.find s sub start = -1 \/
  exists k, PyStr.find s sub start = Z.of_nat k.
Proof.
  unfold PyStr.find.
  destruct (_ <? _); [left; reflexivity|].
  destruct (PyStr.search _ _ _); [right; eauto|left; reflexivity].
Qed.

(** What an extracted query is: the stripped text between an offset [a]
    of at least 5 and the first closing marker from [a] on. *)
Lemma extract_query_inv response query :
  extract_query response = Some query ->
  exists a e,
    (5 <= a)%nat /\
    first_occurrence "```" response a e /\
    query = PyStr.strip (String.substring a (e - a) response).
Proof.
  unfold extract_query.
  destruct (find_range response "```sql" 0) as [H|[k H]]; rewrite H.
  - change (-1 + 6) with (Z.of_nat 5).
    destruct (find_range response "```" (Z.of_nat 5)) as [H'|[e H']]; rewrite H'.
    + rewrite orb_true_r. discriminate.
    + destruct (Z.eqb_spec (Z.of_nat 5) (-1)); [lia|].
      destruct (Z.eqb_spec (Z.of_nat e) (-1)); [lia|]. cbn [orb].
      apply find_from_sound in H'. pose proof H' as (Hle & Hlen & _).
      rewrite slice_substring by assumption.
      intros Hq; inversion Hq. exists 5%nat, e. auto.
  - replace (Z.of_nat k + 6) with (Z.of_nat (k + 6)) by lia.
    destruct (find_range response "```" (Z.of_nat (k + 6))) as [H'|[e H']];
      rewrite H'.
    + rewrite orb_true_r. discriminate.
    + destruct (Z.eqb_spec (Z.of_nat (k + 6)) (-1)); [lia|].
      destruct (Z.eqb_spec (Z.of_nat e) (-1)); [lia|]. cbn [orb].
      apply find_from_sound in H'. pose proof H' as (Hle & Hlen & _).
      rewrite slice_substring by assumption.
      intros Hq; inversion Hq. exists (k + 6)%nat, e.
      split; [lia|]. auto.
Qed.

(** X14. Whatever the response, an extracted query is trimmed (stripping
    it again changes nothing) and holds no fence marker: the text handed
    to the warehouse never contains three backquotes in a row. *)
Theorem extracted_query_is_trimmed_and_unfenced :
  forall response query,
    extract_query response = Some query ->
    PyStr.strip query = query /\
    PyStr.contains query "```" = false.
Proof.
  intros response query H.
  destruct (extract_query_inv _ _ H) as (a & e & Ha & Hfirst & ->).
  split; [apply strip_idem|].
  unfold PyStr.contains.
  rewrite search_none; [reflexivity|].
  intros j.
  destruct (String.prefix "```"
              (PyStr.drop j (PyStr.strip (String.substring a (e - a) response))))
    eqn:Hocc; [|reflexivity].
  exfalso.
  destruct (occurs_in_stripped_slice "```" response a (e - a) j
              ltac:(discriminate) Hocc) as (k & Hk & Hat).
  destruct Hfirst as (Hle & _ & _ & Hbefore).
  rewrite Hbefore in Hat by lia. discriminate.
Qed.

(** X15. A response without the opening marker is not refused for that:
    the closing marker is then looked for from offset 5 on, and the text
    from offset 5 up to it, stripped, is taken as the query; only when no
    closing marker is found from there on is nothing extracted. *)
Theorem extract_query_without_opening_marker_from_offset_5 :
  forall response,
    no_occurrence "```sql" response 0 ->
    (forall e,
        first_occurrence "```" response 5 e ->
        extract_query response
        = Some (PyStr.strip (String.substring 5 (e - 5) response))) /\
    (no_occurrence "```" response 5 -> extract_query response = None).
Proof.
  intros response Hopen.
  assert (Hstart : PyStr.find response "```sql" 0 + 6 = Z.of_nat 5).
  { change 0 with (Z.of_nat 0). now rewrite (find_absent _ _ _ Hopen). }
  split.
  - intros e Hclose. pose proof Hclose as (Hle & Hlen & _).
    unfold extract_query. rewrite Hstart, (find_first _ _ _ _ Hclose).
    destruct (Z.eqb_spec (Z.of_nat 5) (-1)); [lia|].
    destruct (Z.eqb_spec (Z.of_nat e) (-1)); [lia|].
    cbn [orb]. now rewrite slice_substring.
  - intros Hnone. unfold extract_query.
    rewrite Hstart, (find_absent _ _ _ Hnone). now rewrite orb_true_r.
Qed.

Lemma extracted_query_is_trimmed_and_unfenced_witness :
  PyStr.strip "SELECT * FROM events" = "SELECT * FROM events" /\
  PyStr.contains "SELECT * FROM events" "```" = false.
Proof.
  exact (extracted_query_is_trimmed_and_unfenced
           Scenario.fenced_query "SELECT * FROM events" eq_refl).
Defined.

Lemma extract_query_without_opening_marker_from_offset_5_witness :
  extract_query "see: ```SELECT 1```" = Some "".
Proof.
  assert (Hopen : no_occurrence "```sql" "see: ```SELECT 1```" 0).
  { intros j _. unfold occurs_at.
    do 19 (destruct j as [|j]; [reflexivity|]).
    cbn [PyStr.drop]. now rewrite drop_nil. }
  assert (Hclose : first_occurrence "```" "see: ```SELECT 1```" 5 5).
  { apply (search_drop_sound _ _ 5 5); [simpl; lia|reflexivity]. }
  exact (proj1 (extract_query_without_opening_marker_from_offset_5
                  "see: ```SELECT 1```" Hopen) 5%nat Hclose).
Defined.

(* --------------------------------------------------------------------- *)
(** ** The list of required fields *)
(* --------------------------------------------------------------------- *)

Lemma split_free sep s :
  Forall (fun p => free_of sep p = true) (PyStr.split sep s).
Proof.
  induction s as [|c s IH]; [repeat constructor|].
  cbn [PyStr.split]. destruct (Ascii.eqb c sep) eqn:Hc.
  - constructor; [reflexivity|exact IH].
  - destruct (PyStr.split sep s) as [|l ls].
    + repeat constructor. cbn [free_of]. now rewrite Hc.
    + inversion IH; subst. constructor; [|assumption].
      cbn [free_of]. rewrite Hc. assumption.
Qed.

Lemma split_single sep p :
  free_of sep p = true -> PyStr.split sep p = [p].
Proof.
  induction p as [|c p IH]; [reflexivity|].
  cbn [free_of PyStr.split]. intros H. apply andb_prop in H.
  destruct H as [Hc Hp]. apply negb_true_iff in Hc. rewrite Hc.
  now rewrite (IH Hp).
Qed.

Lemma split_app_sep sep p rest :
  free_of sep p = true ->
  PyStr.split sep (p ++ String sep rest) = p :: PyStr.split sep rest.
Proof.
  induction p as [|c p IH]; intros H.
  - cbn [append PyStr.split]. now rewrite Ascii.eqb_refl.
  - cbn [free_of] in H. apply andb_prop in H. destruct H as [Hc Hp].
    apply negb_true_iff in Hc.
    cbn [append PyStr.split]. rewrite Hc. now rewrite (IH Hp).
Qed.

Lemma free_of_app c a b :
  free_of c a = true -> free_of c b = true -> free_of c (a ++ b) = true.
Proof.
  induction a as [|x a IH]; intros Ha Hb; [exact Hb|].
  cbn [free_of append] in *. apply andb_prop in Ha. destruct Ha as [Hx Ha].
  rewrite Hx. cbn [andb]. auto.
Qed.

Lemma lstrip_free c s : free_of c s = true -> free_of c (PyStr.lstrip s) = true.
Proof.
  induction s as [|x s IH]; intros H; [reflexivity|].
  cbn [PyStr.lstrip]. destruct (PyStr.isspace x); [|exact H].
  cbn [free_of] in H. apply andb_prop in H. apply IH, H.
Qed.

Lemma rstrip_free c s : free_of c s = true -> free_of c (PyStr.rstrip s) = true.
Proof.
  induction s as [|x s IH]; intros H; [reflexivity|].
  cbn [free_of] in H. apply andb_prop in H. destruct H as [Hx Hs].
  specialize (IH Hs). cbn [PyStr.rstrip].
  destruct (PyStr.rstrip s) as [|a r].
  - destruct (PyStr.isspace x); [reflexivity|].
    cbn [free_of]. now rewrite Hx.
  - cbn [free_of] in *. now rewrite Hx, IH.
Qed.

Lemma strip_free c s : free_of c s = true -> free_of c (PyStr.strip s) = true.
Proof. intros H. unfold PyStr.strip. now apply rstrip_free, lstrip_free. Qed.

Lemma str_append_assoc (a b c : string) : (a ++ b) ++ c = a ++ (b ++ c).
Proof. induction a as [|x a IH]; cbn [append]; [reflexivity|now rewrite IH]. Qed.

(** Splitting a joined list of comma-free entries gives the entries back,
    each but the first behind the blank of the separator. *)
Lemma split_join ps : forall p w,
  free_of "," w = true ->
  Forall (fun f => free_of "," f = true) (p :: ps) ->
  PyStr.split "," (w ++ PyStr.join ", " (p :: ps))
  = (w ++ p) :: map (String " ") ps.
Proof.
  induction ps as [|f ps IH]; intros p w Hw Hall; inversion Hall; subst.
  - cbn [PyStr.join map]. apply split_single. now apply free_of_app.
  - change (PyStr.join ", " (p :: f :: ps))
      with (p ++ String "," (String " " (PyStr.join ", " (f :: ps)))).
    rewrite <- (str_append_assoc w p).
    rewrite split_app_sep by now apply free_of_app.
    change (String " " (PyStr.join ", " (f :: ps)))
      with (" " ++ PyStr.join ", " (f :: ps)).
    rewrite IH by (try reflexivity; assumption).
    reflexivity.
Qed.

Lemma strip_blank s : PyStr.strip (String " " s) = PyStr.strip s.
Proof. reflexivity. Qed.

(** The field list is in normal form: making a field list of it again
    changes nothing. *)
Lemma field_list_idem response :
  field_list (field_list response) = field_list response.
Proof.
  unfold field_list.
  pose proof (split_free "," response) as Hfree.
  destruct (PyStr.split "," response) as [|p ps] eqn:Hs.
  - destruct response; cbn in Hs; [discriminate|].
    destruct (Ascii.eqb _ _); [discriminate|].
    destruct (PyStr.split _ _); discriminate.
  - cbn [map].
    assert (Hall : Forall (fun f => free_of "," f = true)
                          (PyStr.strip p :: map PyStr.strip ps)).
    { inversion Hfree; subst. constructor; [now apply strip_free|].
      rewrite Forall_map. eapply Forall_impl; [|eassumption].
      intros f Hf. now apply strip_free. }
    pose proof (split_join (map PyStr.strip ps) (PyStr.strip p) ""
                  eq_refl Hall) as Hsplit.
    cbn [append] in Hsplit. rewrite Hsplit.
    cbn [map]. rewrite strip_idem. f_equal. f_equal.
    rewrite !map_map. apply map_ext. intros f.
    rewrite strip_blank. apply strip_idem.
Qed.

Section FieldSelection.

Variable tool : BigQueryTool.
Variable _agenerate_response :
  list Message -> option bool -> History -> Answer string.

(** X16. The field selection asks the text generation once, with the fast
    model discarded, and returns the field list of the answer: the
    comma-separated entries, each trimmed, joined by [", "]. The list is
    in normal form (selecting from it again would give it back), and an
    empty answer gives the empty list instead of an error. *)
Theorem selected_fields_are_normalised :
  forall question run_manager st fields st',
    _alist_required_fields tool _agenerate_response question run_manager st
    = (Ok fields, st') ->
    (exists text messages,
        _agenerate_response messages (Some true) (history st') = Returns text /\
        new_events st st'
        = (match run_manager with
           | Some _ => [EvOnText "list_fields" ACTION]
           | None => []
           end ++ [EvGenerate SelectFields messages (Some true)])%list /\
        fields = field_list text /\
        (text = "" -> fields = "")) /\
    field_list fields = fields.
Proof.
  intros question run_manager st fields st'.
  unfold _alist_required_fields.
  set (messages := [SystemMessage _; HumanMessage _]).
  destruct run_manager as [m|]; cbn [with_run_manager].
  - unfold generate, bind, emit, ret, ask. cbn [history pool_is_shutdown].
    destruct (_agenerate_response messages (Some true)
                ((history st ++ [EvOnText "list_fields" ACTION]) ++
                 [EvGenerate SelectFields messages (Some true)])%list)
      as [text|e] eqn:Hllm; [|discriminate].
    intros H; inversion H; subst; clear H.
    split; [|apply field_list_idem].
    exists text, messages. cbn [history].
    split; [exact Hllm|].
    split; [apply new_events_ext; cbn [history app];
            rewrite <- app_assoc; reflexivity|].
    split; [reflexivity|intros ->; reflexivity].
  - unfold generate, bind, emit, ret, ask. cbn [history pool_is_shutdown].
    destruct (_agenerate_response messages (Some true)
                (history st ++ [EvGenerate SelectFields messages (Some true)])%list)
      as [text|e] eqn:Hllm; [|discriminate].
    intros H; inversion H; subst; clear H.
    split; [|apply field_list_idem].
    exists text, messages. cbn [history].
    split; [exact Hllm|].
    split; [apply new_events_ext; reflexivity|].
    split; [reflexivity|intros ->; reflexivity].
Qed.

End FieldSelection.

(** The answer of the tool's test: "user_id, event_name". *)
Lemma selected_fields_are_normalised_witness :
  field_list "user_id, event_name" = "user_id, event_name".
Proof.
  exact (proj2 (selected_fields_are_normalised
                  (Scenario.test_tool false) Scenario.llm_a
                  "Show me events" None Scenario.fresh
                  "user_id, event_name"
                  (mkState [EvGenerate SelectFields
                              [SystemMessage ""; HumanMessage ""] (Some true)]
                           false)
                  eq_refl)).
Defined.

(* --------------------------------------------------------------------- *)
(** ** What the tool can answer *)
(* --------------------------------------------------------------------- *)

Section Answers.

Context {Row : Type}.
Variable settings : Settings.
Variable db : BigQueryDatabase Row.
Variable tool : BigQueryTool.
Variable _agenerate_response :
  list Message -> option bool -> History -> Answer string.
Variable repr_rows : list Row -> string.

Local Abbreviation validate :=
  (_avalidate_response settings db tool _agenerate_response repr_rows).
Local Abbreviation loop :=
  (validation_loop settings db tool _agenerate_response repr_rows).
Local Abbreviation run := (_arun settings db tool _agenerate_response repr_rows).

Local Abbreviation improve := (_aimprove_query tool _agenerate_response).

(** An empty response is never accepted: no query can be extracted from
    it. *)
Lemma accepted_response_nonempty question response run_manager st rs c st' :
  validate question response run_manager st = (Ok (true, rs, c), st') ->
  response <> "".
Proof.
  intros H ->. unfold _avalidate_response, try_except in H.
  change (extract_query "") with (@None string) in H.
  unfold ret in H. discriminate.
Qed.

(** The loop follows the candidates: it is left with the first candidate
    that is accepted, or without a result after the fourth candidate
    failed and was repaired. *)
Lemma loop_outcome question fields run_manager :
  forall fuel v st v' st',
    result v = None -> is_valid v = false -> 0 <= retries v <= 4 ->
    loop fuel question fields run_manager v st = (Ok v', st') ->
    (result v' = None /\ is_valid v' = false /\
     nth_candidate settings db tool _agenerate_response repr_rows question
                   run_manager (Z.to_nat (4 - retries v)) fields
                   (query_response v, st)
     = Some (query_response v', st')) \/
    (exists k response stk rs c,
        retries v + Z.of_nat k <= 3 /\
        nth_candidate settings db tool _agenerate_response repr_rows question
                      run_manager k fields (query_response v, st)
        = Some (response, stk) /\
        validate question response run_manager stk = (Ok (true, rs, c), st') /\
        v' = mkVars (Some response) (retries v + Z.of_nat k) true rs response).
Proof.
  induction fuel as [|fuel IH]; intros v st v' st' Hres Hvalid Hret;
    cbn [validation_loop];
    destruct (is_none (result v) && (retries v <=? 3)) eqn:Hc;
    try discriminate;
    try (unfold ret; intros H; inversion H; subst; left;
         rewrite Hres in Hc; cbn [is_none andb] in Hc;
         apply Z.leb_gt in Hc;
         replace (Z.to_nat (4 - retries v')) with 0%nat by lia;
         repeat split; assumption).
  apply andb_prop in Hc. destruct Hc as [_ Hle]. apply Z.leb_le in Hle.
  unfold bind at 1.
  destruct (validate question (query_response v) run_manager st)
    as [[[[valid rs] c]|e|] st1] eqn:Hval; try discriminate.
  destruct valid.
  - rewrite loop_exit by reflexivity.
    intros H; inversion H; subst. right.
    exists 0%nat, (query_response v), st, rs, c.
    rewrite Z.add_0_r. repeat split; [lia|exact Hval].
  - unfold bind at 1.
    destruct (improve question (query_response v) c fields run_manager st1)
      as [[improved|e|] st2] eqn:Himp; try discriminate.
    intros H. rewrite Hres in H.
    apply (IH (mkVars None (retries v + 1) false rs improved) st2 v' st'
              eq_refl eq_refl ltac:(cbn [retries]; lia)) in H.
    cbn [retries query_response] in H.
    assert (Hnext : next_candidate settings db tool _agenerate_response
                      repr_rows question run_manager fields
                      (query_response v, st) = Some (improved, st2)).
    { unfold next_candidate. cbn [fst snd]. now rewrite Hval, Himp. }
    destruct H as [(Hres' & Hvalid' & Hcand)
                  |(k & response & stk & rs' & c' & Hk & Hcand & Hacc & Hv')].
    + left. repeat split; try assumption.
      replace (Z.to_nat (4 - retries v))
        with (S (Z.to_nat (4 - (retries v + 1)))) by lia.
      cbn [nth_candidate]. rewrite Hnext. exact Hcand.
    + right. exists (S k), response, stk, rs', c'.
      repeat split; [lia| |exact Hacc|].
      * cbn [nth_candidate]. rewrite Hnext. exact Hcand.
      * rewrite Hv'. f_equal; lia.
Qed.

(** X17. The tool never answers with a candidate that failed validation.
    Whatever a run returns is one of three things. It is the sentinel
    ["no_data"] after the four candidates of the run all failed
    validation. Or, with a run manager attached, it is the [repr] of the
    exception that the run reported to the run manager as its last call.
    Or it comes from one of the four candidates of the run, which its
    validation in the run accepted: that response itself without a run
    manager, and with one the response, the separator and the summary of
    its verdict, after the response was announced as the appendix. *)
Theorem run_answers_only_accepted_candidates :
  forall fuel question run_manager st answer st',
    run fuel question run_manager st = (Ok answer, st') ->
    (answer = "no_data" /\
     exists c,
       candidate settings db tool _agenerate_response repr_rows question
                 run_manager 4 st = Some c) \/
    (exists m e st0,
        run_manager = Some m /\ answer = exn_repr e /\
        st' = record_event st0 (EvOnToolError e)) \/
    (exists k response stk summary complaints stk',
        (k <= 3)%nat /\
        candidate settings db tool _agenerate_response repr_rows question
                  run_manager k st = Some (response, stk) /\
        validate question response run_manager stk
        = (Ok (true, summary, complaints), stk') /\
        answer = match run_manager with
                 | Some _ => _construct_final_response response summary
                 | None => response
                 end /\
        st' = match run_manager with
              | Some _ => record_event stk' (EvOnText response APPENDIX)
              | None => stk'
              end).
Proof.
  intros fuel question run_manager st answer st'.
  unfold _arun, try_except.
  destruct (_arun_body settings db tool _agenerate_response repr_rows fuel
              question run_manager st) as [[a|e|] st0] eqn:Hbody;
    [| |discriminate].
  - intros H; inversion H; subst; clear H.
    revert Hbody. unfold _arun_body, candidate, first_candidate.
    unfold bind at 1.
    destruct (_alist_required_fields _ _ _ _ _) as [[fields|e|] st1];
      try discriminate.
    unfold bind at 1.
    destruct (_agenerate_query _ _ _ _ _ _) as [[response|e|] st2];
      try discriminate.
    unfold bind at 1.
    destruct (loop fuel question fields run_manager
                (mkVars None 0 false "" response) st2)
      as [[v'|e|] st3] eqn:Hloop; try discriminate.
    apply loop_outcome in Hloop;
      [|reflexivity|reflexivity|cbn [retries]; lia].
    cbn [retries query_response] in Hloop.
    change (Z.to_nat (4 - 0)) with 4%nat in Hloop.
    destruct Hloop as [(Hres & Hvalid & Hcand)
                      |(k & resp & stk & rs & c & Hk & Hcand & Hacc & Hv')].
    + unfold finish. rewrite Hres, Hvalid.
      destruct run_manager; unfold bind, emit, ret; cbn [or_no_data];
        intros H; inversion H; left; eauto.
    + subst v'. unfold finish. cbn [is_valid result query_response results_str].
      pose proof (accepted_response_nonempty _ _ _ _ _ _ _ Hacc) as Hne.
      destruct run_manager as [m|].
      * unfold bind, emit, ret. cbn [or_empty].
        intros H; inversion H; subst.
        right. right. exists k, resp, stk, rs, c, st3.
        repeat split; [lia|exact Hcand|exact Hacc].
      * unfold ret. destruct resp as [|ch r]; [congruence|].
        cbn [or_no_data]. intros H; inversion H; subst.
        right. right. exists k, (String ch r), stk, rs, c, st'.
        repeat split; [lia|exact Hcand|exact Hacc].
  - destruct run_manager as [m|]; [|discriminate].
    unfold bind, emit, ret. intros H; inversion H; subst.
    right. left. exists m, e, st0. auto.
Qed.

End Answers.

(** The model that fails when first consulted for the validation, without
    a run manager: the answer is the candidate that the repair produced,
    accepted in the second iteration. *)
Lemma run_answers_only_accepted_candidates_witness :
  ("```sql" ++ String PyStr.nl "SELECT * FROM events```" = "no_data" /\
   exists c,
     candidate Scenario.test_settings Scenario.db_a (Scenario.test_tool true)
               Scenario.llm_failing_validation Scenario.repr_rows
               "show events" None 4 Scenario.fresh = Some c) \/
  (exists m e st0,
      @None RunManager = Some m /\
      "```sql" ++ String PyStr.nl "SELECT * FROM events```" = exn_repr e /\
      Scenario.st_answered = record_event st0 (EvOnToolError e)) \/
  (exists k response stk summary complaints stk',
      (k <= 3)%nat /\
      candidate Scenario.test_settings Scenario.db_a (Scenario.test_tool true)
                Scenario.llm_failing_validation Scenario.repr_rows
                "show events" None k Scenario.fresh = Some (response, stk) /\
      _avalidate_response Scenario.test_settings Scenario.db_a
        (Scenario.test_tool true) Scenario.llm_failing_validation
        Scenario.repr_rows "show events" response None stk
      = (Ok (true, summary, complaints), stk') /\
      "```sql" ++ String PyStr.nl "SELECT * FROM events```" = response /\
      Scenario.st_answered = stk').
Proof.
  exact (run_answers_only_accepted_candidates
           Scenario.test_settings Scenario.db_a (Scenario.test_tool true)
           Scenario.llm_failing_validation Scenario.repr_rows 4 "show events"
           None Scenario.fresh Scenario.fenced_query Scenario.st_answered
           ltac:(vm_compute; reflexivity)).
Defined.

(* --------------------------------------------------------------------- *)
(** ** The date range condition of the GA4 schema *)
(* --------------------------------------------------------------------- *)

(** Two texts that agree up to their first quote agree before and after
    it. *)
Lemma split_at_quote a : forall b r1 r2,
  free_of "'" a = true -> free_of "'" b = true ->
  a ++ String "'" r1 = b ++ String "'" r2 ->
  a = b /\ r1 = r2.
Proof.
  induction a as [|x a IH]; intros b r1 r2 Ha Hb H.
  - destruct b as [|y b]; cbn [append] in H.
    + inversion H. auto.
    + exfalso. inversion H; subst. cbn in Hb; discriminate.
  - destruct b as [|y b]; cbn [append] in H.
    + exfalso. inversion H; subst. cbn in Ha; discriminate.
    + inversion H; subst. cbn [free_of] in Ha, Hb.
      apply andb_prop in Ha. apply andb_prop in Hb.
      destruct (IH b r1 r2) as [-> ->]; tauto.
Qed.

(** X18. [get_date_range_condition] inserts the dates as they are,
    between quotes. For dates that hold no quote the condition determines
    both dates; with a quote in a date it does not: two different ranges
    can give the same condition. *)
Theorem date_range_condition_determines_quote_free_dates :
  (forall s1 e1 s2 e2,
      free_of "'" s1 = true -> free_of "'" e1 = true ->
      free_of "'" s2 = true -> free_of "'" e2 = true ->
      GA4Schema.get_date_range_condition s1 e1
      = GA4Schema.get_date_range_condition s2 e2 ->
      s1 = s2 /\ e1 = e2) /\
  GA4Schema.get_date_range_condition "a' AND 'b" "c"
  = GA4Schema.get_date_range_condition "a" "b' AND 'c".
Proof.
  split; [|reflexivity].
  intros s1 e1 s2 e2 Hs1 He1 Hs2 He2 H.
  unfold GA4Schema.get_date_range_condition in H.
  cbn [append] in H.
  repeat match type of H with
         | String ?c _ = String ?c _ => injection H as H
         end.
  change ("' AND '" ++ e1 ++ "'") with (String "'" (" AND '" ++ e1 ++ "'")) in H.
  change ("' AND '" ++ e2 ++ "'") with (String "'" (" AND '" ++ e2 ++ "'")) in H.
  apply split_at_quote in H; [|assumption..].
  destruct H as [-> H]. split; [reflexivity|].
  cbn [append] in H.
  repeat match type of H with
         | String ?c _ = String ?c _ => injection H as H
         end.
  change (e1 ++ "'") with (e1 ++ String "'" "") in H.
  apply split_at_quote in H; [|assumption..].
  apply H.
Qed.

(** The dates of the schema's test. *)
Lemma date_range_condition_determines_quote_free_dates_witness :
  GA4Schema.get_date_range_condition "20240101" "20240131"
  = "_TABLE_SUFFIX BETWEEN '20240101' AND '20240131'" /\
  ("20240101" = "20240101" /\ "20240131" = "20240131").
Proof.
  split; [reflexivity|].
  exact (proj1 date_range_condition_determines_quote_free_dates
               "20240101" "20240131" "20240101" "20240131"
               eq_refl eq_refl eq_refl eq_refl eq_refl).
Defined.
